(** * OAuth 2.0 token store on MongoDB: a shallow embedding

    The repository holds two variants of the same storage adapter:
    package [oauth2mongo] (src/oauth2mongo.go) and package [mongo]
    (src/unnamed/part_000).  Both are embedded below, each in a module
    of its own, over one shared model of the Go runtime pieces they call:
    [time.Time], BSON documents, the MongoDB driver and [log.Fatal]. *)

From Stdlib Require Import ZArith Lia Ascii String.
From stdpp Require Import base option gmap strings list fin_maps.

Local Open Scope Z_scope.
Local Open Scope string_scope.

(** ** Go's [time] package, as far as the store uses it *)

Module GoTime.

(** A [time.Time] is an instant; it is kept as the number of nanoseconds
    since the Unix epoch.  A [time.Duration] is a count of nanoseconds. *)
Definition Time : Type := Z.
Definition Duration : Type := Z.

(** Two's-complement wrap-around of an [int64]. *)
Definition wrap64 (z : Z) : Z := (z + 2 ^ 63) mod 2 ^ 64 - 2 ^ 63.

Definition Millisecond : Duration := 1000000.
Definition Minute : Duration := 60000000000.
Definition Hour : Duration := 3600000000000.

(** [t.Add(d)] *)
Definition Add (t : Time) (d : Duration) : Time := t + d.

(** [t.UnixNano()]: an [int64]. *)
Definition UnixNano (t : Time) : Z := wrap64 t.

(** [t.Second()]: the second offset within the minute, in [0, 59] (the
    same in every zone whose offset from UTC is a whole number of minutes). *)
Definition Second (t : Time) : Z := (t / 1000000000) mod 60.

(** [time.Unix(sec, nsec)] *)
Definition Unix (sec nsec : Z) : Time := sec * 1000000000 + nsec.

(** Integer division of two [int64]s truncates toward zero. *)
Definition div64 (a b : Z) : Z := wrap64 (Z.quot a b).

End GoTime.
Export GoTime.

(** ** BSON values and documents *)

Module Bson.

(** An [objectid.ObjectID] is twelve bytes; it is kept as the number the
    bytes spell (big-endian). *)
Definition ObjectID : Type := N.

Inductive value : Type :=
| VString (s : string)          (* a Go string / bson.EC.String *)
| VObjectID (o : ObjectID)      (* bson.EC.ObjectID *)
| VDateTime (ms : Z)            (* bson.EC.DateTime: milliseconds since the epoch *)
| VTime (t : Time).             (* a Go time.Time handed to the driver *)

(** A document is an ordered list of elements ([bson.D], [bson.NewDocument]). *)
Definition doc : Type := list (string * value).

Fixpoint Lookup (key : string) (d : doc) : option value :=
  match d with
  | [] => None
  | (k, v) :: d' => if decide (k = key) then Some v else Lookup key d'
  end.

Definition hexdigit (n : N) : Ascii.ascii :=
  match n with
  | 0%N => "0" | 1%N => "1" | 2%N => "2" | 3%N => "3"
  | 4%N => "4" | 5%N => "5" | 6%N => "6" | 7%N => "7"
  | 8%N => "8" | 9%N => "9" | 10%N => "a" | 11%N => "b"
  | 12%N => "c" | 13%N => "d" | 14%N => "e" | _ => "f"
  end%char.

(** The [k] low hexadecimal digits of [v], most significant first. *)
Fixpoint hexdigits (k : nat) (v : N) : string :=
  match k with
  | O => ""
  | S k' => hexdigits k' (v / 16) +:+ String (hexdigit (v mod 16)) ""
  end.

(** [id.Hex()]: twenty-four lowercase hexadecimal digits. *)
Definition Hex (o : ObjectID) : string := hexdigits 24 o.

#[global] Instance value_eq_dec : EqDecision value.
Proof. solve_decision. Defined.

Definition value_enc (v : value) : string + (N + (Z + Z)) :=
  match v with
  | VString s => inl s
  | VObjectID o => inr (inl o)
  | VDateTime ms => inr (inr (inl ms))
  | VTime t => inr (inr (inr t))
  end.

Definition value_dec (x : string + (N + (Z + Z))) : value :=
  match x with
  | inl s => VString s
  | inr (inl o) => VObjectID o
  | inr (inr (inl ms)) => VDateTime ms
  | inr (inr (inr t)) => VTime t
  end.

#[global] Instance value_countable : Countable value.
Proof.
  refine (inj_countable' value_enc value_dec _).
  intros []; reflexivity.
Defined.

End Bson.
Export Bson.

(** ** The MongoDB driver and the process around it *)

Module Driver.

(** Go [error] values the store can meet; a nil error is [None]. *)
Inductive error : Type :=
| ErrNoDocuments                                 (* mongo.ErrNoDocuments *)
| ErrDuplicateKey (cname : string) (id : value)  (* write error: the _id is taken *)
| ErrBackend (msg : string)                      (* connection or server failure *)
| ErrCodec (msg : string).                       (* json / bson encoding or decoding failure *)

#[global] Instance error_eq_dec : EqDecision error.
Proof. solve_decision. Defined.

Inductive result (A : Type) : Type :=
| Ok (a : A)
| Err (e : error).
Arguments Ok {A} a.
Arguments Err {A} e.

(** What the process can touch: the database behind [ts.client] (its
    collections by name, each a map from [_id] to document), the ObjectID
    generator, the failures the backend is going to answer the coming
    round-trips with (one entry per round-trip, [None] or an exhausted
    script meaning that the round-trip reaches the database), and what
    package [log] has printed. *)
Record World : Type := mkWorld {
  db : gmap string (gmap value doc);
  next_oid : ObjectID;
  faults : list (option string);
  logged : list error
}.

Definition coll (w : World) (cname : string) : gmap value doc :=
  default ∅ (db w !! cname).

Definition set_db (f : gmap string (gmap value doc) → gmap string (gmap value doc))
    (w : World) : World :=
  mkWorld (f (db w)) (next_oid w) (faults w) (logged w).

Definition set_faults (fs : list (option string)) (w : World) : World :=
  mkWorld (db w) (next_oid w) fs (logged w).

(** A call either returns to its caller or ends the process
    ([os.Exit], reached through [log.Fatal]). *)
Inductive outcome (A : Type) : Type :=
| Done (a : A) (w : World)
| Exit (status : Z) (w : World).
Arguments Done {A} a w.
Arguments Exit {A} status w.

Definition world_of {A} (o : outcome A) : World :=
  match o with Done _ w => w | Exit _ w => w end.

Definition M (A : Type) : Type := World → outcome A.

#[global] Instance M_ret : MRet M := λ A a w, Done a w.
#[global] Instance M_bind : MBind M := λ A B f m w,
  match m w with
  | Done a w' => f a w'
  | Exit s w' => Exit s w'
  end.

(** [log.Fatal(e)]: print, then [os.Exit(1)]. *)
Definition log_Fatal {A} (e : error) : M A := λ w,
  Exit 1 (mkWorld (db w) (next_oid w) (faults w) (e :: logged w)).

(** [objectid.New()] *)
Definition objectid_New : M ObjectID := λ w,
  Done (next_oid w)
       (mkWorld (db w) ((next_oid w + 1) mod 2 ^ 96)%N (faults w) (logged w)).

(** One round-trip to the backend: the next entry of the script says
    whether it fails before reaching the database. *)
Definition roundtrip : M (option error) := λ w,
  match faults w with
  | [] => Done None w
  | f :: fs => Done (ErrBackend <$> f) (set_faults fs w)
  end.

(** A document sent without [_id] is given a generated one. *)
Definition ensure_id (d : doc) : M doc :=
  match Lookup "_id" d with
  | Some _ => mret d
  | None => o ← objectid_New; mret (("_id", VObjectID o) :: d)
  end.

(** The [_id] index is unique: a document whose [_id] is taken is refused
    and the stored one stays. *)
Definition store_new (cname : string) (d : doc) : M (option error) := λ w,
  let id := default (VString "") (Lookup "_id" d) in
  match coll w cname !! id with
  | Some _ => Done (Some (ErrDuplicateKey cname id)) w
  | None => Done None (set_db (insert cname (<[id := d]> (coll w cname))) w)
  end.

(** [Collection.InsertOne(ctx, doc)] *)
Definition Collection_InsertOne (cname : string) (d : doc) : M (option error) :=
  f ← roundtrip;
  match f with
  | Some e => mret (Some e)
  | None => d' ← ensure_id d; store_new cname d'
  end.

(** Removing the document of an [_id]; nothing happens when there is none. *)
Definition drop_id (cname : string) (id : value) : M (option error) := λ w,
  Done None (set_db (insert cname (delete id (coll w cname))) w).

(** [Collection.DeleteOne(ctx, {_id: id})] and
    [Collection.DeleteMany(ctx, {_id: id})]: at most one document has
    the [_id], so both remove it when it is there. *)
Definition Collection_DeleteOne (cname : string) (id : value) : M (option error) :=
  f ← roundtrip;
  match f with
  | Some e => mret (Some e)
  | None => drop_id cname id
  end.

Definition Collection_DeleteMany (cname : string) (id : value) : M (option error) :=
  Collection_DeleteOne cname id.

(** Reading the document of an [_id]. *)
Definition read_id (cname : string) (id : value) : M (result doc) := λ w,
  match coll w cname !! id with
  | Some d => Done (Ok d) w
  | None => Done (Err ErrNoDocuments) w
  end.

(** [Collection.FindOne(ctx, {_id: id})]: a [*DocumentResult], holding
    the document found or the error ([mongo.ErrNoDocuments] when there is
    none). *)
Definition Collection_FindOne (cname : string) (id : value) : M (result doc) :=
  f ← roundtrip;
  match f with
  | Some e => mret (Err e)
  | None => read_id cname id
  end.

(** [DocumentResult.Decode(&v)], for a struct decoder [dec]. *)
Definition Decode {T} (dec : doc → result T) (r : result doc) : result T :=
  match r with
  | Ok d => dec d
  | Err e => Err e
  end.

End Driver.
Export Driver.

(** ** The token-info interface of the OAuth2 server library *)

Module OAuth2.

(** An [oauth2.TokenInfo] value, seen through the getters the store calls
    and through what [json.Marshal] makes of it. *)
Record TokenInfo : Type := mkTokenInfo {
  GetCode : string;
  GetCodeCreateAt : Time;
  GetCodeExpiresIn : Duration;
  GetAccess : string;
  GetAccessCreateAt : Time;
  GetAccessExpiresIn : Duration;
  GetRefresh : string;
  GetRefreshCreateAt : Time;
  GetRefreshExpiresIn : Duration;
  json_Marshal : result string
}.

End OAuth2.
Export OAuth2.

(** ** Package [oauth2mongo] (src/oauth2mongo.go) *)

Module Oauth2mongo.

Record TokenConfig : Type := mkTokenConfig {
  TxnCName : string;
  BasicCName : string;
  AccessCName : string;
  RefreshCName : string
}.

Definition NewDefaultTokenConfig : TokenConfig :=
  mkTokenConfig "oauth2_txn" "oauth2_basic" "oauth2_access" "oauth2_refresh".

(** The [client] field is the [World] the operations run in. *)
Record TokenStore : Type := mkTokenStore {
  tcfg : TokenConfig;
  dbName : string
}.

Record basicData : Type := mkBasicData {
  bd_ID : string;
  bd_Data : string;
  bd_ExpiredAt : Time
}.

Record tokenData : Type := mkTokenData {
  td_ID : string;
  td_BasicID : string;
  td_ExpiredAt : Time
}.

(** The library functions that turn stored data back into Go values:
    [json.Unmarshal] into a [models.Token], and the driver's decoding of
    a document into each of the two structs. *)
Class Codec : Type := {
  Token : Type;
  json_Unmarshal : string → result Token;
  Decode_basicData : doc → result basicData;
  Decode_tokenData : doc → result tokenData
}.

Section Store.
Context `{Codec}.

(** The [ExpiredAt] element of every record [Create] writes. *)
Definition ExpiredAt (t : Time) : string * value :=
  ("ExpiredAt", VTime (Unix 0 (div64 (UnixNano t) Millisecond))).

Definition InsertOne (ts : TokenStore) (collectionName : string) (d : doc)
    : M (option error) :=
  verr ← Collection_InsertOne collectionName d;
  match verr with
  | Some e => log_Fatal e      (* [err = verr; return] is never reached *)
  | None => mret None
  end.

Definition Create (ts : TokenStore) (info : TokenInfo) : M (option error) :=
  match json_Marshal info with
  | Err e => mret (Some e)
  | Ok jv =>
      let code := GetCode info in
      _ ← (if decide (code = "") then mret None
           else InsertOne ts (BasicCName (tcfg ts))
                  [("_id", VString code); ("Data", VString jv);
                   ExpiredAt (Add (GetCodeCreateAt info) (GetCodeExpiresIn info))]);
      let aexp := Add (GetAccessCreateAt info) (GetAccessExpiresIn info) in
      let rexp := aexp in
      let '(aexp, rexp) :=
        if decide (GetRefresh info = "") then (aexp, rexp)
        else
          let rexp := Add (GetRefreshCreateAt info) (GetRefreshExpiresIn info) in
          (if decide (Second aexp > Second rexp) then rexp else aexp, rexp) in
      o ← objectid_New;
      let id := Hex o in
      _ ← InsertOne ts (BasicCName (tcfg ts))
            [("_id", VString id); ("Data", VString jv); ExpiredAt rexp];
      _ ← (if decide (GetAccess info = "") then mret None
           else InsertOne ts (AccessCName (tcfg ts))
                  [("_id", VString (GetAccess info)); ("BasicID", VString id);
                   ExpiredAt aexp]);
      _ ← (if decide (GetRefresh info = "") then mret None
           else InsertOne ts (RefreshCName (tcfg ts))
                  [("_id", VString (GetRefresh info)); ("BasicID", VString id);
                   ExpiredAt rexp]);
      (* the results of [InsertOne] are dropped: [err] is still the nil
         that [json.Marshal] returned *)
      mret None
  end.

Definition DeleteByID (ts : TokenStore) (collectionName : string) (id : string)
    : M (option error) :=
  Collection_DeleteOne collectionName (VString id).

Definition RemoveByCode (ts : TokenStore) (code : string) : M (option error) :=
  DeleteByID ts (BasicCName (tcfg ts)) code.

Definition RemoveByAccess (ts : TokenStore) (access : string) : M (option error) :=
  DeleteByID ts (AccessCName (tcfg ts)) access.

Definition RemoveByRefresh (ts : TokenStore) (refresh : string) : M (option error) :=
  DeleteByID ts (RefreshCName (tcfg ts)) refresh.

Definition FindByID (ts : TokenStore) (collectionName : string) (id : string)
    : M (result doc) :=
  Collection_FindOne collectionName (VString id).

Definition getData (ts : TokenStore) (basicID : string)
    : M (option Token * option error) :=
  r ← FindByID ts (BasicCName (tcfg ts)) basicID;
  match Decode Decode_basicData r with
  | Err ErrNoDocuments => mret (None, None)
  | Err verr => log_Fatal verr  (* [err = verr; return] is never reached *)
  | Ok bd =>
      match json_Unmarshal (bd_Data bd) with
      | Err e => mret (None, Some e)
      | Ok tm => mret (Some tm, None)
      end
  end.

Definition getBasicID (ts : TokenStore) (cname token : string)
    : M (string * option error) :=
  r ← FindByID ts cname token;
  match Decode Decode_tokenData r with
  | Err ErrNoDocuments => mret ("", None)
  | Err verr => mret ("", Some verr)
  | Ok td => mret (td_BasicID td, None)
  end.

Definition GetByCode (ts : TokenStore) (code : string)
    : M (option Token * option error) :=
  getData ts code.

Definition GetByAccess (ts : TokenStore) (access : string)
    : M (option Token * option error) :=
  '(basicID, err) ← getBasicID ts (AccessCName (tcfg ts)) access;
  if decide (err ≠ None ∧ basicID = "") then mret (None, err)
  else getData ts basicID.

Definition GetByRefresh (ts : TokenStore) (refresh : string)
    : M (option Token * option error) :=
  '(basicID, err) ← getBasicID ts (RefreshCName (tcfg ts)) refresh;
  if decide (err ≠ None ∧ basicID = "") then mret (None, err)
  else getData ts basicID.

End Store.

End Oauth2mongo.

(** ** Package [mongo] (src/unnamed/part_000) *)

Module Mongo.

Record TokenConfig : Type := mkTokenConfig {
  TxnCName : string;
  BasicCName : string;
  AccessCName : string;
  RefreshCName : string
}.

Definition NewDefaultTokenConfig : TokenConfig :=
  mkTokenConfig "oauth2_txn" "oauth2_basic" "oauth2_access" "oauth2_refresh".

Record TokenStore : Type := mkTokenStore {
  tcfg : TokenConfig;
  dbName : string
}.

(** [Data] is a [[]byte] here; bytes and strings are both kept as [string]. *)
Record basicData : Type := mkBasicData {
  bd_ID : string;
  bd_Data : string;
  bd_ExpiredAt : Time
}.

Record tokenData : Type := mkTokenData {
  td_ID : string;
  td_BasicID : string;
  td_ExpiredAt : Time
}.

Class Codec : Type := {
  Token : Type;
  json_Unmarshal : string → result Token;
  Decode_basicData : doc → result basicData;
  Decode_tokenData : doc → result tokenData
}.

Section Store.
Context `{Codec}.

(** The collection handle given to a handler is its name. *)
Definition cHandler {A} (ts : TokenStore) (name : string) (handler : string → M A)
    : M A :=
  handler name.

(** [if verr != nil { err = verr }] on the captured named result. *)
Definition assign (verr err : option error) : option error :=
  match verr with
  | Some e => Some e
  | None => err
  end.

Definition ExpiredAt (t : Time) : string * value :=
  ("ExpiredAt", VDateTime (div64 (UnixNano t) Millisecond)).

Definition Create (ts : TokenStore) (info : TokenInfo) : M (option error) :=
  match json_Marshal info with
  | Err e => mret (Some e)
  | Ok jv =>
      let err : option error := None in
      let code := GetCode info in
      err ← (if decide (code = "") then mret err
             else cHandler ts (BasicCName (tcfg ts)) (λ c,
                    verr ← Collection_InsertOne c
                      [("_id", VString code); ("Data", VString jv);
                       ExpiredAt (Add (GetCodeCreateAt info) (GetCodeExpiresIn info))];
                    mret (assign verr err)));
      let aexp := Add (GetAccessCreateAt info) (GetAccessExpiresIn info) in
      let rexp := aexp in
      let '(aexp, rexp) :=
        if decide (GetRefresh info = "") then (aexp, rexp)
        else
          let rexp := Add (GetRefreshCreateAt info) (GetRefreshExpiresIn info) in
          (if decide (Second aexp > Second rexp) then rexp else aexp, rexp) in
      id ← objectid_New;
      err ← cHandler ts (BasicCName (tcfg ts)) (λ c,
              verr ← Collection_InsertOne c
                [("_id", VObjectID id); ("Data", VString jv); ExpiredAt rexp];
              mret (assign verr err));
      err ← cHandler ts (AccessCName (tcfg ts)) (λ c,
              verr ← Collection_InsertOne c
                [("_id", VString (GetAccess info)); ("BasicID", VObjectID id);
                 ExpiredAt aexp];
              mret (assign verr err));
      err ← (if decide (GetRefresh info = "") then mret err
             else cHandler ts (AccessCName (tcfg ts)) (λ c,
                    verr ← Collection_InsertOne c
                      [("_id", VString (GetRefresh info)); ("BasicID", VObjectID id);
                       ExpiredAt rexp];
                    mret (assign verr err)));
      mret err
  end.

Definition RemoveByCode (ts : TokenStore) (code : string) : M (option error) :=
  cHandler ts (BasicCName (tcfg ts)) (λ c,
    verr ← Collection_DeleteMany c (VString code);
    mret (assign verr None)).

Definition RemoveByAccess (ts : TokenStore) (access : string) : M (option error) :=
  cHandler ts (AccessCName (tcfg ts)) (λ c,
    verr ← Collection_DeleteMany c (VString access);
    mret (assign verr None)).

Definition RemoveByRefresh (ts : TokenStore) (refresh : string) : M (option error) :=
  cHandler ts (RefreshCName (tcfg ts)) (λ c,
    verr ← Collection_DeleteMany c (VString refresh);
    mret (assign verr None)).

Definition getData (ts : TokenStore) (basicID : string)
    : M (option Token * option error) :=
  cHandler ts (BasicCName (tcfg ts)) (λ c,
    r ← Collection_FindOne c (VString basicID);
    match Decode Decode_basicData r with
    | Err ErrNoDocuments => mret (None, None)
    | Err verr => mret (None, Some verr)
    | Ok bd =>
        match json_Unmarshal (bd_Data bd) with
        | Err e => mret (None, Some e)
        | Ok tm => mret (Some tm, None)
        end
    end).

Definition getBasicID (ts : TokenStore) (cname token : string)
    : M (string * option error) :=
  cHandler ts cname (λ c,
    r ← Collection_FindOne c (VString token);
    match Decode Decode_tokenData r with
    | Err ErrNoDocuments => mret ("", None)
    | Err verr => mret ("", Some verr)
    | Ok td => mret (td_BasicID td, None)
    end).

Definition GetByCode (ts : TokenStore) (code : string)
    : M (option Token * option error) :=
  getData ts code.

Definition GetByAccess (ts : TokenStore) (access : string)
    : M (option Token * option error) :=
  '(basicID, err) ← getBasicID ts (AccessCName (tcfg ts)) access;
  if decide (err ≠ None ∧ basicID = "") then mret (None, err)
  else getData ts basicID.

Definition GetByRefresh (ts : TokenStore) (refresh : string)
    : M (option Token * option error) :=
  '(basicID, err) ← getBasicID ts (RefreshCName (tcfg ts)) refresh;
  if decide (err ≠ None ∧ basicID = "") then mret (None, err)
  else getData ts basicID.

End Store.

End Mongo.

(** ** Calls, their effect on the database, and the states a store can reach *)

(** The operations of the token-storage interface. *)
Inductive call : Type :=
| CallCreate (info : TokenInfo)
| CallRemoveByCode (code : string)
| CallRemoveByAccess (access : string)
| CallRemoveByRefresh (refresh : string)
| CallGetByCode (code : string)
| CallGetByAccess (access : string)
| CallGetByRefresh (refresh : string).

(** The world a call leaves behind, whether it returned or ended the
    process: the database outlives the process either way. *)
Definition Oauth2mongo_effect `{Oauth2mongo.Codec} (ts : Oauth2mongo.TokenStore)
    (c : call) (w : World) : World :=
  match c with
  | CallCreate info => world_of (Oauth2mongo.Create ts info w)
  | CallRemoveByCode k => world_of (Oauth2mongo.RemoveByCode ts k w)
  | CallRemoveByAccess k => world_of (Oauth2mongo.RemoveByAccess ts k w)
  | CallRemoveByRefresh k => world_of (Oauth2mongo.RemoveByRefresh ts k w)
  | CallGetByCode k => world_of (Oauth2mongo.GetByCode ts k w)
  | CallGetByAccess k => world_of (Oauth2mongo.GetByAccess ts k w)
  | CallGetByRefresh k => world_of (Oauth2mongo.GetByRefresh ts k w)
  end.

Definition Mongo_effect `{Mongo.Codec} (ts : Mongo.TokenStore)
    (c : call) (w : World) : World :=
  match c with
  | CallCreate info => world_of (Mongo.Create ts info w)
  | CallRemoveByCode k => world_of (Mongo.RemoveByCode ts k w)
  | CallRemoveByAccess k => world_of (Mongo.RemoveByAccess ts k w)
  | CallRemoveByRefresh k => world_of (Mongo.RemoveByRefresh ts k w)
  | CallGetByCode k => world_of (Mongo.GetByCode ts k w)
  | CallGetByAccess k => world_of (Mongo.GetByAccess ts k w)
  | CallGetByRefresh k => world_of (Mongo.GetByRefresh ts k w)
  end.

(** The database's expiry monitor removing one document. *)
Definition expire (cname : string) (id : value) (w : World) : World :=
  set_db (insert cname (delete id (coll w cname))) w.

(** The worlds reachable from an empty database by calls of the store
    (given by their [effect]), removals by the expiry monitor, and any
    behaviour of the backend in the round-trips to come. *)
Inductive reachable (effect : call → World → World) : World → Prop :=
| reach_empty o : reachable effect (mkWorld ∅ o [] [])
| reach_call c w : reachable effect w → reachable effect (effect c w)
| reach_expire cname id w : reachable effect w → reachable effect (expire cname id w)
| reach_script fs w : reachable effect w → reachable effect (set_faults fs w).

(** [w'] keeps every document of [w] as it is. *)
Definition keeps (w w' : World) : Prop :=
  ∀ cname id d, coll w cname !! id = Some d → coll w' cname !! id = Some d.

(** Every document of [w] is in [w'] as it was, or is gone. *)
Definition unmodified (w w' : World) : Prop :=
  ∀ cname id d, coll w cname !! id = Some d →
    coll w' cname !! id = Some d ∨ coll w' cname !! id = None.

(** No document of the collection has the empty string as its [_id]. *)
Definition no_blank_id (cname : string) (w : World) : Prop :=
  coll w cname !! VString "" = None.

(** The [ExpiredAt] element of a stored document. *)
Definition expiry_of (w : World) (cname : string) (id : value) : option value :=
  d ← coll w cname !! id; Lookup "ExpiredAt" d.

(** The [BasicID] element of a stored document. *)
Definition reference_of (w : World) (cname : string) (id : value) : option value :=
  d ← coll w cname !! id; Lookup "BasicID" d.

(** A computation that, from a world where [P] holds, leaves behind a world
    where [P] holds, returning or not. *)
Definition preserves {A} (P : World → Prop) (m : M A) : Prop :=
  ∀ w, P w → P (world_of (m w)).

(** A computation that always returns to its caller. *)
Definition returns {A} (m : M A) : Prop :=
  ∀ w, ∃ a w', m w = Done a w'.

(** A property of the database alone. *)
Definition of_db (P : World → Prop) : Prop :=
  ∀ w w', db w = db w' → P w → P w'.

(** A codec of package [oauth2mongo] whose decoders accept the two shapes
    of document [Create] writes and hand the strings back as stored: the
    [Data] of a basic record, the [BasicID] of a reference record.  What
    they make of [_id] and of [ExpiredAt] (an instant the database keeps
    to the millisecond only) is left open. *)
Definition conforms (C : Oauth2mongo.Codec) : Prop :=
  (∀ id data t, ∃ bd,
     Oauth2mongo.Decode_basicData
       [("_id", VString id); ("Data", VString data); ("ExpiredAt", VTime t)] = Ok bd
     ∧ Oauth2mongo.bd_Data bd = data)
  ∧ (∀ id b t, ∃ td,
       Oauth2mongo.Decode_tokenData
         [("_id", VString id); ("BasicID", VString b); ("ExpiredAt", VTime t)] = Ok td
       ∧ Oauth2mongo.td_BasicID td = b).

(** The three collections of a configuration are three collections. *)
Definition distinct_names (cfg : Oauth2mongo.TokenConfig) : Prop :=
  Oauth2mongo.BasicCName cfg ≠ Oauth2mongo.AccessCName cfg
  ∧ Oauth2mongo.BasicCName cfg ≠ Oauth2mongo.RefreshCName cfg
  ∧ Oauth2mongo.AccessCName cfg ≠ Oauth2mongo.RefreshCName cfg.

(** What [getData] returns for a serialized token-info it has found. *)
Definition unmarshalled `{Oauth2mongo.Codec} (jv : string)
    : option Oauth2mongo.Token * option error :=
  match Oauth2mongo.json_Unmarshal jv with
  | Ok tm => (Some tm, None)
  | Err e => (None, Some e)
  end.

(** ** Sample values *)

Module Sample.

(** 2018-10-20 01:47:00 UTC, the start of a minute. *)
Definition now : Time := 1540000020 * 1000000000.

Definition seconds (n : Z) : Duration := n * 1000000000.

Definition empty : World := mkWorld ∅ 0%N [] [].

Definition tsA : Oauth2mongo.TokenStore :=
  Oauth2mongo.mkTokenStore Oauth2mongo.NewDefaultTokenConfig "oauth2".

Definition tsB : Mongo.TokenStore :=
  Mongo.mkTokenStore Mongo.NewDefaultTokenConfig "oauth2".

(** Code "c1" (ttl 10 min), access "a1" (ttl 1 h), refresh "r1" (ttl 24 h),
    all created now. *)
Definition info_1h_24h : TokenInfo :=
  mkTokenInfo "c1" now (10 * Minute) "a1" now Hour "r1" now (24 * Hour) (Ok "{token}").

(** An authorization-code grant: a code and no tokens yet. *)
Definition info_code : TokenInfo :=
  mkTokenInfo "c1" now (10 * Minute) "" 0 0 "" 0 0 (Ok "{code}").

(** Access "a1" living 59 s, refresh "r1" living 120 s. *)
Definition info_59s_120s : TokenInfo :=
  mkTokenInfo "" 0 0 "a1" now (seconds 59) "r1" now (seconds 120) (Ok "{token}").

(** Access "a1" living 2 h, refresh "r1" living 1 h. *)
Definition info_2h_1h : TokenInfo :=
  mkTokenInfo "" 0 0 "a1" now (2 * Hour) "r1" now Hour (Ok "{token}").

(** A value [json.Marshal] refuses. *)
Definition info_unencodable : TokenInfo :=
  mkTokenInfo "c1" now (10 * Minute) "a1" now Hour "r1" now (24 * Hour)
    (Err (ErrCodec "json: unsupported value")).

Definition stringField (key : string) (d : doc) : result string :=
  match Lookup key d with
  | None => Ok ""
  | Some (VString s) => Ok s
  | Some _ => Err (ErrCodec key)
  end.

Definition timeField (key : string) (d : doc) : result Time :=
  match Lookup key d with
  | None => Ok 0
  | Some (VTime t) => Ok t
  | Some (VDateTime ms) => Ok (ms * Millisecond)
  | Some _ => Err (ErrCodec key)
  end.

Definition decode3 {T} (mk : string → string → Time → T) (field : string) (d : doc)
    : result T :=
  match stringField "_id" d with
  | Err e => Err e
  | Ok a =>
      match stringField field d with
      | Err e => Err e
      | Ok b =>
          match timeField "ExpiredAt" d with
          | Err e => Err e
          | Ok c => Ok (mk a b c)
          end
      end
  end.

(** A codec that reads each struct field from the element of its name,
    leaves the zero value where there is none, and takes the JSON text
    itself for the token. *)
Definition codecA : Oauth2mongo.Codec := {|
  Oauth2mongo.Token := string;
  Oauth2mongo.json_Unmarshal := Ok;
  Oauth2mongo.Decode_basicData := decode3 Oauth2mongo.mkBasicData "Data";
  Oauth2mongo.Decode_tokenData := decode3 Oauth2mongo.mkTokenData "BasicID"
|}.

Definition codecB : Mongo.Codec := {|
  Mongo.Token := string;
  Mongo.json_Unmarshal := Ok;
  Mongo.Decode_basicData := decode3 Mongo.mkBasicData "Data";
  Mongo.Decode_tokenData := decode3 Mongo.mkTokenData "BasicID"
|}.

End Sample.

(** ** Store construction: the expiry indexes *)

Module Indexes.

(** A [mongo.IndexModel], as far as the store fills it in: the key
    document, and the [ExpireAfterSeconds] and [Name] options. *)
Record IndexModel : Type := mkIndexModel {
  Keys : list (string * Z);
  ExpireAfterSeconds : Z;
  Name : string
}.

#[global] Instance IndexModel_eq_dec : EqDecision IndexModel.
Proof. solve_decision. Defined.

(** The server behind the client: the world of documents together with
    the indexes of each collection. *)
Record Server : Type := mkServer {
  world : World;
  indexes : gmap string (list IndexModel)
}.

Definition indexes_of (s : Server) (cname : string) : list IndexModel :=
  default [] (indexes s !! cname).

(** Constructing a store either hands the store over, ends the process
    ([log.Fatal]), or panics. *)
Inductive started (A : Type) : Type :=
| Started (a : A) (s : Server)
| Aborted (status : Z) (s : Server)
| Panicked (e : error).
Arguments Started {A} a s.
Arguments Aborted {A} status s.
Arguments Panicked {A} e.

Definition Setup (A : Type) : Type := Server → started A.

#[global] Instance Setup_ret : MRet Setup := λ A a s, Started a s.
#[global] Instance Setup_bind : MBind Setup := λ A B f m s,
  match m s with
  | Started a s' => f a s'
  | Aborted st s' => Aborted st s'
  | Panicked e => Panicked e
  end.

(** [log.Fatal(e)] while the store is being constructed. *)
Definition Setup_log_Fatal {A} (e : error) : Setup A := λ s,
  Aborted 1 (mkServer (world_of (@log_Fatal A e (world s))) (indexes s)).

(** Two index models cannot both be on a collection when they share the
    name or the key document without being the same index. *)
Definition clashes (a b : IndexModel) : bool :=
  bool_decide (a ≠ b ∧ (Name a = Name b ∨ Keys a = Keys b)).

(** [IndexView.CreateOne(ctx, model)]: one round-trip; an index that is
    there already is left alone, one that clashes with an index of the
    collection is refused, any other is added. *)
Definition IndexView_CreateOne (cname : string) (model : IndexModel)
    : Setup (option error) := λ s,
  match roundtrip (world s) with
  | Exit st w => Aborted st (mkServer w (indexes s))
  | Done (Some e) w => Started (Some e) (mkServer w (indexes s))
  | Done None w =>
      let present := indexes_of s cname in
      if decide (model ∈ present) then Started None (mkServer w (indexes s))
      else if List.existsb (clashes model) present
      then Started (Some (ErrBackend "IndexOptionsConflict")) (mkServer w (indexes s))
      else Started None (mkServer w (<[cname := (present ++ [model])%list]> (indexes s)))
  end.

(** The index every collection of the store is given: ascending on
    [ExpiredAt], documents expiring one second after that instant. *)
Definition expiry_index (name : string) : IndexModel :=
  mkIndexModel [("ExpiredAt", 1)] 1 name.

End Indexes.
Export Indexes.

(** ** Package [oauth2mongo]: configuration and construction *)

Module Oauth2mongo_setup.
Import Oauth2mongo.

Record Config : Type := mkConfig {
  URL : string;
  DB : string
}.

Definition NewConfig (url db : string) : Config := mkConfig url db.

Definition CreateIndex (dbName collectionName : string) (index : IndexModel)
    : Setup unit :=
  err ← IndexView_CreateOne collectionName index;
  match err with
  | Some e => Setup_log_Fatal e
  | None => mret tt
  end.

Definition NewTokenStoreWithSession (dbName : string) (tcfgs : list TokenConfig)
    : Setup TokenStore :=
  let ts := mkTokenStore NewDefaultTokenConfig dbName in
  let ts :=
    match tcfgs with
    | cfg :: _ => mkTokenStore cfg (Oauth2mongo.dbName ts)
    | [] => ts
    end in
  _ ← CreateIndex dbName (BasicCName (tcfg ts)) (expiry_index "basicCNameIndex");
  _ ← CreateIndex dbName (AccessCName (tcfg ts)) (expiry_index "accessCNameIndex");
  _ ← CreateIndex dbName (RefreshCName (tcfg ts)) (expiry_index "refreshCNameIndex");
  mret ts.

(** [mongo.NewClient(url)] is taken as given: the server the URL leads to,
    or the error.  The result of [client.Connect] is dropped. *)
Definition NewTokenStore (mongo_NewClient : string → result Server) (cfg : Config)
    (tcfgs : list TokenConfig) : started TokenStore :=
  match mongo_NewClient (URL cfg) with
  | Err err => Panicked err
  | Ok client => NewTokenStoreWithSession (DB cfg) tcfgs client
  end.

(** [ts.c(name)]: the collection handle is the name. *)
Definition c (ts : TokenStore) (name : string) : string := name.

End Oauth2mongo_setup.

(** ** Package [mongo]: configuration and construction *)

Module Mongo_setup.
Import Mongo.

Record Config : Type := mkConfig {
  URL : string;
  DB : string
}.

Definition NewConfig (url db : string) : Config := mkConfig url db.

Definition NewTokenStoreWithSession (dbName : string) (tcfgs : list TokenConfig)
    : Setup TokenStore :=
  let ts := mkTokenStore NewDefaultTokenConfig dbName in
  let ts :=
    match tcfgs with
    | cfg :: _ => mkTokenStore cfg (Mongo.dbName ts)
    | [] => ts
    end in
  err ← IndexView_CreateOne (BasicCName (tcfg ts)) (expiry_index "basicCNameIndex");
  _ ← match err with Some e => Setup_log_Fatal e | None => mret tt end;
  err ← IndexView_CreateOne (AccessCName (tcfg ts)) (expiry_index "accessCNameIndex");
  _ ← match err with Some e => Setup_log_Fatal e | None => mret tt end;
  err ← IndexView_CreateOne (RefreshCName (tcfg ts)) (expiry_index "refreshCNameIndex");
  _ ← match err with Some e => Setup_log_Fatal e | None => mret tt end;
  mret ts.

Definition NewTokenStore (mongo_NewClient : string → result Server) (cfg : Config)
    (tcfgs : list TokenConfig) : started TokenStore :=
  match mongo_NewClient (URL cfg) with
  | Err err => Panicked err
  | Ok client => NewTokenStoreWithSession (DB cfg) tcfgs client
  end.

Definition c (ts : TokenStore) (name : string) : string := name.

End Mongo_setup.

(** ** Shapes of stored records *)

(** The instants [time.Unix(0, ms)] reaches when [ms] is an [int64] count
    of nanoseconds divided by a million: within 9223372036854 ns of the
    epoch, 2 h 33 min 44 s. *)
Definition near_epoch (t : Time) : Prop :=
  (-9223372036854 ≤ t ≤ 9223372036854)%Z.

(** A record of the basic collection, as package [oauth2mongo] writes it. *)
Definition basic_record (d : doc) : Prop :=
  ∃ id data t,
    d = [("_id", VString id); ("Data", VString data); ("ExpiredAt", VTime t)]
    ∧ near_epoch t.

(** A record of the access or refresh collection, as package
    [oauth2mongo] writes it. *)
Definition reference_record (d : doc) : Prop :=
  ∃ id b t,
    d = [("_id", VString id); ("BasicID", VString b); ("ExpiredAt", VTime t)]
    ∧ near_epoch t.

(** Every document of a collection satisfies [Q]. *)
Definition every_doc (cname : string) (Q : doc → Prop) (w : World) : Prop :=
  ∀ id d, coll w cname !! id = Some d → Q d.

(** The collections of a world hold the same documents. *)
Definition same_docs (w w' : World) : Prop :=
  ∀ cname, coll w' cname = coll w cname.

(** The [Data] element of a stored document. *)
Definition payload_at (w : World) (cname : string) (id : value) : option value :=
  d ← coll w cname !! id; Lookup "Data" d.

(** The world with one more document. *)
Definition put (cname : string) (id : value) (d : doc) (w : World) : World :=
  set_db (insert cname (<[id := d]> (coll w cname))) w.

(** The world with one more logged error. *)
Definition log_entry (e : error) (w : World) : World :=
  mkWorld (db w) (next_oid w) (faults w) (e :: logged w).

(** The places package [oauth2mongo]'s [Create] inserts at, when it has the
    ObjectID [o] generated: collection and [_id]. *)
Definition Oauth2mongo_places (ts : Oauth2mongo.TokenStore) (info : TokenInfo)
    (o : ObjectID) : list (string * value) :=
  ((if decide (GetCode info = "") then []
    else [(Oauth2mongo.BasicCName (Oauth2mongo.tcfg ts), VString (GetCode info))])
   ++ [(Oauth2mongo.BasicCName (Oauth2mongo.tcfg ts), VString (Hex o))]
   ++ (if decide (GetAccess info = "") then []
       else [(Oauth2mongo.AccessCName (Oauth2mongo.tcfg ts), VString (GetAccess info))])
   ++ (if decide (GetRefresh info = "") then []
       else [(Oauth2mongo.RefreshCName (Oauth2mongo.tcfg ts),
              VString (GetRefresh info))]))%list.

(** The places package [mongo]'s [Create] inserts at. *)
Definition Mongo_places (ts : Mongo.TokenStore) (info : TokenInfo)
    (o : ObjectID) : list (string * value) :=
  ((if decide (GetCode info = "") then []
    else [(Mongo.BasicCName (Mongo.tcfg ts), VString (GetCode info))])
   ++ [(Mongo.BasicCName (Mongo.tcfg ts), VObjectID o);
       (Mongo.AccessCName (Mongo.tcfg ts), VString (GetAccess info))]
   ++ (if decide (GetRefresh info = "") then []
       else [(Mongo.AccessCName (Mongo.tcfg ts), VString (GetRefresh info))]))%list.

(** ** More sample values *)

Module Cases.

(** Access "a1" living one hour, no code and no refresh token. *)
Definition info_a1 : TokenInfo :=
  mkTokenInfo "" 0 0 "a1" Sample.now Hour "" 0 0 (Ok "{access}").

(** Code "c1" and access "a1", no refresh token. *)
Definition info_c1_a1 : TokenInfo :=
  mkTokenInfo "c1" Sample.now (10 * Minute) "a1" Sample.now Hour "" 0 0 (Ok "{both}").

(** Package [oauth2mongo], after the code grant "c1" was stored. *)
Definition with_code_A : World :=
  world_of (Oauth2mongo.Create Sample.tsA Sample.info_code Sample.empty).

(** Package [oauth2mongo], after the access token "a1" was stored. *)
Definition with_access_A : World :=
  world_of (Oauth2mongo.Create Sample.tsA info_a1 Sample.empty).

(** Package [oauth2mongo], after code, access and refresh were stored. *)
Definition with_all_A : World :=
  world_of (Oauth2mongo.Create Sample.tsA Sample.info_1h_24h Sample.empty).

(** Package [mongo], after the code grant "c1" was stored. *)
Definition with_code_B : World :=
  world_of (Mongo.Create Sample.tsB Sample.info_code Sample.empty).

(** Package [mongo], after code "c1" and access "a1" were stored. *)
Definition with_code_access_B : World :=
  world_of (Mongo.Create Sample.tsB info_c1_a1 Sample.empty).

(** A backend that fails the next round-trip. *)
Definition failing (w : World) : World :=
  set_faults [Some "connection reset"] w.

(** A backend that serves the next round-trip and fails the one after. *)
Definition failing_second (w : World) : World :=
  set_faults [None; Some "connection reset"] w.

(** A codec of package [oauth2mongo] like [Sample.codecA], whose
    [json.Unmarshal] refuses every text. *)
Definition codecA_rejecting : Oauth2mongo.Codec := {|
  Oauth2mongo.Token := string;
  Oauth2mongo.json_Unmarshal := λ _, Err (ErrCodec "invalid character");
  Oauth2mongo.Decode_basicData := Sample.decode3 Oauth2mongo.mkBasicData "Data";
  Oauth2mongo.Decode_tokenData := Sample.decode3 Oauth2mongo.mkTokenData "BasicID"
|}.

(** A codec of package [oauth2mongo] like [Sample.codecA] that hands an
    instant back cut to whole milliseconds, as it comes from the database. *)
Definition codecA_millis : Oauth2mongo.Codec := {|
  Oauth2mongo.Token := string;
  Oauth2mongo.json_Unmarshal := Ok;
  Oauth2mongo.Decode_basicData := λ d,
    match Sample.decode3 Oauth2mongo.mkBasicData "Data" d with
    | Ok bd =>
        Ok (Oauth2mongo.mkBasicData (Oauth2mongo.bd_ID bd) (Oauth2mongo.bd_Data bd)
              (Z.quot (Oauth2mongo.bd_ExpiredAt bd) Millisecond * Millisecond))
    | Err e => Err e
    end;
  Oauth2mongo.Decode_tokenData := λ d,
    match Sample.decode3 Oauth2mongo.mkTokenData "BasicID" d with
    | Ok td =>
        Ok (Oauth2mongo.mkTokenData (Oauth2mongo.td_ID td) (Oauth2mongo.td_BasicID td)
              (Z.quot (Oauth2mongo.td_ExpiredAt td) Millisecond * Millisecond))
    | Err e => Err e
    end
|}.

(** A codec of package [mongo] that does not decode a string into the
    [[]byte] field [Data]. *)
Definition codecB_bytes : Mongo.Codec := {|
  Mongo.Token := string;
  Mongo.json_Unmarshal := Ok;
  Mongo.Decode_basicData := λ d,
    match Lookup "Data" d with
    | Some (VString _) => Err (ErrCodec "Data")
    | _ => Sample.decode3 Mongo.mkBasicData "Data" d
    end;
  Mongo.Decode_tokenData := Sample.decode3 Mongo.mkTokenData "BasicID"
|}.

(** A server without documents and indexes. *)
Definition server : Server := mkServer Sample.empty ∅.

(** The same server with the store's three indexes on the default
    collections. *)
Definition server_set_up : Server :=
  mkServer Sample.empty
    (<["oauth2_refresh" := [expiry_index "refreshCNameIndex"]]>
       (<["oauth2_access" := [expiry_index "accessCNameIndex"]]>
          (<["oauth2_basic" := [expiry_index "basicCNameIndex"]]> ∅))).

End Cases.

(** How the construction of a store ended, the store itself left out: the
    exit status if the process ended, and the server left behind. *)
Definition ending {A} (r : started A) : option (option Z * Server) :=
  match r with
  | Started _ s => Some (None, s)
  | Aborted st s => Some (Some st, s)
  | Panicked _ => None
  end.

(** Two configurations, one of each package, that name the collections alike. *)
Definition same_names (a : Oauth2mongo.TokenConfig) (b : Mongo.TokenConfig) : Prop :=
  Oauth2mongo.BasicCName a = Mongo.BasicCName b
  ∧ Oauth2mongo.AccessCName a = Mongo.AccessCName b
  ∧ Oauth2mongo.RefreshCName a = Mongo.RefreshCName b.

(** * Properties *)

(** ** The driver *)

Section DriverFacts.

Lemma coll_set_db_insert (c c' : string) (m : gmap value doc) (w : World) :
  coll (set_db (insert c m) w) c' = if decide (c = c') then m else coll w c'.
Proof.
  unfold coll, set_db; simpl.
  destruct (decide (c = c')) as [->|Hne].
  - by rewrite lookup_insert_eq.
  - by rewrite lookup_insert_ne.
Qed.

Lemma coll_set_faults (fs : list (option string)) (w : World) (c : string) :
  coll (set_faults fs w) c = coll w c.
Proof. reflexivity. Qed.

Lemma bind_Done {A B} (m : M A) (f : A → M B) (w w' : World) (b : B) :
  (m ≫= f) w = Done b w' → ∃ a w1, m w = Done a w1 ∧ f a w1 = Done b w'.
Proof.
  unfold mbind, M_bind. destruct (m w) as [a w1|s w1]; [eauto | discriminate].
Qed.

Lemma bind_after {A B} (m : M A) (f : A → M B) (w w1 : World) (a : A) :
  m w = Done a w1 → (m ≫= f) w = f a w1.
Proof. unfold mbind, M_bind. by intros ->. Qed.

Lemma roundtrip_quiet (w : World) : faults w = [] → roundtrip w = Done None w.
Proof. unfold roundtrip. by intros ->. Qed.

Lemma roundtrip_inv (w w' : World) (r : option error) :
  roundtrip w = Done r w' →
  db w' = db w ∧ next_oid w' = next_oid w ∧ logged w' = logged w
  ∧ (faults w = [] → w' = w).
Proof.
  unfold roundtrip. destruct (faults w) as [|f fs] eqn:E; intros [= <- <-]; auto.
  repeat split; auto. discriminate.
Qed.

Lemma roundtrip_Done (w : World) : ∃ r w', roundtrip w = Done r w'.
Proof. unfold roundtrip. destruct (faults w); eauto. Qed.

(** Preservation, compositionally. *)

Lemma preserves_ret {A} (P : World → Prop) (a : A) : preserves P (mret a).
Proof. intros w Hw. exact Hw. Qed.

Lemma preserves_bind {A B} (P : World → Prop) (m : M A) (f : A → M B) :
  preserves P m → (∀ a, preserves P (f a)) → preserves P (m ≫= f).
Proof.
  intros Hm Hf w Hw. specialize (Hm w Hw).
  unfold mbind, M_bind. destruct (m w) as [a w1|s w1]; simpl in *; [|done].
  by apply Hf.
Qed.

Lemma preserves_if {A} (P : World → Prop) (Q : Prop) `{Decision Q} (m1 m2 : M A) :
  preserves P m1 → preserves P m2 → preserves P (if decide Q then m1 else m2).
Proof. by destruct (decide Q). Qed.

Lemma preserves_log_Fatal {A} (P : World → Prop) (e : error) :
  of_db P → preserves P (@log_Fatal A e).
Proof. intros HP w Hw. by apply (HP w). Qed.

Lemma preserves_roundtrip (P : World → Prop) : of_db P → preserves P roundtrip.
Proof.
  intros HP w Hw. unfold roundtrip. destruct (faults w); [done|].
  by apply (HP w).
Qed.

Lemma preserves_objectid_New (P : World → Prop) : of_db P → preserves P objectid_New.
Proof. intros HP w Hw. by apply (HP w). Qed.

Lemma preserves_ensure_id (P : World → Prop) (d : doc) :
  of_db P → preserves P (ensure_id d).
Proof.
  intros HP. unfold ensure_id. destruct (Lookup "_id" d).
  - apply preserves_ret.
  - apply preserves_bind; [by apply preserves_objectid_New|].
    intros; apply preserves_ret.
Qed.

Lemma keeps_refl (w : World) : keeps w w.
Proof. by intros c id d. Qed.

Lemma keeps_trans (w1 w2 w3 : World) : keeps w1 w2 → keeps w2 w3 → keeps w1 w3.
Proof. intros H12 H23 c id d Hd. by apply H23, H12. Qed.

Lemma keeps_of_db (w0 : World) : of_db (keeps w0).
Proof.
  intros w w' Hdb Hk c id d Hd. specialize (Hk c id d Hd).
  unfold coll in *. by rewrite <- Hdb.
Qed.

Lemma no_blank_id_of_db (cname : string) : of_db (no_blank_id cname).
Proof. intros w w' Hdb. unfold no_blank_id, coll. by rewrite Hdb. Qed.

Lemma keeps_same_db (w w' : World) : db w' = db w → keeps w w'.
Proof. intros Hdb. apply (keeps_of_db w w w'); [done | apply keeps_refl]. Qed.

Lemma keeps_unmodified (w w' : World) : keeps w w' → unmodified w w'.
Proof. intros Hk c id d Hd. left. by apply Hk. Qed.

(** A new document never displaces a stored one. *)
Lemma preserves_store_new_keeps (w0 : World) (c : string) (d : doc) :
  preserves (keeps w0) (store_new c d).
Proof.
  intros w Hk. unfold store_new.
  set (id := default (VString "") (Lookup "_id" d)).
  destruct (coll w c !! id) as [d0|] eqn:E; simpl; [done|].
  intros c' id' d' Hd'. specialize (Hk c' id' d' Hd').
  rewrite coll_set_db_insert. destruct (decide (c = c')) as [<-|]; [|done].
  destruct (decide (id = id')) as [<-|Hne]; [congruence|].
  by rewrite lookup_insert_ne.
Qed.

Lemma Collection_InsertOne_keeps (w0 : World) (c : string) (d : doc) :
  preserves (keeps w0) (Collection_InsertOne c d).
Proof.
  pose proof (keeps_of_db w0) as Hdb.
  unfold Collection_InsertOne.
  apply preserves_bind; [by apply preserves_roundtrip|].
  intros [e|]; [apply preserves_ret|].
  apply preserves_bind; [by apply preserves_ensure_id|].
  intros d'. apply preserves_store_new_keeps.
Qed.

Lemma Collection_InsertOne_Done (c : string) (d : doc) (w : World) :
  ∃ r w', Collection_InsertOne c d w = Done r w'.
Proof.
  unfold Collection_InsertOne, mbind, M_bind, roundtrip, ensure_id, store_new,
    objectid_New, mret, M_ret.
  destruct (faults w) as [|[msg|] fs]; simpl;
    destruct (Lookup "_id" d); simpl; eauto;
    match goal with |- context [coll ?w ?c !! ?k] => destruct (coll w c !! k) end;
    eauto.
Qed.

(** What inserting a document that carries its [_id] does. *)
Lemma Collection_InsertOne_id (c : string) (d : doc) (id : value) (w : World) :
  Lookup "_id" d = Some id →
  ∃ r w1, Collection_InsertOne c d w = Done r w1
    ∧ next_oid w1 = next_oid w ∧ logged w1 = logged w ∧ faults w1 = tail (faults w)
    ∧ match r with
      | Some _ => db w1 = db w
      | None => coll w c !! id = None ∧ db w1 = <[c := <[id := d]> (coll w c)]> (db w)
      end.
Proof.
  intros Hid.
  unfold Collection_InsertOne, mbind, M_bind, roundtrip, ensure_id, store_new,
    mret, M_ret.
  rewrite Hid; simpl.
  destruct (faults w) as [|[msg|] fs] eqn:Ef; simpl; rewrite ?Hid; simpl.
  - destruct (coll w c !! id) eqn:E; do 2 eexists; (split; [reflexivity|]); simpl;
      rewrite ?Ef; auto.
  - do 2 eexists; (split; [reflexivity|]); simpl; auto.
  - change (coll (set_faults fs w) c) with (coll w c).
    destruct (coll w c !! id) eqn:E; do 2 eexists; (split; [reflexivity|]); simpl; auto.
Qed.

Lemma Collection_InsertOne_quiet_new (c : string) (d : doc) (id : value) (w : World) :
  faults w = [] → Lookup "_id" d = Some id → coll w c !! id = None →
  Collection_InsertOne c d w
  = Done None (set_db (insert c (<[id := d]> (coll w c))) w).
Proof.
  intros Hf Hid Hnew.
  unfold Collection_InsertOne, mbind, M_bind, ensure_id, store_new, mret, M_ret.
  rewrite (roundtrip_quiet w Hf), Hid; simpl. rewrite Hid; simpl. by rewrite Hnew.
Qed.

(** The duplicate insert fails and leaves the world as it was. *)
Lemma Collection_InsertOne_quiet_dup (c : string) (d d0 : doc) (id : value) (w : World) :
  faults w = [] → Lookup "_id" d = Some id → coll w c !! id = Some d0 →
  Collection_InsertOne c d w = Done (Some (ErrDuplicateKey c id)) w.
Proof.
  intros Hf Hid Hold.
  unfold Collection_InsertOne, mbind, M_bind, ensure_id, store_new, mret, M_ret.
  rewrite (roundtrip_quiet w Hf), Hid; simpl. rewrite Hid; simpl. by rewrite Hold.
Qed.

Lemma Collection_FindOne_quiet (c : string) (id : value) (w : World) :
  faults w = [] →
  Collection_FindOne c id w
  = Done (match coll w c !! id with Some d => Ok d | None => Err ErrNoDocuments end) w.
Proof.
  intros Hf. unfold Collection_FindOne, mbind, M_bind, read_id.
  rewrite (roundtrip_quiet w Hf). by destruct (coll w c !! id).
Qed.

Lemma Collection_FindOne_same_db (c : string) (id : value) (w : World) :
  ∃ r w', Collection_FindOne c id w = Done r w' ∧ db w' = db w.
Proof.
  unfold Collection_FindOne, mbind, M_bind, roundtrip, read_id, mret, M_ret.
  destruct (faults w) as [|[msg|] fs]; simpl; eauto.
  - destruct (coll w c !! id); eauto.
  - change (coll (set_faults fs w) c) with (coll w c).
    destruct (coll w c !! id); eauto.
Qed.

Lemma Collection_DeleteOne_quiet (c : string) (id : value) (w : World) :
  faults w = [] →
  Collection_DeleteOne c id w = Done None (expire c id w).
Proof.
  intros Hf. unfold Collection_DeleteOne, mbind, M_bind, drop_id.
  by rewrite (roundtrip_quiet w Hf).
Qed.

(** A delete either fails and changes nothing, or removes the one
    document with the given [_id] from the one collection. *)
Lemma Collection_DeleteOne_cases (c : string) (id : value) (w : World) :
  ∃ r w', Collection_DeleteOne c id w = Done r w'
    ∧ (db w' = db w ∨ db w' = db (expire c id w)).
Proof.
  unfold Collection_DeleteOne, mbind, M_bind, roundtrip, drop_id, mret, M_ret.
  destruct (faults w) as [|[msg|] fs]; simpl; eauto.
Qed.

Lemma coll_expire (c c' : string) (id id' : value) (w : World) :
  coll (expire c id w) c' !! id'
  = if decide (c = c' ∧ id = id') then None else coll w c' !! id'.
Proof.
  unfold expire. rewrite coll_set_db_insert.
  destruct (decide (c = c')) as [<-|Hc].
  - destruct (decide (id = id')) as [<-|Hi].
    + rewrite lookup_delete_eq. by rewrite decide_True.
    + rewrite lookup_delete_ne by done. rewrite decide_False; [done | by intros [_ ?]].
  - rewrite decide_False; [done | by intros [? _]].
Qed.

Lemma coll_expire_other (c : string) (id : value) (w : World) (c' : string)
    (id' : value) :
  c ≠ c' ∨ id ≠ id' → coll (expire c id w) c' !! id' = coll w c' !! id'.
Proof.
  intros Hother. rewrite coll_expire. rewrite decide_False; [done|].
  intros [-> ->]. by destruct Hother.
Qed.

Lemma unmodified_expire (c : string) (id : value) (w : World) :
  unmodified w (expire c id w).
Proof.
  intros c' id' d Hd. rewrite coll_expire. destruct (decide _); auto.
Qed.

Lemma unmodified_of_db (w w1 w2 : World) :
  db w2 = db w1 → unmodified w w1 → unmodified w w2.
Proof.
  intros Hdb Hu c id d Hd. specialize (Hu c id d Hd). unfold coll in *.
  by rewrite Hdb.
Qed.

End DriverFacts.

(** ** What Create does on a value that cannot be serialized *)

(** C8: when [json.Marshal] fails on the token-info value, [Create] (in
    both packages) returns that error and the world it returns in is the
    world it was called in: nothing was written to any collection. *)
Theorem Create_marshal_error_writes_nothing
    (tsA : Oauth2mongo.TokenStore) (tsB : Mongo.TokenStore)
    (info : TokenInfo) (e : error) (w : World) :
  json_Marshal info = Err e →
  Oauth2mongo.Create tsA info w = Done (Some e) w
  ∧ Mongo.Create tsB info w = Done (Some e) w.
Proof.
  intros He. unfold Oauth2mongo.Create, Mongo.Create. rewrite He. by split.
Qed.

Lemma Create_marshal_error_writes_nothing_witness :
  Oauth2mongo.Create Sample.tsA Sample.info_unencodable Sample.empty
  = Done (Some (ErrCodec "json: unsupported value")) Sample.empty
  ∧ Mongo.Create Sample.tsB Sample.info_unencodable Sample.empty
  = Done (Some (ErrCodec "json: unsupported value")) Sample.empty.
Proof.
  apply (Create_marshal_error_writes_nothing Sample.tsA Sample.tsB
           Sample.info_unencodable (ErrCodec "json: unsupported value") Sample.empty).
  reflexivity.
Defined.

(** ** The expiry of the access record *)

(** C1: for an access token living 59 s and a refresh token living 120 s,
    both created at the start of a minute, the access record [Create]
    writes (in both packages) carries the expiry built from the later of
    the two instants, the refresh expiry, and not the one built from the
    smaller: the test compares the seconds within the minute, 59 against 0. *)
Theorem Create_access_expiry_59s_120s :
  let info := Sample.info_59s_120s in
  let aexp := Add (GetAccessCreateAt info) (GetAccessExpiresIn info) in
  let rexp := Add (GetRefreshCreateAt info) (GetRefreshExpiresIn info) in
  let wA := world_of (Oauth2mongo.Create Sample.tsA info Sample.empty) in
  let wB := world_of (Mongo.Create Sample.tsB info Sample.empty) in
  aexp < rexp
  ∧ Second aexp = 59 ∧ Second rexp = 0
  ∧ expiry_of wA "oauth2_access" (VString "a1")
    = Some (snd (Oauth2mongo.ExpiredAt (Z.max aexp rexp)))
  ∧ expiry_of wA "oauth2_access" (VString "a1")
    ≠ Some (snd (Oauth2mongo.ExpiredAt (Z.min aexp rexp)))
  ∧ expiry_of wB "oauth2_access" (VString "a1")
    = Some (snd (Mongo.ExpiredAt (Z.max aexp rexp)))
  ∧ expiry_of wB "oauth2_access" (VString "a1")
    ≠ Some (snd (Mongo.ExpiredAt (Z.min aexp rexp)))
  ∧ expiry_of wB "oauth2_access" (VString "a1") = Some (VDateTime 1540000140000).
Proof.
  repeat split; try (vm_compute; congruence).
Qed.

(** ** Where the refresh record goes *)

(** C3: in package [mongo], [Create] on a value with access token "a1" and
    refresh token "r1" leaves the refresh collection empty: the record keyed
    by "r1" is in the access collection, and [GetByRefresh] of "r1" finds
    nothing. *)
Theorem Mongo_Create_refresh_record_in_access_collection `{Mongo.Codec} :
  let w := world_of (Mongo.Create Sample.tsB Sample.info_1h_24h Sample.empty) in
  Mongo.Create Sample.tsB Sample.info_1h_24h Sample.empty = Done None w
  ∧ coll w "oauth2_refresh" = ∅
  ∧ reference_of w "oauth2_access" (VString "r1") = Some (VObjectID 0%N)
  ∧ Mongo.GetByRefresh Sample.tsB "r1" w = Done (None, None) w.
Proof.
  repeat split; vm_compute; reflexivity.
Qed.

(** ** Backend errors *)

(** C5: in package [oauth2mongo], a write the backend fails, a read the
    backend fails, and an insert under a taken [_id] each end the process
    with status 1 after the error has been logged; none is returned to
    the caller. *)
Theorem Oauth2mongo_backend_error_is_fatal `{Oauth2mongo.Codec} :
  let failing := mkWorld ∅ 0%N [Some "connection reset"] [] in
  let stored := world_of (Oauth2mongo.Create Sample.tsA Sample.info_code Sample.empty) in
  Oauth2mongo.Create Sample.tsA Sample.info_code failing
  = Exit 1 (mkWorld ∅ 0%N [] [ErrBackend "connection reset"])
  ∧ Oauth2mongo.GetByCode Sample.tsA "c1" failing
    = Exit 1 (mkWorld ∅ 0%N [] [ErrBackend "connection reset"])
  ∧ Oauth2mongo.Create Sample.tsA Sample.info_code stored
    = Exit 1 (mkWorld (db stored) 1%N []
                [ErrDuplicateKey "oauth2_basic" (VString "c1")]).
Proof.
  repeat split; vm_compute; reflexivity.
Qed.

(** ** The access record of a value without access token *)

(** C6: in package [mongo], [Create] on a value whose access token is
    empty (an authorization-code grant) still writes an access record,
    keyed by the empty string. *)
Theorem Mongo_Create_access_record_without_token :
  let w := world_of (Mongo.Create Sample.tsB Sample.info_code Sample.empty) in
  GetAccess Sample.info_code = ""
  ∧ coll w "oauth2_access" !! VString ""
    = Some [("_id", VString ""); ("BasicID", VObjectID 0%N); ("ExpiredAt", VDateTime 0)].
Proof.
  split; vm_compute; reflexivity.
Qed.

(** ** The expiry of the code record *)

(** C7: in package [oauth2mongo], the record [Create] writes for code "c1",
    created now and living ten minutes, carries as [ExpiredAt] the instant
    [time.Unix(0, ms)] where [ms] is the expiry counted in milliseconds:
    1540000620000 nanoseconds after the epoch, not code-creation plus
    code-ttl. *)
Theorem Oauth2mongo_Create_code_expiry :
  let info := Sample.info_code in
  let cexp := Add (GetCodeCreateAt info) (GetCodeExpiresIn info) in
  let w := world_of (Oauth2mongo.Create Sample.tsA info Sample.empty) in
  cexp = 1540000620 * 1000000000
  ∧ expiry_of w "oauth2_basic" (VString "c1") = Some (VTime 1540000620000)
  ∧ expiry_of w "oauth2_basic" (VString "c1") ≠ Some (VTime cexp).
Proof.
  repeat split; vm_compute; congruence.
Qed.

(** ** Removal after Create *)

(** C9: in package [mongo], after [Create] with access token "a1" and
    refresh token "r1" and [RemoveByAccess] of "a1", [GetByAccess] of "a1"
    finds nothing, and neither does [GetByRefresh] of "r1": the refresh
    collection never held the record. *)
Theorem Mongo_GetByRefresh_after_RemoveByAccess `{Mongo.Codec} :
  let w1 := world_of (Mongo.Create Sample.tsB Sample.info_1h_24h Sample.empty) in
  let w2 := world_of (Mongo.RemoveByAccess Sample.tsB "a1" w1) in
  Mongo.RemoveByAccess Sample.tsB "a1" w1 = Done None w2
  ∧ Mongo.GetByAccess Sample.tsB "a1" w2 = Done (None, None) w2
  ∧ Mongo.GetByRefresh Sample.tsB "r1" w2 = Done (None, None) w2
  ∧ coll w2 "oauth2_refresh" = ∅.
Proof.
  repeat split; vm_compute; reflexivity.
Qed.

(** ** Single inserts, as Create uses them *)

Section InsertFacts.

Lemma Collection_InsertOne_ok (c : string) (d : doc) (id : value) (w w1 : World) :
  Lookup "_id" d = Some id →
  Collection_InsertOne c d w = Done None w1 →
  coll w c !! id = None ∧ coll w1 c !! id = Some d
  ∧ next_oid w1 = next_oid w ∧ keeps w w1.
Proof.
  intros Hid Hrun.
  destruct (Collection_InsertOne_id c d id w Hid) as (r & w' & Hr & Hoid & _ & _ & Hdb).
  rewrite Hrun in Hr. injection Hr as <- <-. destruct Hdb as [Hnew Hdb].
  repeat split; try done.
  - unfold coll at 1. rewrite Hdb, lookup_insert_eq. simpl. apply lookup_insert_eq.
  - pose proof (Collection_InsertOne_keeps w c d w (keeps_refl w)) as Hk.
    by rewrite Hrun in Hk.
Qed.

Lemma Collection_InsertOne_any (c : string) (d : doc) (id : value) (w w1 : World)
    (r : option error) :
  Lookup "_id" d = Some id →
  Collection_InsertOne c d w = Done r w1 →
  next_oid w1 = next_oid w ∧ keeps w w1.
Proof.
  intros Hid Hrun.
  destruct (Collection_InsertOne_id c d id w Hid) as (r' & w' & Hr & Hoid & _).
  rewrite Hrun in Hr. injection Hr as <- <-. split; [done|].
  pose proof (Collection_InsertOne_keeps w c d w (keeps_refl w)) as Hk.
  by rewrite Hrun in Hk.
Qed.

(** In package [oauth2mongo] an insert that returns has stored its document. *)
Lemma Oauth2mongo_InsertOne_Done (ts : Oauth2mongo.TokenStore) (c : string) (d : doc)
    (id : value) (w w1 : World) (r : option error) :
  Oauth2mongo.InsertOne ts c d w = Done r w1 →
  Lookup "_id" d = Some id →
  r = None ∧ coll w c !! id = None ∧ coll w1 c !! id = Some d
  ∧ next_oid w1 = next_oid w ∧ keeps w w1.
Proof.
  intros Hrun Hid. unfold Oauth2mongo.InsertOne in Hrun.
  apply bind_Done in Hrun as (verr & w' & Hins & Hrest).
  destruct verr as [e|]; [discriminate|].
  injection Hrest as <- <-.
  split; [done|]. by apply Collection_InsertOne_ok.
Qed.

Lemma Oauth2mongo_InsertOne_keeps (w0 : World) (ts : Oauth2mongo.TokenStore)
    (c : string) (d : doc) :
  preserves (keeps w0) (Oauth2mongo.InsertOne ts c d).
Proof.
  unfold Oauth2mongo.InsertOne.
  apply preserves_bind; [apply Collection_InsertOne_keeps|].
  intros [e|]; [apply preserves_log_Fatal, keeps_of_db | apply preserves_ret].
Qed.

Lemma assign_None (verr err : option error) :
  Mongo.assign verr err = None → verr = None ∧ err = None.
Proof. by destruct verr. Qed.

(** One handler of package [mongo]'s Create: an insert, its error kept. *)
Lemma Mongo_insert_step (ts : Mongo.TokenStore) (c : string) (d : doc)
    (err r : option error) (w w1 : World) :
  Mongo.cHandler ts c (λ c',
    verr ← Collection_InsertOne c' d; mret (Mongo.assign verr err)) w = Done r w1 →
  ∃ verr, Collection_InsertOne c d w = Done verr w1 ∧ r = Mongo.assign verr err.
Proof.
  unfold Mongo.cHandler. intros Hrun.
  apply bind_Done in Hrun as (verr & w' & Hins & Hrest).
  injection Hrest as <- <-. eauto.
Qed.

Lemma Mongo_insert_step_keeps (w0 : World) (ts : Mongo.TokenStore) (c : string)
    (d : doc) (err : option error) :
  preserves (keeps w0) (Mongo.cHandler ts c (λ c',
    verr ← Collection_InsertOne c' d; mret (Mongo.assign verr err))).
Proof.
  unfold Mongo.cHandler.
  apply preserves_bind; [apply Collection_InsertOne_keeps|].
  intros verr. apply preserves_ret.
Qed.

End InsertFacts.

(** ** Create never touches a stored document *)

Section CreateKeeps.

Ltac keeping :=
  repeat first
    [ apply preserves_ret
    | apply Oauth2mongo_InsertOne_keeps
    | apply Mongo_insert_step_keeps
    | apply preserves_objectid_New, keeps_of_db
    | apply preserves_if
    | apply preserves_bind
    | intro ].

Lemma Oauth2mongo_Create_keeps (w0 : World) (ts : Oauth2mongo.TokenStore)
    (info : TokenInfo) :
  preserves (keeps w0) (Oauth2mongo.Create ts info).
Proof.
  unfold Oauth2mongo.Create.
  destruct (json_Marshal info) as [jv|e]; [|apply preserves_ret].
  destruct (decide (GetRefresh info = "")); keeping.
Qed.

Lemma Mongo_Create_keeps (w0 : World) (ts : Mongo.TokenStore) (info : TokenInfo) :
  preserves (keeps w0) (Mongo.Create ts info).
Proof.
  unfold Mongo.Create.
  destruct (json_Marshal info) as [jv|e]; [|apply preserves_ret].
  destruct (decide (GetRefresh info = "")); keeping.
Qed.

End CreateKeeps.

(** ** What a returning Create has written *)

Section CreateWrites.

Lemma Oauth2mongo_guarded_insert (ts : Oauth2mongo.TokenStore) (k c : string)
    (d : doc) (id : value) (w w1 : World) (r : option error) :
  (if decide (k = "") then mret None else Oauth2mongo.InsertOne ts c d) w = Done r w1 →
  Lookup "_id" d = Some id →
  next_oid w1 = next_oid w ∧ keeps w w1 ∧ (k ≠ "" → coll w1 c !! id = Some d).
Proof.
  intros Hrun Hid. destruct (decide (k = "")) as [Hk|Hk].
  - injection Hrun as <- <-. repeat split; [apply keeps_refl | done].
  - destruct (Oauth2mongo_InsertOne_Done ts c d id _ _ _ Hrun Hid) as (_ & _ & ? & ? & ?).
    done.
Qed.

Lemma objectid_New_inv (w w1 : World) (o : ObjectID) :
  objectid_New w = Done o w1 → o = next_oid w ∧ keeps w w1.
Proof. intros [= <- <-]. split; [done | by apply keeps_same_db]. Qed.

(** Package [oauth2mongo]: the records in the world a returning [Create]
    leaves, with the two expiry instants as the function computes them. *)
Lemma Oauth2mongo_Create_Done (ts : Oauth2mongo.TokenStore) (info : TokenInfo)
    (jv : string) (w w' : World) (e : option error) :
  json_Marshal info = Ok jv →
  Oauth2mongo.Create ts info w = Done e w' →
  let id := Hex (next_oid w) in
  let aexp0 := Add (GetAccessCreateAt info) (GetAccessExpiresIn info) in
  let rexp :=
    if decide (GetRefresh info = "") then aexp0
    else Add (GetRefreshCreateAt info) (GetRefreshExpiresIn info) in
  let aexp :=
    if decide (GetRefresh info = "") then aexp0
    else if decide (Second aexp0 > Second rexp) then rexp else aexp0 in
  e = None
  ∧ keeps w w'
  ∧ (GetCode info ≠ "" →
     coll w' (Oauth2mongo.BasicCName (Oauth2mongo.tcfg ts)) !! VString (GetCode info)
     = Some [("_id", VString (GetCode info)); ("Data", VString jv);
             Oauth2mongo.ExpiredAt
               (Add (GetCodeCreateAt info) (GetCodeExpiresIn info))])
  ∧ coll w' (Oauth2mongo.BasicCName (Oauth2mongo.tcfg ts)) !! VString id
    = Some [("_id", VString id); ("Data", VString jv); Oauth2mongo.ExpiredAt rexp]
  ∧ (GetAccess info ≠ "" →
     coll w' (Oauth2mongo.AccessCName (Oauth2mongo.tcfg ts)) !! VString (GetAccess info)
     = Some [("_id", VString (GetAccess info)); ("BasicID", VString id);
             Oauth2mongo.ExpiredAt aexp])
  ∧ (GetRefresh info ≠ "" →
     coll w' (Oauth2mongo.RefreshCName (Oauth2mongo.tcfg ts)) !! VString (GetRefresh info)
     = Some [("_id", VString (GetRefresh info)); ("BasicID", VString id);
             Oauth2mongo.ExpiredAt rexp]).
Proof.
  intros Hjv Hrun. unfold Oauth2mongo.Create in Hrun. rewrite Hjv in Hrun.
  cbv zeta.
  destruct (decide (GetRefresh info = "")) as [Hr|Hr]; cbv zeta in Hrun.
  all: apply bind_Done in Hrun as (r1 & w1 & H1 & Hrun).
  all: apply bind_Done in Hrun as (o & w2 & H2 & Hrun).
  all: apply bind_Done in Hrun as (r3 & w3 & H3 & Hrun).
  all: apply bind_Done in Hrun as (r4 & w4 & H4 & Hrun).
  all: apply bind_Done in Hrun as (r5 & w5 & H5 & Hrun).
  all: injection Hrun as <- <-.
  all: pose proof (Oauth2mongo_guarded_insert _ _ _ _ _ _ _ _ H1 eq_refl)
         as (Ho1 & K1 & C1).
  all: apply objectid_New_inv in H2 as (-> & K2).
  all: pose proof (Oauth2mongo_InsertOne_Done _ _ _ _ _ _ _ H3 eq_refl)
         as (_ & _ & C3 & _ & K3).
  all: pose proof (Oauth2mongo_guarded_insert _ _ _ _ _ _ _ _ H4 eq_refl)
         as (_ & K4 & C4).
  all: rewrite Ho1 in *.
  - injection H5 as <- <-.
    repeat split; try done; eauto 8 using keeps_trans.
  - pose proof (Oauth2mongo_InsertOne_Done _ _ _ _ _ _ _ H5 eq_refl)
      as (_ & _ & C5 & _ & K5).
    repeat split; try done; eauto 8 using keeps_trans.
Qed.

Lemma Mongo_insert_step_inv (ts : Mongo.TokenStore) (c : string) (d : doc)
    (id : value) (err r : option error) (w w1 : World) :
  Mongo.cHandler ts c (λ c',
    verr ← Collection_InsertOne c' d; mret (Mongo.assign verr err)) w = Done r w1 →
  Lookup "_id" d = Some id →
  next_oid w1 = next_oid w ∧ keeps w w1
  ∧ (r = None → err = None ∧ coll w1 c !! id = Some d).
Proof.
  intros Hrun Hid. apply Mongo_insert_step in Hrun as (verr & Hins & ->).
  destruct (Collection_InsertOne_any c d id w w1 verr Hid Hins) as [Ho Hk].
  repeat split; try done.
  - by apply assign_None in H as [_ ?].
  - apply assign_None in H as [-> _].
    by destruct (Collection_InsertOne_ok c d id w w1 Hid Hins) as (_ & ? & _).
Qed.

Lemma Mongo_guarded_step_inv (ts : Mongo.TokenStore) (k c : string) (d : doc)
    (id : value) (err r : option error) (w w1 : World) :
  (if decide (k = "") then mret err
   else Mongo.cHandler ts c (λ c',
          verr ← Collection_InsertOne c' d; mret (Mongo.assign verr err))) w
  = Done r w1 →
  Lookup "_id" d = Some id →
  next_oid w1 = next_oid w ∧ keeps w w1
  ∧ (r = None → err = None ∧ (k ≠ "" → coll w1 c !! id = Some d)).
Proof.
  intros Hrun Hid. destruct (decide (k = "")) as [Hk|Hk].
  - injection Hrun as <- <-. repeat split; [apply keeps_refl | done | done].
  - destruct (Mongo_insert_step_inv ts c d id err r w w1 Hrun Hid) as (? & ? & Hr).
    repeat split; try done; by destruct (Hr H1).
Qed.

(** Package [mongo]: the records in the world a [Create] that returns a
    nil error leaves. *)
Lemma Mongo_Create_Done_nil (ts : Mongo.TokenStore) (info : TokenInfo)
    (jv : string) (w w' : World) :
  json_Marshal info = Ok jv →
  Mongo.Create ts info w = Done None w' →
  let id := VObjectID (next_oid w) in
  let aexp0 := Add (GetAccessCreateAt info) (GetAccessExpiresIn info) in
  let rexp :=
    if decide (GetRefresh info = "") then aexp0
    else Add (GetRefreshCreateAt info) (GetRefreshExpiresIn info) in
  let aexp :=
    if decide (GetRefresh info = "") then aexp0
    else if decide (Second aexp0 > Second rexp) then rexp else aexp0 in
  keeps w w'
  ∧ (GetCode info ≠ "" →
     coll w' (Mongo.BasicCName (Mongo.tcfg ts)) !! VString (GetCode info)
     = Some [("_id", VString (GetCode info)); ("Data", VString jv);
             Mongo.ExpiredAt (Add (GetCodeCreateAt info) (GetCodeExpiresIn info))])
  ∧ coll w' (Mongo.BasicCName (Mongo.tcfg ts)) !! id
    = Some [("_id", id); ("Data", VString jv); Mongo.ExpiredAt rexp]
  ∧ coll w' (Mongo.AccessCName (Mongo.tcfg ts)) !! VString (GetAccess info)
    = Some [("_id", VString (GetAccess info)); ("BasicID", id); Mongo.ExpiredAt aexp]
  ∧ (GetRefresh info ≠ "" →
     coll w' (Mongo.AccessCName (Mongo.tcfg ts)) !! VString (GetRefresh info)
     = Some [("_id", VString (GetRefresh info)); ("BasicID", id);
             Mongo.ExpiredAt rexp]).
Proof.
  intros Hjv Hrun. unfold Mongo.Create in Hrun. rewrite Hjv in Hrun.
  cbv zeta.
  destruct (decide (GetRefresh info = "")) as [Hr|Hr]; cbv zeta in Hrun.
  all: apply bind_Done in Hrun as (r1 & w1 & H1 & Hrun).
  all: apply bind_Done in Hrun as (o & w2 & H2 & Hrun).
  all: apply bind_Done in Hrun as (r3 & w3 & H3 & Hrun).
  all: apply bind_Done in Hrun as (r4 & w4 & H4 & Hrun).
  all: apply bind_Done in Hrun as (r5 & w5 & H5 & Hrun).
  all: injection Hrun as -> <-.
  all: pose proof (Mongo_guarded_step_inv _ _ _ _ _ _ _ _ _ H1 eq_refl)
         as (Ho1 & K1 & C1).
  all: apply objectid_New_inv in H2 as (-> & K2).
  all: pose proof (Mongo_insert_step_inv _ _ _ _ _ _ _ _ H3 eq_refl)
         as (_ & K3 & C3).
  all: pose proof (Mongo_insert_step_inv _ _ _ _ _ _ _ _ H4 eq_refl)
         as (_ & K4 & C4).
  all: rewrite Ho1 in *.
  - injection H5 as -> <-.
    destruct (C4 eq_refl) as [-> C4']. destruct (C3 eq_refl) as [-> C3'].
    destruct (C1 eq_refl) as [_ C1'].
    repeat split; try done; eauto 8 using keeps_trans.
  - pose proof (Mongo_insert_step_inv _ _ _ _ _ _ _ _ H5 eq_refl)
      as (_ & K5 & C5).
    destruct (C5 eq_refl) as [-> C5']. destruct (C4 eq_refl) as [-> C4'].
    destruct (C3 eq_refl) as [-> C3']. destruct (C1 eq_refl) as [_ C1'].
    repeat split; try done; eauto 8 using keeps_trans.
Qed.

(** Package [mongo]'s [Create] always returns to its caller. *)

Lemma returns_ret {A} (a : A) : returns (mret a).
Proof. intros w. by exists a, w. Qed.

Lemma returns_bind {A B} (m : M A) (f : A → M B) :
  returns m → (∀ a, returns (f a)) → returns (m ≫= f).
Proof.
  intros Hm Hf w. destruct (Hm w) as (a & w1 & Ha).
  rewrite (bind_after m f w w1 a Ha). apply Hf.
Qed.

Lemma returns_if {A} (Q : Prop) `{Decision Q} (m1 m2 : M A) :
  returns m1 → returns m2 → returns (if decide Q then m1 else m2).
Proof. by destruct (decide Q). Qed.

Lemma returns_Collection_InsertOne (c : string) (d : doc) :
  returns (Collection_InsertOne c d).
Proof. intros w. apply Collection_InsertOne_Done. Qed.

Lemma returns_objectid_New : returns objectid_New.
Proof. intros w. unfold objectid_New. eauto. Qed.

Lemma Mongo_Create_returns (ts : Mongo.TokenStore) (info : TokenInfo) :
  returns (Mongo.Create ts info).
Proof.
  unfold Mongo.Create. destruct (json_Marshal info) as [jv|e]; [|apply returns_ret].
  cbv zeta. unfold Mongo.cHandler.
  destruct (decide (GetRefresh info = ""));
    repeat first
      [ apply returns_ret
      | apply returns_Collection_InsertOne
      | apply returns_objectid_New
      | apply returns_if
      | apply returns_bind
      | intro ].
Qed.

End CreateWrites.

(** ** The expiry of the generated-key basic record *)


(** ** Lookups *)

Section Lookups.
Context `{CA : Oauth2mongo.Codec} `{CB : Mongo.Codec}.

Lemma Oauth2mongo_getData_absent (ts : Oauth2mongo.TokenStore) (id : string) (w : World) :
  faults w = [] →
  coll w (Oauth2mongo.BasicCName (Oauth2mongo.tcfg ts)) !! VString id = None →
  Oauth2mongo.getData ts id w = Done (None, None) w.
Proof.
  intros Hf Hnone. unfold Oauth2mongo.getData, Oauth2mongo.FindByID.
  rewrite (bind_after _ _ w w _ (Collection_FindOne_quiet _ _ w Hf)).
  by rewrite Hnone.
Qed.

Lemma Oauth2mongo_getBasicID_absent (ts : Oauth2mongo.TokenStore) (cname token : string)
    (w : World) :
  faults w = [] →
  coll w cname !! VString token = None →
  Oauth2mongo.getBasicID ts cname token w = Done ("", None) w.
Proof.
  intros Hf Hnone. unfold Oauth2mongo.getBasicID, Oauth2mongo.FindByID.
  rewrite (bind_after _ _ w w _ (Collection_FindOne_quiet _ _ w Hf)).
  by rewrite Hnone.
Qed.

Lemma Oauth2mongo_getBasicID_present (ts : Oauth2mongo.TokenStore) (cname token : string)
    (d : doc) (td : Oauth2mongo.tokenData) (w : World) :
  faults w = [] →
  coll w cname !! VString token = Some d →
  Oauth2mongo.Decode_tokenData d = Ok td →
  Oauth2mongo.getBasicID ts cname token w = Done (Oauth2mongo.td_BasicID td, None) w.
Proof.
  intros Hf Hd Htd. unfold Oauth2mongo.getBasicID, Oauth2mongo.FindByID.
  rewrite (bind_after _ _ w w _ (Collection_FindOne_quiet _ _ w Hf)).
  rewrite Hd. simpl. by rewrite Htd.
Qed.

Lemma Mongo_getData_absent (ts : Mongo.TokenStore) (id : string) (w : World) :
  faults w = [] →
  coll w (Mongo.BasicCName (Mongo.tcfg ts)) !! VString id = None →
  Mongo.getData ts id w = Done (None, None) w.
Proof.
  intros Hf Hnone. unfold Mongo.getData, Mongo.cHandler.
  rewrite (bind_after _ _ w w _ (Collection_FindOne_quiet _ _ w Hf)).
  by rewrite Hnone.
Qed.

Lemma Mongo_getBasicID_absent (ts : Mongo.TokenStore) (cname token : string) (w : World) :
  faults w = [] →
  coll w cname !! VString token = None →
  Mongo.getBasicID ts cname token w = Done ("", None) w.
Proof.
  intros Hf Hnone. unfold Mongo.getBasicID, Mongo.cHandler.
  rewrite (bind_after _ _ w w _ (Collection_FindOne_quiet _ _ w Hf)).
  by rewrite Hnone.
Qed.

Lemma Mongo_getBasicID_present (ts : Mongo.TokenStore) (cname token : string)
    (d : doc) (td : Mongo.tokenData) (w : World) :
  faults w = [] →
  coll w cname !! VString token = Some d →
  Mongo.Decode_tokenData d = Ok td →
  Mongo.getBasicID ts cname token w = Done (Mongo.td_BasicID td, None) w.
Proof.
  intros Hf Hd Htd. unfold Mongo.getBasicID, Mongo.cHandler.
  rewrite (bind_after _ _ w w _ (Collection_FindOne_quiet _ _ w Hf)).
  rewrite Hd. simpl. by rewrite Htd.
Qed.

(** A lookup through a reference collection, once the reference is
    resolved (to the empty string when there is no reference record). *)
Lemma Oauth2mongo_resolved_then_absent (ts : Oauth2mongo.TokenStore) (cname token b : string)
    (w : World) :
  faults w = [] →
  Oauth2mongo.getBasicID ts cname token w = Done (b, None) w →
  coll w (Oauth2mongo.BasicCName (Oauth2mongo.tcfg ts)) !! VString b = None →
  ('(basicID, err) ← Oauth2mongo.getBasicID ts cname token;
   if decide (err ≠ None ∧ basicID = "") then mret (None, err)
   else Oauth2mongo.getData ts basicID) w = Done (None, None) w.
Proof.
  intros Hf Hb Hnone. rewrite (bind_after _ _ w w _ Hb).
  rewrite decide_False by (by intros [? _]).
  by apply Oauth2mongo_getData_absent.
Qed.

Lemma Mongo_resolved_then_absent (ts : Mongo.TokenStore) (cname token b : string)
    (w : World) :
  faults w = [] →
  Mongo.getBasicID ts cname token w = Done (b, None) w →
  coll w (Mongo.BasicCName (Mongo.tcfg ts)) !! VString b = None →
  ('(basicID, err) ← Mongo.getBasicID ts cname token;
   if decide (err ≠ None ∧ basicID = "") then mret (None, err)
   else Mongo.getData ts basicID) w = Done (None, None) w.
Proof.
  intros Hf Hb Hnone. rewrite (bind_after _ _ w w _ Hb).
  rewrite decide_False by (by intros [? _]).
  by apply Mongo_getData_absent.
Qed.

End Lookups.

(** ** No record is ever stored under the empty key of the basic collection *)

Section BlankKey.
Context `{CA : Oauth2mongo.Codec} `{CB : Mongo.Codec}.

Lemma hexdigits_nonempty (k : nat) (v : N) : hexdigits (S k) v ≠ "".
Proof.
  change (hexdigits (S k) v)
    with (hexdigits k (v / 16) +:+ String (hexdigit (v mod 16)) "").
  destruct (hexdigits k (v / 16)); discriminate.
Qed.

Lemma Hex_nonempty (o : ObjectID) : Hex o ≠ "".
Proof. exact (hexdigits_nonempty 23 o). Qed.

Lemma Collection_InsertOne_no_blank (cname c : string) (d : doc) (id : value) :
  Lookup "_id" d = Some id →
  c ≠ cname ∨ id ≠ VString "" →
  preserves (no_blank_id cname) (Collection_InsertOne c d).
Proof.
  intros Hid Hsafe w Hw.
  destruct (Collection_InsertOne_id c d id w Hid) as (r & w1 & -> & _ & _ & _ & Hdb).
  simpl. destruct r as [e|].
  - by apply (no_blank_id_of_db cname w).
  - destruct Hdb as [_ Hdb]. unfold no_blank_id, coll in *. rewrite Hdb.
    destruct (decide (c = cname)) as [->|Hc].
    + rewrite lookup_insert_eq. simpl.
      destruct Hsafe as [|Hne]; [done|]. by rewrite lookup_insert_ne.
    + by rewrite lookup_insert_ne.
Qed.

Lemma preserves_Collection_DeleteOne_no_blank (cname c : string) (id : value) :
  preserves (no_blank_id cname) (Collection_DeleteOne c id).
Proof.
  intros w Hw.
  destruct (Collection_DeleteOne_cases c id w) as (r & w1 & -> & [Hdb|Hdb]); simpl.
  - by apply (no_blank_id_of_db cname w).
  - apply (no_blank_id_of_db cname (expire c id w)); [done|].
    unfold no_blank_id. rewrite coll_expire. by destruct (decide _).
Qed.

Lemma preserves_Collection_FindOne (P : World → Prop) (c : string) (id : value) :
  of_db P → preserves P (Collection_FindOne c id).
Proof.
  intros HP w Hw.
  destruct (Collection_FindOne_same_db c id w) as (r & w1 & -> & Hdb); simpl.
  by apply (HP w).
Qed.

(** Lookups leave the database as it is, returning or not. *)

Ltac reading HP :=
  repeat first
    [ apply preserves_ret
    | apply preserves_log_Fatal, HP
    | apply preserves_Collection_FindOne, HP
    | apply preserves_if
    | apply preserves_bind
    | match goal with
      | |- preserves _ (match ?x with _ => _ end) => destruct x
      | |- ∀ _, _ => intro
      end ].

Lemma Oauth2mongo_getData_preserves (P : World → Prop) (ts : Oauth2mongo.TokenStore)
    (id : string) :
  of_db P → preserves P (Oauth2mongo.getData ts id).
Proof.
  intros HP. unfold Oauth2mongo.getData, Oauth2mongo.FindByID, Decode. reading HP.
Qed.

Lemma Oauth2mongo_getBasicID_preserves (P : World → Prop) (ts : Oauth2mongo.TokenStore)
    (cname token : string) :
  of_db P → preserves P (Oauth2mongo.getBasicID ts cname token).
Proof.
  intros HP. unfold Oauth2mongo.getBasicID, Oauth2mongo.FindByID, Decode. reading HP.
Qed.

Lemma Mongo_getData_preserves (P : World → Prop) (ts : Mongo.TokenStore) (id : string) :
  of_db P → preserves P (Mongo.getData ts id).
Proof.
  intros HP. unfold Mongo.getData, Mongo.cHandler, Decode. reading HP.
Qed.

Lemma Mongo_getBasicID_preserves (P : World → Prop) (ts : Mongo.TokenStore)
    (cname token : string) :
  of_db P → preserves P (Mongo.getBasicID ts cname token).
Proof.
  intros HP. unfold Mongo.getBasicID, Mongo.cHandler, Decode. reading HP.
Qed.

Lemma Oauth2mongo_lookups_preserve (P : World → Prop) (ts : Oauth2mongo.TokenStore)
    (k : string) :
  of_db P →
  preserves P (Oauth2mongo.GetByCode ts k)
  ∧ preserves P (Oauth2mongo.GetByAccess ts k)
  ∧ preserves P (Oauth2mongo.GetByRefresh ts k).
Proof.
  intros HP.
  unfold Oauth2mongo.GetByCode, Oauth2mongo.GetByAccess, Oauth2mongo.GetByRefresh.
  repeat split;
    repeat first
      [ by apply Oauth2mongo_getData_preserves
      | by apply Oauth2mongo_getBasicID_preserves
      | apply preserves_ret
      | apply preserves_if
      | apply preserves_bind
      | intros [? ?] ].
Qed.

Lemma Mongo_lookups_preserve (P : World → Prop) (ts : Mongo.TokenStore) (k : string) :
  of_db P →
  preserves P (Mongo.GetByCode ts k)
  ∧ preserves P (Mongo.GetByAccess ts k)
  ∧ preserves P (Mongo.GetByRefresh ts k).
Proof.
  intros HP.
  unfold Mongo.GetByCode, Mongo.GetByAccess, Mongo.GetByRefresh.
  repeat split;
    repeat first
      [ by apply Mongo_getData_preserves
      | by apply Mongo_getBasicID_preserves
      | apply preserves_ret
      | apply preserves_if
      | apply preserves_bind
      | intros [? ?] ].
Qed.

Lemma Oauth2mongo_InsertOne_no_blank (cname : string) (ts : Oauth2mongo.TokenStore)
    (c : string) (d : doc) (id : value) :
  Lookup "_id" d = Some id →
  c ≠ cname ∨ id ≠ VString "" →
  preserves (no_blank_id cname) (Oauth2mongo.InsertOne ts c d).
Proof.
  intros Hid Hsafe. unfold Oauth2mongo.InsertOne.
  apply preserves_bind; [by apply (Collection_InsertOne_no_blank cname c d id)|].
  intros [e|]; [apply preserves_log_Fatal, no_blank_id_of_db | apply preserves_ret].
Qed.

Ltac not_blank :=
  first
    [ left; congruence
    | right; discriminate
    | right; intros [= Hx]; first [ congruence | by apply Hex_nonempty in Hx ] ].

Ltac writing :=
  repeat first
    [ apply preserves_ret
    | apply preserves_objectid_New, no_blank_id_of_db
    | match goal with
      | |- ∀ _, _ => intro
      | |- preserves _ (if decide ?Q then _ else _) => destruct (decide Q)
      | |- preserves _ (Oauth2mongo.InsertOne _ _ _) =>
          eapply Oauth2mongo_InsertOne_no_blank; [reflexivity | not_blank]
      | |- preserves _ (Collection_InsertOne _ _) =>
          eapply Collection_InsertOne_no_blank; [reflexivity | not_blank]
      | |- preserves _ (_ ≫= _) => apply preserves_bind
      end ].

(** Package [oauth2mongo] writes no record under the empty key, in any
    collection: every key is guarded or generated. *)
Lemma Oauth2mongo_Create_no_blank (cname : string) (ts : Oauth2mongo.TokenStore)
    (info : TokenInfo) :
  preserves (no_blank_id cname) (Oauth2mongo.Create ts info).
Proof.
  unfold Oauth2mongo.Create.
  destruct (json_Marshal info) as [jv|e]; [|apply preserves_ret].
  cbv zeta. destruct (decide (GetRefresh info = "")); writing.
Qed.

(** Package [mongo] writes none into the basic collection, when the
    access collection is another one. *)
Lemma Mongo_Create_no_blank (ts : Mongo.TokenStore) (info : TokenInfo) :
  Mongo.BasicCName (Mongo.tcfg ts) ≠ Mongo.AccessCName (Mongo.tcfg ts) →
  preserves (no_blank_id (Mongo.BasicCName (Mongo.tcfg ts))) (Mongo.Create ts info).
Proof.
  intros Hne. unfold Mongo.Create.
  destruct (json_Marshal info) as [jv|e]; [|apply preserves_ret].
  cbv zeta. unfold Mongo.cHandler.
  destruct (decide (GetRefresh info = "")); writing.
Qed.

Lemma no_blank_id_empty (cname : string) (o : ObjectID) :
  no_blank_id cname (mkWorld ∅ o [] []).
Proof. unfold no_blank_id, coll. simpl. by rewrite lookup_empty. Qed.

Lemma no_blank_id_expire (cname c : string) (id : value) (w : World) :
  no_blank_id cname w → no_blank_id cname (expire c id w).
Proof. unfold no_blank_id. rewrite coll_expire. by destruct (decide _). Qed.

Lemma Oauth2mongo_reachable_no_blank (ts : Oauth2mongo.TokenStore) (cname : string)
    (w : World) :
  reachable (Oauth2mongo_effect ts) w → no_blank_id cname w.
Proof.
  induction 1 as [o | c w Hr IH | c id w Hr IH | fs w Hr IH].
  - apply no_blank_id_empty.
  - pose proof (no_blank_id_of_db cname) as Hdb.
    destruct (Oauth2mongo_lookups_preserve (no_blank_id cname) ts
                match c with
                | CallGetByCode k | CallGetByAccess k | CallGetByRefresh k => k
                | _ => ""
                end Hdb) as (Hc & Ha & Hf).
    destruct c; simpl.
    + by apply Oauth2mongo_Create_no_blank.
    + by apply preserves_Collection_DeleteOne_no_blank.
    + by apply preserves_Collection_DeleteOne_no_blank.
    + by apply preserves_Collection_DeleteOne_no_blank.
    + by apply Hc.
    + by apply Ha.
    + by apply Hf.
  - by apply no_blank_id_expire.
  - by apply (no_blank_id_of_db cname w).
Qed.

Lemma Mongo_Remove_no_blank (cname c : string) (ts : Mongo.TokenStore) (k : string) :
  preserves (no_blank_id cname) (Mongo.cHandler ts c (λ c',
    verr ← Collection_DeleteMany c' (VString k); mret (Mongo.assign verr None))).
Proof.
  unfold Mongo.cHandler, Collection_DeleteMany.
  apply preserves_bind; [apply preserves_Collection_DeleteOne_no_blank|].
  intros verr. apply preserves_ret.
Qed.

Lemma Mongo_reachable_no_blank (ts : Mongo.TokenStore) (w : World) :
  Mongo.BasicCName (Mongo.tcfg ts) ≠ Mongo.AccessCName (Mongo.tcfg ts) →
  reachable (Mongo_effect ts) w →
  no_blank_id (Mongo.BasicCName (Mongo.tcfg ts)) w.
Proof.
  intros Hne. set (cname := Mongo.BasicCName (Mongo.tcfg ts)).
  induction 1 as [o | c w Hr IH | c id w Hr IH | fs w Hr IH].
  - apply no_blank_id_empty.
  - pose proof (no_blank_id_of_db cname) as Hdb.
    destruct (Mongo_lookups_preserve (no_blank_id cname) ts
                match c with
                | CallGetByCode k | CallGetByAccess k | CallGetByRefresh k => k
                | _ => ""
                end Hdb) as (Hc & Ha & Hf).
    destruct c; simpl.
    + by apply Mongo_Create_no_blank.
    + by apply Mongo_Remove_no_blank.
    + by apply Mongo_Remove_no_blank.
    + by apply Mongo_Remove_no_blank.
    + by apply Hc.
    + by apply Ha.
    + by apply Hf.
  - by apply no_blank_id_expire.
  - by apply (no_blank_id_of_db cname w).
Qed.

End BlankKey.

(** ** Lookups of keys that are not there *)

(** X26: in every world the store can have reached from an empty
    database, and when the backend fails no round-trip of the call, a
    lookup of a key that is not there returns a nil token-info and a nil
    error: in both packages [GetByCode] of a key without basic record and
    [GetByAccess] and [GetByRefresh] of a key without reference record,
    and in package [oauth2mongo] also [GetByAccess] and [GetByRefresh] of a
    key whose reference record decodes and names a basic record that is
    not there.  (In package [mongo] the basic and the access collection
    are taken to be two collections.) *)
Theorem lookups_of_missing_keys
    `{CA : Oauth2mongo.Codec} `{CB : Mongo.Codec}
    (tsA : Oauth2mongo.TokenStore) (tsB : Mongo.TokenStore)
    (wA wB : World) (key : string) :
  reachable (Oauth2mongo_effect tsA) wA → faults wA = [] →
  reachable (Mongo_effect tsB) wB → faults wB = [] →
  Mongo.BasicCName (Mongo.tcfg tsB) ≠ Mongo.AccessCName (Mongo.tcfg tsB) →
  ((coll wA (Oauth2mongo.BasicCName (Oauth2mongo.tcfg tsA)) !! VString key = None →
    Oauth2mongo.GetByCode tsA key wA = Done (None, None) wA)
   ∧ (coll wA (Oauth2mongo.AccessCName (Oauth2mongo.tcfg tsA)) !! VString key = None →
      Oauth2mongo.GetByAccess tsA key wA = Done (None, None) wA)
   ∧ (coll wA (Oauth2mongo.RefreshCName (Oauth2mongo.tcfg tsA)) !! VString key = None →
      Oauth2mongo.GetByRefresh tsA key wA = Done (None, None) wA)
   ∧ (∀ d td,
        coll wA (Oauth2mongo.AccessCName (Oauth2mongo.tcfg tsA)) !! VString key = Some d →
        Oauth2mongo.Decode_tokenData d = Ok td →
        coll wA (Oauth2mongo.BasicCName (Oauth2mongo.tcfg tsA))
          !! VString (Oauth2mongo.td_BasicID td) = None →
        Oauth2mongo.GetByAccess tsA key wA = Done (None, None) wA)
   ∧ (∀ d td,
        coll wA (Oauth2mongo.RefreshCName (Oauth2mongo.tcfg tsA)) !! VString key = Some d →
        Oauth2mongo.Decode_tokenData d = Ok td →
        coll wA (Oauth2mongo.BasicCName (Oauth2mongo.tcfg tsA))
          !! VString (Oauth2mongo.td_BasicID td) = None →
        Oauth2mongo.GetByRefresh tsA key wA = Done (None, None) wA))
  ∧
  ((coll wB (Mongo.BasicCName (Mongo.tcfg tsB)) !! VString key = None →
    Mongo.GetByCode tsB key wB = Done (None, None) wB)
   ∧ (coll wB (Mongo.AccessCName (Mongo.tcfg tsB)) !! VString key = None →
      Mongo.GetByAccess tsB key wB = Done (None, None) wB)
   ∧ (coll wB (Mongo.RefreshCName (Mongo.tcfg tsB)) !! VString key = None →
      Mongo.GetByRefresh tsB key wB = Done (None, None) wB)).
Proof.
  intros HrA HfA HrB HfB Hne.
  pose proof (Oauth2mongo_reachable_no_blank tsA
                (Oauth2mongo.BasicCName (Oauth2mongo.tcfg tsA)) wA HrA) as HbA.
  pose proof (Mongo_reachable_no_blank tsB wB Hne HrB) as HbB.
  split.
  - split; [|split; [|split; [|split]]].
    + intros Hnone. by apply Oauth2mongo_getData_absent.
    + intros Hnone. apply (Oauth2mongo_resolved_then_absent tsA _ key ""); try done.
      by apply Oauth2mongo_getBasicID_absent.
    + intros Hnone. apply (Oauth2mongo_resolved_then_absent tsA _ key ""); try done.
      by apply Oauth2mongo_getBasicID_absent.
    + intros d td Hd Htd Hnone.
      apply (Oauth2mongo_resolved_then_absent tsA _ key (Oauth2mongo.td_BasicID td));
        try done.
      by apply (Oauth2mongo_getBasicID_present tsA _ key d).
    + intros d td Hd Htd Hnone.
      apply (Oauth2mongo_resolved_then_absent tsA _ key (Oauth2mongo.td_BasicID td));
        try done.
      by apply (Oauth2mongo_getBasicID_present tsA _ key d).
  - split; [|split].
    + intros Hnone. by apply Mongo_getData_absent.
    + intros Hnone. apply (Mongo_resolved_then_absent tsB _ key ""); try done.
      by apply Mongo_getBasicID_absent.
    + intros Hnone. apply (Mongo_resolved_then_absent tsB _ key ""); try done.
      by apply Mongo_getBasicID_absent.
Qed.

(** After a [Create] and the expiry of its generated-key basic record:
    "zz" was never a code, and the access record of "a1" names a basic
    record that is gone. *)
Lemma lookups_of_missing_keys_witness :
  let wA :=
    expire "oauth2_basic" (VString (Hex 0%N))
      (@Oauth2mongo_effect Cases.codecA_millis Sample.tsA
         (CallCreate Sample.info_1h_24h) Sample.empty) in
  let wB :=
    @Mongo_effect Sample.codecB Sample.tsB (CallCreate Sample.info_1h_24h) Sample.empty in
  @Oauth2mongo.GetByCode Cases.codecA_millis Sample.tsA "zz" wA = Done (None, None) wA
  ∧ @Oauth2mongo.GetByAccess Cases.codecA_millis Sample.tsA "a1" wA = Done (None, None) wA
  ∧ @Mongo.GetByCode Sample.codecB Sample.tsB "zz" wB = Done (None, None) wB
  ∧ @Mongo.GetByRefresh Sample.codecB Sample.tsB "r1" wB = Done (None, None) wB.
Proof.
  intros wA wB.
  assert (HrA : reachable (@Oauth2mongo_effect Cases.codecA_millis Sample.tsA) wA)
    by apply reach_expire, reach_call, reach_empty.
  assert (HrB : reachable (@Mongo_effect Sample.codecB Sample.tsB) wB)
    by apply reach_call, reach_empty.
  assert (Hne : Mongo.BasicCName (Mongo.tcfg Sample.tsB)
                ≠ Mongo.AccessCName (Mongo.tcfg Sample.tsB)) by (vm_compute; congruence).
  assert (HfA : faults wA = []) by (vm_compute; reflexivity).
  assert (HfB : faults wB = []) by (vm_compute; reflexivity).
  destruct (@lookups_of_missing_keys Cases.codecA_millis Sample.codecB
              Sample.tsA Sample.tsB wA wB "zz" HrA HfA HrB HfB Hne)
    as [(HA1 & _) (HB1 & _)].
  destruct (@lookups_of_missing_keys Cases.codecA_millis Sample.codecB
              Sample.tsA Sample.tsB wA wB "a1" HrA HfA HrB HfB Hne)
    as [(_ & _ & _ & HA4 & _) _].
  destruct (@lookups_of_missing_keys Cases.codecA_millis Sample.codecB
              Sample.tsA Sample.tsB wA wB "r1" HrA HfA HrB HfB Hne)
    as [_ (_ & _ & HB3)].
  split; [|split; [|split]].
  - apply HA1. vm_compute; reflexivity.
  - eapply HA4; vm_compute; reflexivity.
  - apply HB1. vm_compute; reflexivity.
  - apply HB3. vm_compute; reflexivity.
Defined.

(** ** Package [mongo]: a reference record that does not decode *)

(** [Create] of package [mongo] writes [BasicID] as an ObjectID, and
    [tokenData] declares it a string.  When the driver refuses the
    reference record, the lookup returns the driver's error without
    looking for the basic record. *)
Lemma Mongo_lookup_reference_refused `{CB : Mongo.Codec} (ts : Mongo.TokenStore)
    (cname token : string) (d : doc) (e : error) (w : World) :
  faults w = [] →
  coll w cname !! VString token = Some d →
  Mongo.Decode_tokenData d = Err e → e ≠ ErrNoDocuments →
  ('(basicID, err) ← Mongo.getBasicID ts cname token;
   if decide (err ≠ None ∧ basicID = "") then mret (None, err)
   else Mongo.getData ts basicID) w = Done (None, Some e) w.
Proof.
  intros Hf Hd He Hne. unfold Mongo.getBasicID, Mongo.cHandler.
  unfold mbind at 1, M_bind at 1.
  rewrite (bind_after _ _ w _ _ (Collection_FindOne_quiet _ _ w Hf)).
  rewrite Hd. simpl. rewrite He.
  destruct e; try done; simpl; first [done | by rewrite decide_True].
Qed.

(** C4 fails in package [mongo] where the reference record is present and
    the basic record is missing.  Access "a1" living 2 h and refresh "r1"
    living 1 h are created; the generated-key basic record, which carries
    the refresh expiry, expires first.  [GetByAccess] of "a1" then returns
    a nil token-info and the error of decoding the reference record, whose
    [BasicID] is an ObjectID: not-found is surfaced as an error.  Package
    [oauth2mongo], which writes [BasicID] as the hexadecimal string,
    returns nil and nil in the same situation. *)
Theorem Mongo_GetByAccess_basic_missing_is_an_error :
  let w1 := world_of (Mongo.Create Sample.tsB Sample.info_2h_1h Sample.empty) in
  let w2 := expire "oauth2_basic" (VObjectID 0%N) w1 in
  let wA :=
    expire "oauth2_basic" (VString (Hex 0%N))
      (world_of (Oauth2mongo.Create Sample.tsA Sample.info_2h_1h Sample.empty)) in
  faults w2 = []
  ∧ reference_of w2 "oauth2_access" (VString "a1") = Some (VObjectID 0%N)
  ∧ coll w2 "oauth2_basic" = ∅
  ∧ @Mongo.GetByAccess Sample.codecB Sample.tsB "a1" w2
    = Done (None, Some (ErrCodec "BasicID")) w2
  ∧ @Mongo.GetByAccess Sample.codecB Sample.tsB "a1" w2 ≠ Done (None, None) w2
  ∧ reference_of wA "oauth2_access" (VString "a1") = Some (VString (Hex 0%N))
  ∧ coll wA "oauth2_basic" = ∅
  ∧ @Oauth2mongo.GetByAccess Sample.codecA Sample.tsA "a1" wA = Done (None, None) wA.
Proof.
  intros w1 w2 wA.
  assert (Hf : faults w2 = []) by (vm_compute; reflexivity).
  assert (Hd : coll w2 "oauth2_access" !! VString "a1"
               = Some [("_id", VString "a1"); ("BasicID", VObjectID 0%N);
                       ("ExpiredAt", VDateTime 1540007220000)])
    by (vm_compute; reflexivity).
  assert (Hrun : @Mongo.GetByAccess Sample.codecB Sample.tsB "a1" w2
                 = Done (None, Some (ErrCodec "BasicID")) w2).
  { apply (@Mongo_lookup_reference_refused Sample.codecB Sample.tsB
             "oauth2_access" "a1" _ (ErrCodec "BasicID") w2 Hf Hd); [reflexivity|done]. }
  split; [exact Hf|]. split; [vm_compute; reflexivity|].
  split; [vm_compute; reflexivity|]. split; [exact Hrun|].
  split; [rewrite Hrun; discriminate|].
  split; [vm_compute; reflexivity|]. split; vm_compute; reflexivity.
Qed.

(** ** No operation modifies a stored record *)

Section Unmodified.
Context `{CA : Oauth2mongo.Codec} `{CB : Mongo.Codec}.

Lemma unmodified_refl (w : World) : unmodified w w.
Proof. apply keeps_unmodified, keeps_refl. Qed.

Lemma unmodified_is_of_db (w0 : World) : of_db (unmodified w0).
Proof. intros w w' Hdb Hu. by apply (unmodified_of_db w0 w w'). Qed.

Lemma Collection_DeleteOne_unmodified (c : string) (id : value) (w : World) :
  unmodified w (world_of (Collection_DeleteOne c id w)).
Proof.
  destruct (Collection_DeleteOne_cases c id w) as (r & w1 & -> & [Hdb|Hdb]); simpl.
  - apply (unmodified_of_db w w w1 Hdb), unmodified_refl.
  - apply (unmodified_of_db w (expire c id w) w1 Hdb), unmodified_expire.
Qed.

Lemma Mongo_Remove_unmodified (ts : Mongo.TokenStore) (c k : string) (w : World) :
  unmodified w (world_of (Mongo.cHandler ts c (λ c',
    verr ← Collection_DeleteMany c' (VString k); mret (Mongo.assign verr None)) w)).
Proof.
  unfold Mongo.cHandler, Collection_DeleteMany.
  pose proof (Collection_DeleteOne_unmodified c (VString k) w) as Hu.
  unfold mbind, M_bind.
  by destruct (Collection_DeleteOne c (VString k) w) as [r w1|s w1].
Qed.

Lemma Oauth2mongo_call_unmodified (ts : Oauth2mongo.TokenStore) (c : call) (w : World) :
  unmodified w (Oauth2mongo_effect ts c w).
Proof.
  destruct (Oauth2mongo_lookups_preserve (unmodified w) ts
              match c with
              | CallGetByCode k | CallGetByAccess k | CallGetByRefresh k => k
              | _ => ""
              end (unmodified_is_of_db w)) as (Hc & Ha & Hf).
  destruct c; simpl.
  - apply keeps_unmodified, Oauth2mongo_Create_keeps, keeps_refl.
  - apply Collection_DeleteOne_unmodified.
  - apply Collection_DeleteOne_unmodified.
  - apply Collection_DeleteOne_unmodified.
  - apply Hc, unmodified_refl.
  - apply Ha, unmodified_refl.
  - apply Hf, unmodified_refl.
Qed.

Lemma Mongo_call_unmodified (ts : Mongo.TokenStore) (c : call) (w : World) :
  unmodified w (Mongo_effect ts c w).
Proof.
  destruct (Mongo_lookups_preserve (unmodified w) ts
              match c with
              | CallGetByCode k | CallGetByAccess k | CallGetByRefresh k => k
              | _ => ""
              end (unmodified_is_of_db w)) as (Hc & Ha & Hf).
  destruct c; simpl.
  - apply keeps_unmodified, Mongo_Create_keeps, keeps_refl.
  - apply Mongo_Remove_unmodified.
  - apply Mongo_Remove_unmodified.
  - apply Mongo_Remove_unmodified.
  - apply Hc, unmodified_refl.
  - apply Ha, unmodified_refl.
  - apply Hf, unmodified_refl.
Qed.

(** An insert keeps what is stored, and under a taken [_id] it fails and
    changes nothing. *)
Lemma Collection_InsertOne_never_replaces (c : string) (d : doc) (w : World) :
  ∃ r w', Collection_InsertOne c d w = Done r w' ∧ keeps w w'
    ∧ ∀ id, Lookup "_id" d = Some id → is_Some (coll w c !! id) →
        r ≠ None ∧ db w' = db w.
Proof.
  destruct (Collection_InsertOne_Done c d w) as (r & w' & Hrun).
  exists r, w'. split; [done|]. split.
  - pose proof (Collection_InsertOne_keeps w c d w (keeps_refl w)) as Hk.
    by rewrite Hrun in Hk.
  - intros id Hid [d0 Hd0].
    destruct (Collection_InsertOne_id c d id w Hid) as (r' & w1 & Hr & _ & _ & _ & Hdb).
    rewrite Hrun in Hr. injection Hr as <- <-.
    destruct r as [e|]; [done|]. destruct Hdb as [Hnone _]. congruence.
Qed.

End Unmodified.

(** C10: whatever call of the store interface runs in whatever world, in
    either package, every record of the world before is in the world after
    exactly as it was, or is gone; [Create] in particular keeps every stored
    record as it was, payload and expiry included; and the driver's insert,
    the only write [Create] makes, fails on a taken [_id] and leaves the
    database as it was. *)
Theorem operations_never_modify_a_record
    `{CA : Oauth2mongo.Codec} `{CB : Mongo.Codec}
    (tsA : Oauth2mongo.TokenStore) (tsB : Mongo.TokenStore)
    (c : call) (info : TokenInfo) (cname : string) (d : doc) (w : World) :
  unmodified w (Oauth2mongo_effect tsA c w)
  ∧ unmodified w (Mongo_effect tsB c w)
  ∧ keeps w (Oauth2mongo_effect tsA (CallCreate info) w)
  ∧ keeps w (Mongo_effect tsB (CallCreate info) w)
  ∧ ∃ r w', Collection_InsertOne cname d w = Done r w' ∧ keeps w w'
      ∧ ∀ id, Lookup "_id" d = Some id → is_Some (coll w cname !! id) →
          r ≠ None ∧ db w' = db w.
Proof.
  split; [apply Oauth2mongo_call_unmodified|].
  split; [apply Mongo_call_unmodified|].
  split; [apply Oauth2mongo_Create_keeps, keeps_refl|].
  split; [apply Mongo_Create_keeps, keeps_refl|].
  apply Collection_InsertOne_never_replaces.
Qed.

(** ** Removal *)

Section Removal.
Context `{CA : Oauth2mongo.Codec} `{CB : Mongo.Codec}.

(** A delete leaves every other record where it is. *)
Lemma Collection_DeleteOne_frame (c c' : string) (id id' : value) (w : World) :
  c' ≠ c ∨ id' ≠ id →
  coll (world_of (Collection_DeleteOne c id w)) c' !! id' = coll w c' !! id'.
Proof.
  intros Hother.
  destruct (Collection_DeleteOne_cases c id w) as (r & w1 & -> & [Hdb|Hdb]); simpl.
  - unfold coll. by rewrite Hdb.
  - transitivity (coll (expire c id w) c' !! id'); [unfold coll; by rewrite Hdb|].
    rewrite coll_expire. rewrite decide_False; [done|].
    intros [-> ->]. by destruct Hother.
Qed.

(** The three removals of package [oauth2mongo] touch nothing but the
    record of the given key in their own collection. *)
Lemma Oauth2mongo_Remove_frame (ts : Oauth2mongo.TokenStore) (key c' : string)
    (id' : value) (w : World) :
  (c' ≠ Oauth2mongo.BasicCName (Oauth2mongo.tcfg ts) ∨ id' ≠ VString key →
   coll (world_of (Oauth2mongo.RemoveByCode ts key w)) c' !! id' = coll w c' !! id')
  ∧ (c' ≠ Oauth2mongo.AccessCName (Oauth2mongo.tcfg ts) ∨ id' ≠ VString key →
     coll (world_of (Oauth2mongo.RemoveByAccess ts key w)) c' !! id' = coll w c' !! id')
  ∧ (c' ≠ Oauth2mongo.RefreshCName (Oauth2mongo.tcfg ts) ∨ id' ≠ VString key →
     coll (world_of (Oauth2mongo.RemoveByRefresh ts key w)) c' !! id' = coll w c' !! id').
Proof.
  repeat split; intros Hother; by apply Collection_DeleteOne_frame.
Qed.

Lemma Mongo_Remove_world (ts : Mongo.TokenStore) (c k : string) (w : World) :
  world_of (Mongo.cHandler ts c (λ c',
    verr ← Collection_DeleteMany c' (VString k); mret (Mongo.assign verr None)) w)
  = world_of (Collection_DeleteOne c (VString k) w).
Proof.
  unfold Mongo.cHandler, Collection_DeleteMany, mbind, M_bind.
  by destruct (Collection_DeleteOne c (VString k) w).
Qed.

(** So do the three removals of package [mongo]. *)
Lemma Mongo_Remove_frame (ts : Mongo.TokenStore) (key c' : string)
    (id' : value) (w : World) :
  (c' ≠ Mongo.BasicCName (Mongo.tcfg ts) ∨ id' ≠ VString key →
   coll (world_of (Mongo.RemoveByCode ts key w)) c' !! id' = coll w c' !! id')
  ∧ (c' ≠ Mongo.AccessCName (Mongo.tcfg ts) ∨ id' ≠ VString key →
     coll (world_of (Mongo.RemoveByAccess ts key w)) c' !! id' = coll w c' !! id')
  ∧ (c' ≠ Mongo.RefreshCName (Mongo.tcfg ts) ∨ id' ≠ VString key →
     coll (world_of (Mongo.RemoveByRefresh ts key w)) c' !! id' = coll w c' !! id').
Proof.
  unfold Mongo.RemoveByCode, Mongo.RemoveByAccess, Mongo.RemoveByRefresh.
  rewrite !Mongo_Remove_world.
  repeat split; intros Hother; by apply Collection_DeleteOne_frame.
Qed.

(** A removal the backend does not fail takes the record away. *)
Lemma Remove_gone (tsA : Oauth2mongo.TokenStore) (tsB : Mongo.TokenStore)
    (key : string) (w : World) :
  faults w = [] →
  coll (world_of (Oauth2mongo.RemoveByAccess tsA key w))
    (Oauth2mongo.AccessCName (Oauth2mongo.tcfg tsA)) !! VString key = None
  ∧ coll (world_of (Mongo.RemoveByAccess tsB key w))
      (Mongo.AccessCName (Mongo.tcfg tsB)) !! VString key = None.
Proof.
  intros Hf. unfold Mongo.RemoveByAccess. rewrite Mongo_Remove_world.
  unfold Oauth2mongo.RemoveByAccess, Oauth2mongo.DeleteByID.
  rewrite !(Collection_DeleteOne_quiet _ _ w Hf). simpl.
  rewrite !coll_expire. by rewrite !decide_True.
Qed.

End Removal.

(** ** Package [oauth2mongo]: lookups after Create *)

Section AfterCreate.
Context `{CA : Oauth2mongo.Codec}.

Lemma Oauth2mongo_getData_found (ts : Oauth2mongo.TokenStore) (id : string) (d : doc)
    (bd : Oauth2mongo.basicData) (w : World) :
  faults w = [] →
  coll w (Oauth2mongo.BasicCName (Oauth2mongo.tcfg ts)) !! VString id = Some d →
  Oauth2mongo.Decode_basicData d = Ok bd →
  Oauth2mongo.getData ts id w = Done (unmarshalled (Oauth2mongo.bd_Data bd)) w.
Proof.
  intros Hf Hd Hbd. unfold Oauth2mongo.getData, Oauth2mongo.FindByID.
  rewrite (bind_after _ _ w w _ (Collection_FindOne_quiet _ _ w Hf)).
  rewrite Hd. simpl. rewrite Hbd. unfold unmarshalled.
  by destruct (Oauth2mongo.json_Unmarshal (Oauth2mongo.bd_Data bd)).
Qed.

Lemma Oauth2mongo_lookup_through (ts : Oauth2mongo.TokenStore) (cname token : string)
    (rd d : doc) (td : Oauth2mongo.tokenData) (bd : Oauth2mongo.basicData) (w : World) :
  faults w = [] →
  coll w cname !! VString token = Some rd →
  Oauth2mongo.Decode_tokenData rd = Ok td →
  coll w (Oauth2mongo.BasicCName (Oauth2mongo.tcfg ts))
    !! VString (Oauth2mongo.td_BasicID td) = Some d →
  Oauth2mongo.Decode_basicData d = Ok bd →
  ('(basicID, err) ← Oauth2mongo.getBasicID ts cname token;
   if decide (err ≠ None ∧ basicID = "") then mret (None, err)
   else Oauth2mongo.getData ts basicID) w
  = Done (unmarshalled (Oauth2mongo.bd_Data bd)) w.
Proof.
  intros Hf Hrd Htd Hd Hbd.
  rewrite (bind_after _ _ w w _
             (Oauth2mongo_getBasicID_present ts cname token rd td w Hf Hrd Htd)).
  rewrite decide_False by (by intros [? _]).
  by apply (Oauth2mongo_getData_found ts _ d).
Qed.

(** With a conforming codec, a basic record of the shape [Create] writes
    resolves to its payload, directly and through a reference record. *)
Lemma Oauth2mongo_getData_conforms (ts : Oauth2mongo.TokenStore) (k id data : string)
    (t : Time) (w : World) :
  conforms CA →
  faults w = [] →
  coll w (Oauth2mongo.BasicCName (Oauth2mongo.tcfg ts)) !! VString k
  = Some [("_id", VString id); ("Data", VString data); ("ExpiredAt", VTime t)] →
  Oauth2mongo.getData ts k w = Done (unmarshalled data) w.
Proof.
  intros [Hbd _] Hf Hd. destruct (Hbd id data t) as (bd & Hdec & <-).
  exact (Oauth2mongo_getData_found ts k _ bd w Hf Hd Hdec).
Qed.

Lemma Oauth2mongo_lookup_through_conforms (ts : Oauth2mongo.TokenStore)
    (cname token id b idb data : string) (t tb : Time) (w : World) :
  conforms CA →
  faults w = [] →
  coll w cname !! VString token
  = Some [("_id", VString id); ("BasicID", VString b); ("ExpiredAt", VTime t)] →
  coll w (Oauth2mongo.BasicCName (Oauth2mongo.tcfg ts)) !! VString b
  = Some [("_id", VString idb); ("Data", VString data); ("ExpiredAt", VTime tb)] →
  ('(basicID, err) ← Oauth2mongo.getBasicID ts cname token;
   if decide (err ≠ None ∧ basicID = "") then mret (None, err)
   else Oauth2mongo.getData ts basicID) w
  = Done (unmarshalled data) w.
Proof.
  intros [Hbd Htd] Hf Hrd Hd.
  destruct (Htd id b t) as (td & Htdec & Hb).
  destruct (Hbd idb data tb) as (bd & Hbdec & <-).
  rewrite <- Hb in Hd.
  exact (Oauth2mongo_lookup_through ts cname token _ _ td bd w Hf Hrd Htdec Hd Hbdec).
Qed.

(** After a [Create] that returned, and when the backend fails no
    round-trip, the three lookups resolve to the one serialized payload. *)
Lemma Oauth2mongo_Create_then_lookups (ts : Oauth2mongo.TokenStore) (info : TokenInfo)
    (jv : string) (w w' : World) (e : option error) :
  conforms CA →
  json_Marshal info = Ok jv →
  Oauth2mongo.Create ts info w = Done e w' →
  faults w' = [] →
  (GetCode info ≠ "" →
   Oauth2mongo.GetByCode ts (GetCode info) w' = Done (unmarshalled jv) w')
  ∧ (GetAccess info ≠ "" →
     Oauth2mongo.GetByAccess ts (GetAccess info) w' = Done (unmarshalled jv) w')
  ∧ (GetRefresh info ≠ "" →
     Oauth2mongo.GetByRefresh ts (GetRefresh info) w' = Done (unmarshalled jv) w').
Proof.
  intros Hconf Hjv Hrun Hf.
  destruct (Oauth2mongo_Create_Done ts info jv w w' e Hjv Hrun)
    as (_ & _ & Hc & Hb & Ha & Hr).
  repeat split.
  - intros Hne. unfold Oauth2mongo.GetByCode.
    exact (Oauth2mongo_getData_conforms ts _ _ _ _ w' Hconf Hf (Hc Hne)).
  - intros Hne. unfold Oauth2mongo.GetByAccess.
    exact (Oauth2mongo_lookup_through_conforms ts _ _ _ _ _ _ _ _ w' Hconf Hf
             (Ha Hne) Hb).
  - intros Hne. unfold Oauth2mongo.GetByRefresh.
    exact (Oauth2mongo_lookup_through_conforms ts _ _ _ _ _ _ _ _ w' Hconf Hf
             (Hr Hne) Hb).
Qed.

(** And after [RemoveByAccess] of the access token, the lookup by access
    token finds nothing while the lookup by refresh token still resolves. *)
Lemma Oauth2mongo_RemoveByAccess_then_lookups (ts : Oauth2mongo.TokenStore)
    (info : TokenInfo) (jv : string) (w w1 : World) (e : option error) :
  conforms CA →
  distinct_names (Oauth2mongo.tcfg ts) →
  json_Marshal info = Ok jv →
  GetAccess info ≠ "" → GetRefresh info ≠ "" →
  Oauth2mongo.Create ts info w = Done e w1 →
  faults w1 = [] →
  no_blank_id (Oauth2mongo.BasicCName (Oauth2mongo.tcfg ts)) w1 →
  let w2 := world_of (Oauth2mongo.RemoveByAccess ts (GetAccess info) w1) in
  Oauth2mongo.RemoveByAccess ts (GetAccess info) w1 = Done None w2
  ∧ Oauth2mongo.GetByAccess ts (GetAccess info) w2 = Done (None, None) w2
  ∧ Oauth2mongo.GetByRefresh ts (GetRefresh info) w2 = Done (unmarshalled jv) w2.
Proof.
  intros Hconf (Hba & Hbr & Har) Hjv Hacc Href Hrun Hf Hblank w2.
  destruct (Oauth2mongo_Create_Done ts info jv w w1 e Hjv Hrun)
    as (_ & _ & _ & Hb & _ & Hr).
  assert (Hw2 : w2 = expire (Oauth2mongo.AccessCName (Oauth2mongo.tcfg ts))
                       (VString (GetAccess info)) w1).
  { unfold w2, Oauth2mongo.RemoveByAccess, Oauth2mongo.DeleteByID.
    by rewrite (Collection_DeleteOne_quiet _ _ w1 Hf). }
  assert (Hf2 : faults w2 = []) by (by rewrite Hw2).
  split; [|split].
  - unfold Oauth2mongo.RemoveByAccess, Oauth2mongo.DeleteByID.
    by rewrite Hw2, (Collection_DeleteOne_quiet _ _ w1 Hf).
  - unfold Oauth2mongo.GetByAccess.
    apply (Oauth2mongo_resolved_then_absent ts _ _ ""); [done| |].
    + apply Oauth2mongo_getBasicID_absent; [done|].
      rewrite Hw2, coll_expire. by rewrite decide_True.
    + rewrite Hw2, coll_expire. rewrite decide_False; [done|]. by intros [? _].
  - unfold Oauth2mongo.GetByRefresh.
    pose proof (Hr Href) as Hr1.
    rewrite <- (coll_expire_other (Oauth2mongo.AccessCName (Oauth2mongo.tcfg ts))
                  (VString (GetAccess info)) w1) in Hr1 by (by left).
    rewrite <- (coll_expire_other (Oauth2mongo.AccessCName (Oauth2mongo.tcfg ts))
                  (VString (GetAccess info)) w1) in Hb by (by left).
    rewrite <- Hw2 in Hr1, Hb.
    exact (Oauth2mongo_lookup_through_conforms ts _ _ _ _ _ _ _ _ w2 Hconf Hf2 Hr1 Hb).
Qed.

Lemma Sample_codecA_conforms : conforms Sample.codecA.
Proof. split; intros; eexists; split; reflexivity. Qed.

End AfterCreate.

(** ** The two encodings of an expiry instant *)

Section Encoding.

Lemma wrap64_small (z : Z) : - 2 ^ 63 ≤ z < 2 ^ 63 → wrap64 z = z.
Proof.
  intros Hz. unfold wrap64.
  assert (E63 : 2 ^ 63 = 9223372036854775808) by reflexivity.
  assert (E64 : 2 ^ 64 = 18446744073709551616) by reflexivity.
  rewrite E63, E64 in *.
  rewrite Z.mod_small by lia. lia.
Qed.

Lemma div64_millis (t : Time) :
  0 ≤ t < 2 ^ 63 → div64 (UnixNano t) Millisecond = t / 1000000.
Proof.
  intros Ht. unfold div64, UnixNano, Millisecond.
  assert (E63 : 2 ^ 63 = 9223372036854775808) by reflexivity.
  rewrite (wrap64_small t) by lia.
  rewrite Z.quot_div_nonneg by lia.
  apply wrap64_small. rewrite E63 in *.
  pose proof (Z.div_pos t 1000000 ltac:(lia) ltac:(lia)).
  pose proof (Z.div_mod t 1000000 ltac:(lia)).
  pose proof (Z.mod_pos_bound t 1000000 ltac:(lia)).
  lia.
Qed.

(** Package [mongo] stores the instant as a BSON datetime: the instant cut
    to whole milliseconds. *)
Lemma Mongo_ExpiredAt_millis (t : Time) :
  0 ≤ t < 2 ^ 63 →
  ∃ ms, Mongo.ExpiredAt t = ("ExpiredAt", VDateTime ms)
        ∧ ms * Millisecond ≤ t < ms * Millisecond + Millisecond.
Proof.
  intros Ht. exists (t / 1000000). unfold Mongo.ExpiredAt.
  rewrite (div64_millis t Ht). split; [done|].
  unfold Millisecond.
  pose proof (Z.div_mod t 1000000 ltac:(lia)).
  pose proof (Z.mod_pos_bound t 1000000 ltac:(lia)).
  lia.
Qed.

(** Package [oauth2mongo] stores [time.Unix(0, ms)]: an instant a million
    times closer to the epoch, which is the instant itself at the epoch only. *)
Lemma Oauth2mongo_ExpiredAt_scaled (t : Time) :
  0 < t < 2 ^ 63 →
  Oauth2mongo.ExpiredAt t = ("ExpiredAt", VTime (t / 1000000))
  ∧ snd (Oauth2mongo.ExpiredAt t) ≠ VTime t.
Proof.
  intros Ht. unfold Oauth2mongo.ExpiredAt, Unix.
  rewrite (div64_millis t) by lia. simpl. split; [done|].
  intros [= Heq].
  pose proof (Z.div_lt t 1000000 ltac:(lia) ltac:(lia)). lia.
Qed.

End Encoding.

(** ** The expiry of the generated-key basic record, amended *)



(** ** The scenario of the specification, in both packages *)

Section Scenario.

(** Code "c1", access "a1" living one hour, refresh "r1" living twenty-four
    hours, all created now: in package [mongo] the access record expires at
    now + 1 h and the generated-key basic record at now + 24 h, counted in
    milliseconds. *)
Example Mongo_Create_1h_24h :
  let w := world_of (Mongo.Create Sample.tsB Sample.info_1h_24h Sample.empty) in
  expiry_of w "oauth2_access" (VString "a1")
  = Some (VDateTime ((Sample.now + Hour) / Millisecond))
  ∧ expiry_of w "oauth2_basic" (VObjectID 0%N)
    = Some (VDateTime ((Sample.now + 24 * Hour) / Millisecond))
  ∧ expiry_of w "oauth2_basic" (VString "c1")
    = Some (VDateTime ((Sample.now + 10 * Minute) / Millisecond)).
Proof. repeat split; vm_compute; reflexivity. Qed.

(** In package [oauth2mongo] the three lookups return the one payload, and
    after [RemoveByAccess] the lookup by refresh token still does. *)
Example Oauth2mongo_Create_1h_24h :
  let w1 := world_of (Oauth2mongo.Create Sample.tsA Sample.info_1h_24h Sample.empty) in
  let w2 := world_of (Oauth2mongo.RemoveByAccess Sample.tsA "a1" w1) in
  @Oauth2mongo.GetByCode Sample.codecA Sample.tsA "c1" w1 = Done (Some "{token}", None) w1
  ∧ @Oauth2mongo.GetByAccess Sample.codecA Sample.tsA "a1" w1
    = Done (Some "{token}", None) w1
  ∧ @Oauth2mongo.GetByRefresh Sample.codecA Sample.tsA "r1" w1
    = Done (Some "{token}", None) w1
  ∧ @Oauth2mongo.GetByAccess Sample.codecA Sample.tsA "a1" w2 = Done (None, None) w2
  ∧ @Oauth2mongo.GetByRefresh Sample.codecA Sample.tsA "r1" w2
    = Done (Some "{token}", None) w2.
Proof.
  intros w1 w2.
  assert (Hrun : Oauth2mongo.Create Sample.tsA Sample.info_1h_24h Sample.empty
                 = Done None w1) by (vm_compute; reflexivity).
  assert (Hf : faults w1 = []) by (vm_compute; reflexivity).
  destruct (@Oauth2mongo_Create_then_lookups Sample.codecA Sample.tsA
              Sample.info_1h_24h "{token}" Sample.empty w1 None
              Sample_codecA_conforms eq_refl Hrun Hf) as (Hc & Ha & Hr).
  assert (Hnames : distinct_names (Oauth2mongo.tcfg Sample.tsA))
    by (repeat split; vm_compute; congruence).
  assert (Hblank : no_blank_id "oauth2_basic" w1) by (vm_compute; reflexivity).
  assert (Hacc : GetAccess Sample.info_1h_24h ≠ "") by (vm_compute; congruence).
  assert (Href : GetRefresh Sample.info_1h_24h ≠ "") by (vm_compute; congruence).
  assert (Hcode : GetCode Sample.info_1h_24h ≠ "") by (vm_compute; congruence).
  destruct (@Oauth2mongo_RemoveByAccess_then_lookups Sample.codecA Sample.tsA
              Sample.info_1h_24h "{token}" Sample.empty w1 None
              Sample_codecA_conforms Hnames eq_refl Hacc Href Hrun Hf Hblank)
    as (_ & Ha2 & Hr2).
  split; [exact (Hc Hcode)|]. split; [exact (Ha Hacc)|]. split; [exact (Hr Href)|].
  split; [exact Ha2 | exact Hr2].
Qed.

End Scenario.

(** ** Package [oauth2mongo]: the access record and the access token *)

Section AccessRecord.

Lemma coll_of_db (cname : string) (m : gmap value doc) :
  of_db (λ w, coll w cname = m).
Proof. intros w w' Hdb. unfold coll. by rewrite Hdb. Qed.

Lemma reference_of_lookup (w : World) (cname : string) (id : value) (d : doc) :
  coll w cname !! id = Some d → reference_of w cname id = Lookup "BasicID" d.
Proof. unfold reference_of. by intros ->. Qed.

(** An insert into one collection leaves the others as they are. *)
Lemma Collection_InsertOne_other (cname c : string) (d : doc) (m : gmap value doc) :
  c ≠ cname →
  preserves (λ w, coll w cname = m) (Collection_InsertOne c d).
Proof.
  intros Hne. pose proof (coll_of_db cname m) as Hdb.
  unfold Collection_InsertOne.
  apply preserves_bind; [by apply preserves_roundtrip|].
  intros [e|]; [apply preserves_ret|].
  apply preserves_bind; [by apply preserves_ensure_id|].
  intros d' w Hw. unfold store_new.
  destruct (coll w c !! _); simpl; [done|].
  rewrite coll_set_db_insert. by rewrite decide_False.
Qed.

Lemma Oauth2mongo_InsertOne_other (ts : Oauth2mongo.TokenStore) (cname c : string)
    (d : doc) (m : gmap value doc) :
  c ≠ cname →
  preserves (λ w, coll w cname = m) (Oauth2mongo.InsertOne ts c d).
Proof.
  intros Hne. unfold Oauth2mongo.InsertOne.
  apply preserves_bind; [by apply Collection_InsertOne_other|].
  intros [e|]; [apply preserves_log_Fatal, coll_of_db | apply preserves_ret].
Qed.

(** [Create] writes the access record when the access token is not empty,
    and leaves the access collection as it is when it is empty. *)
Lemma Oauth2mongo_Create_access_record_iff (ts : Oauth2mongo.TokenStore)
    (info : TokenInfo) (jv : string) (w w' : World) (e : option error) :
  distinct_names (Oauth2mongo.tcfg ts) →
  json_Marshal info = Ok jv →
  Oauth2mongo.Create ts info w = Done e w' →
  (GetAccess info ≠ "" →
   reference_of w' (Oauth2mongo.AccessCName (Oauth2mongo.tcfg ts))
     (VString (GetAccess info)) = Some (VString (Hex (next_oid w))))
  ∧ (GetAccess info = "" →
     coll w' (Oauth2mongo.AccessCName (Oauth2mongo.tcfg ts))
     = coll w (Oauth2mongo.AccessCName (Oauth2mongo.tcfg ts))).
Proof.
  intros (Hba & Hbr & Har) Hjv Hrun. split.
  - intros Hne.
    destruct (Oauth2mongo_Create_Done ts info jv w w' e Hjv Hrun)
      as (_ & _ & _ & _ & Ha & _).
    by rewrite (reference_of_lookup _ _ _ _ (Ha Hne)).
  - intros Hnone.
    set (P := λ w0 : World, coll w0 (Oauth2mongo.AccessCName (Oauth2mongo.tcfg ts))
                           = coll w (Oauth2mongo.AccessCName (Oauth2mongo.tcfg ts))).
    assert (Hp : preserves P (Oauth2mongo.Create ts info)).
    { unfold Oauth2mongo.Create. rewrite Hjv, Hnone. cbv zeta.
      destruct (decide (GetRefresh info = ""));
        repeat first
          [ apply preserves_ret
          | apply preserves_objectid_New, coll_of_db
          | match goal with
            | |- ∀ _, _ => intro
            | |- preserves _ (if decide ?Q then _ else _) => destruct (decide Q)
            | |- preserves _ (Oauth2mongo.InsertOne _ _ _) =>
                apply Oauth2mongo_InsertOne_other; congruence
            | |- preserves _ (_ ≫= _) => apply preserves_bind
            end ]. }
    specialize (Hp w eq_refl). by rewrite Hrun in Hp.
Qed.

End AccessRecord.

(** * More of the store *)

(** ** Arithmetic of instants *)

Section Instants.

Lemma wrap64_range (z : Z) :
  (- 9223372036854775808 ≤ wrap64 z < 9223372036854775808)%Z.
Proof.
  unfold wrap64.
  assert (E63 : 2 ^ 63 = 9223372036854775808) by reflexivity.
  assert (E64 : 2 ^ 64 = 18446744073709551616) by reflexivity.
  rewrite E63, E64.
  pose proof (Z.mod_pos_bound (z + 9223372036854775808) 18446744073709551616
                ltac:(lia)).
  lia.
Qed.

Lemma quot_million_range (x : Z) :
  (- 9223372036854775808 ≤ x < 9223372036854775808)%Z →
  (-9223372036854 ≤ x ÷ 1000000 ≤ 9223372036854)%Z.
Proof.
  intros Hx.
  pose proof (Z.quot_rem' x 1000000) as Hqr.
  destruct (Z_le_gt_dec 0 x) as [Hpos|Hneg].
  - pose proof (Z.rem_bound_pos x 1000000). lia.
  - pose proof (Z.rem_bound_pos_neg x 1000000). lia.
Qed.

(** Whatever the instant, the expiry package [oauth2mongo] stores for it
    is within 2 h 33 min 44 s of the epoch. *)
Lemma Oauth2mongo_ExpiredAt_near_epoch (t : Time) :
  ∃ x, Oauth2mongo.ExpiredAt t = ("ExpiredAt", VTime x) ∧ near_epoch x.
Proof.
  unfold Oauth2mongo.ExpiredAt, Unix, div64, UnixNano, Millisecond, near_epoch.
  pose proof (wrap64_range t) as Ht.
  pose proof (quot_million_range (wrap64 t) Ht) as Hq.
  exists (wrap64 (wrap64 t ÷ 1000000)). split.
  - f_equal.
  - rewrite wrap64_small; [done|].
    assert (E63 : 2 ^ 63 = 9223372036854775808) by reflexivity. lia.
Qed.

(** Adding whole minutes leaves the second of the minute as it is. *)
Lemma Second_Add_minutes (t : Time) (m : Z) : Second (Add t (m * Minute)) = Second t.
Proof.
  unfold Second, Add, Minute.
  replace (t + m * 60000000000) with (t + (m * 60) * 1000000000) by lia.
  rewrite Z.div_add by lia.
  apply Z_mod_plus_full.
Qed.

End Instants.

(** ** Single steps of the driver, forwards *)

Section Steps.

Lemma bind_Exit {A B} (m : M A) (f : A → M B) (w w1 : World) (st : Z) :
  m w = Exit st w1 → (m ≫= f) w = Exit st w1.
Proof. unfold mbind, M_bind. by intros ->. Qed.

Lemma coll_put (c c' : string) (id id' : value) (d : doc) (w : World) :
  coll (put c id d w) c' !! id'
  = if decide (c = c' ∧ id = id') then Some d else coll w c' !! id'.
Proof.
  unfold put. rewrite coll_set_db_insert.
  destruct (decide (c = c')) as [<-|Hc].
  - destruct (decide (id = id')) as [<-|Hi].
    + rewrite lookup_insert_eq. by rewrite decide_True.
    + rewrite lookup_insert_ne by done. rewrite decide_False; [done | by intros [_ ?]].
  - rewrite decide_False; [done | by intros [? _]].
Qed.

Lemma payload_at_lookup (w : World) (cname : string) (id : value) (d : doc) :
  coll w cname !! id = Some d → payload_at w cname id = Lookup "Data" d.
Proof. unfold payload_at. by intros ->. Qed.

Lemma coll_put_same (c : string) (id : value) (d : doc) (w : World) :
  coll (put c id d w) c !! id = Some d.
Proof. rewrite coll_put. by rewrite decide_True. Qed.

Lemma coll_put_other (c c' : string) (id id' : value) (d : doc) (w : World) :
  (c, id) ≠ (c', id') → coll (put c id d w) c' !! id' = coll w c' !! id'.
Proof.
  intros Hne. rewrite coll_put. rewrite decide_False; [done|].
  intros [-> ->]. by apply Hne.
Qed.

Lemma Oauth2mongo_InsertOne_quiet_new (ts : Oauth2mongo.TokenStore) (c : string)
    (d : doc) (id : value) (w : World) :
  faults w = [] → Lookup "_id" d = Some id → coll w c !! id = None →
  Oauth2mongo.InsertOne ts c d w = Done None (put c id d w).
Proof.
  intros Hf Hid Hnew. unfold Oauth2mongo.InsertOne.
  by rewrite (bind_after _ _ w _ _ (Collection_InsertOne_quiet_new c d id w Hf Hid Hnew)).
Qed.

Lemma Oauth2mongo_InsertOne_quiet_dup (ts : Oauth2mongo.TokenStore) (c : string)
    (d d0 : doc) (id : value) (w : World) :
  faults w = [] → Lookup "_id" d = Some id → coll w c !! id = Some d0 →
  Oauth2mongo.InsertOne ts c d w = Exit 1 (log_entry (ErrDuplicateKey c id) w).
Proof.
  intros Hf Hid Hold. unfold Oauth2mongo.InsertOne.
  by rewrite (bind_after _ _ w _ _ (Collection_InsertOne_quiet_dup c d d0 id w Hf Hid Hold)).
Qed.

(** An insert under a taken [_id] ends the process, whatever the backend
    does, and has written nothing. *)
Lemma Oauth2mongo_InsertOne_taken (ts : Oauth2mongo.TokenStore) (c : string)
    (d d0 : doc) (id : value) (w : World) :
  Lookup "_id" d = Some id → coll w c !! id = Some d0 →
  ∃ e w', Oauth2mongo.InsertOne ts c d w = Exit 1 w'
    ∧ db w' = db w ∧ logged w' = e :: logged w.
Proof.
  intros Hid Hold. unfold Oauth2mongo.InsertOne.
  destruct (Collection_InsertOne_id c d id w Hid) as (r & w1 & Hr & _ & Hlog & _ & Hdb).
  rewrite (bind_after _ _ w w1 r Hr).
  destruct r as [e|]; [|destruct Hdb; congruence].
  exists e. eexists. split; [reflexivity|]. simpl. by rewrite Hlog.
Qed.

(** A single insert touches one place. *)
Lemma Collection_InsertOne_place (c c' : string) (d : doc) (id id' : value)
    (v : option doc) :
  Lookup "_id" d = Some id → (c, id) ≠ (c', id') →
  preserves (λ w, coll w c' !! id' = v) (Collection_InsertOne c d).
Proof.
  intros Hid Hne w Hw.
  destruct (Collection_InsertOne_id c d id w Hid) as (r & w1 & -> & _ & _ & _ & Hdb).
  simpl. destruct r as [e|].
  - unfold coll in *. by rewrite Hdb.
  - destruct Hdb as [_ Hdb].
    transitivity (coll (put c id d w) c' !! id'); [|by rewrite coll_put_other].
    unfold coll, put, set_db. simpl. by rewrite Hdb.
Qed.

Lemma place_of_db (c : string) (id : value) (v : option doc) :
  of_db (λ w, coll w c !! id = v).
Proof. intros w w' Hdb. unfold coll. by rewrite Hdb. Qed.

Lemma Oauth2mongo_InsertOne_place (ts : Oauth2mongo.TokenStore) (c c' : string)
    (d : doc) (id id' : value) (v : option doc) :
  Lookup "_id" d = Some id → (c, id) ≠ (c', id') →
  preserves (λ w, coll w c' !! id' = v) (Oauth2mongo.InsertOne ts c d).
Proof.
  intros Hid Hne. unfold Oauth2mongo.InsertOne.
  apply preserves_bind; [by apply (Collection_InsertOne_place c c' d id id')|].
  intros [e|]; [apply preserves_log_Fatal, place_of_db | apply preserves_ret].
Qed.

Lemma Collection_InsertOne_place_oid (c c' : string) (d : doc) (id id' : value)
    (v : option doc) (n : ObjectID) :
  Lookup "_id" d = Some id → (c, id) ≠ (c', id') →
  preserves (λ w, next_oid w = n ∧ coll w c' !! id' = v) (Collection_InsertOne c d).
Proof.
  intros Hid Hne w [Ho Hw]. split.
  - destruct (Collection_InsertOne_id c d id w Hid) as (r & w1 & -> & Hoid & _).
    simpl. congruence.
  - by apply (Collection_InsertOne_place c c' d id id' v Hid Hne w).
Qed.

Lemma Oauth2mongo_InsertOne_place_oid (ts : Oauth2mongo.TokenStore) (c c' : string)
    (d : doc) (id id' : value) (v : option doc) (n : ObjectID) :
  Lookup "_id" d = Some id → (c, id) ≠ (c', id') →
  preserves (λ w, next_oid w = n ∧ coll w c' !! id' = v) (Oauth2mongo.InsertOne ts c d).
Proof.
  intros Hid Hne. unfold Oauth2mongo.InsertOne.
  apply preserves_bind; [by apply (Collection_InsertOne_place_oid c c' d id id')|].
  intros [e|]; [|apply preserves_ret].
  intros w Hw. exact Hw.
Qed.

Lemma world_of_bind {A B} (m : M A) (f : A → M B) (w : World) :
  world_of ((m ≫= f) w)
  = match m w with
    | Done a w1 => world_of (f a w1)
    | Exit _ w1 => w1
    end.
Proof. unfold mbind, M_bind. by destruct (m w). Qed.

(** The prefix of [Create] up to the generated ObjectID, then the rest. *)
Lemma place_after_objectid (m : M (option error))
    (k : option error → ObjectID → M (option error))
    (w : World) (c : string) (id : value) :
  preserves (λ w0, next_oid w0 = next_oid w ∧ coll w0 c !! id = coll w c !! id) m →
  (∀ r, preserves (λ w0, coll w0 c !! id = coll w c !! id) (k r (next_oid w))) →
  coll (world_of ((m ≫= λ r, objectid_New ≫= k r) w)) c !! id = coll w c !! id.
Proof.
  intros Hm Hk. rewrite world_of_bind.
  specialize (Hm w (conj eq_refl eq_refl)).
  destruct (m w) as [r w1|st w1]; simpl in Hm; [|by destruct Hm].
  destruct Hm as [Ho Hplace]. rewrite world_of_bind.
  unfold objectid_New at 1. rewrite Ho. by apply Hk.
Qed.

End Steps.

(** ** Create writes at its places only *)

Section Places.

Ltac placing :=
  repeat first
    [ apply preserves_ret
    | match goal with
      | |- ∀ _, _ => intro
      | |- preserves _ (if decide ?Q then _ else _) => destruct (decide Q)
      | |- preserves _ (Oauth2mongo.InsertOne _ _ _) =>
          first [ eapply Oauth2mongo_InsertOne_place_oid; [reflexivity | set_solver]
                | eapply Oauth2mongo_InsertOne_place; [reflexivity | set_solver] ]
      | |- preserves _ (Collection_InsertOne _ _) =>
          first [ eapply Collection_InsertOne_place_oid; [reflexivity | set_solver]
                | eapply Collection_InsertOne_place; [reflexivity | set_solver] ]
      | |- preserves _ (_ ≫= _) => apply preserves_bind
      end ].

Lemma Oauth2mongo_Create_places (ts : Oauth2mongo.TokenStore) (info : TokenInfo)
    (w : World) (cname : string) (id : value) :
  (cname, id) ∉ Oauth2mongo_places ts info (next_oid w) →
  coll (world_of (Oauth2mongo.Create ts info w)) cname !! id = coll w cname !! id.
Proof.
  unfold Oauth2mongo.Create, Oauth2mongo_places.
  destruct (json_Marshal info) as [jv|e]; [|done].
  cbv zeta.
  destruct (decide (GetCode info = "")), (decide (GetAccess info = "")),
    (decide (GetRefresh info = ""));
    intros Hout;
    apply (place_after_objectid _ (λ _ : option error, _)); placing.
Qed.

Lemma Mongo_Create_places (ts : Mongo.TokenStore) (info : TokenInfo)
    (w : World) (cname : string) (id : value) :
  (cname, id) ∉ Mongo_places ts info (next_oid w) →
  coll (world_of (Mongo.Create ts info w)) cname !! id = coll w cname !! id.
Proof.
  unfold Mongo.Create, Mongo_places, Mongo.cHandler.
  destruct (json_Marshal info) as [jv|e]; [|done].
  cbv zeta.
  destruct (decide (GetCode info = "")), (decide (GetRefresh info = ""));
    intros Hout; apply place_after_objectid; placing.
Qed.

End Places.

(** ** Create when a key is taken *)

Section Taken.

(** X4: in package [oauth2mongo], [Create] with a code whose record is
    already stored does not return: the process ends with status 1 after
    one more error is logged, whatever the backend does, and the database
    is as it was. *)
Theorem Oauth2mongo_Create_taken_code_exits (ts : Oauth2mongo.TokenStore)
    (info : TokenInfo) (jv : string) (d0 : doc) (w : World) :
  json_Marshal info = Ok jv →
  GetCode info ≠ "" →
  coll w (Oauth2mongo.BasicCName (Oauth2mongo.tcfg ts)) !! VString (GetCode info)
  = Some d0 →
  ∃ e w', Oauth2mongo.Create ts info w = Exit 1 w'
    ∧ db w' = db w ∧ logged w' = e :: logged w.
Proof.
  intros Hjv Hcode Htaken. unfold Oauth2mongo.Create. rewrite Hjv. cbv zeta.
  destruct (decide (GetCode info = "")) as [|_]; [done|].
  destruct (Oauth2mongo_InsertOne_taken ts _
              [("_id", VString (GetCode info)); ("Data", VString jv);
               Oauth2mongo.ExpiredAt (Add (GetCodeCreateAt info) (GetCodeExpiresIn info))]
              d0 _ w eq_refl Htaken) as (e & w' & Hrun & Hdb & Hlog).
  exists e, w'. split; [|done].
  by apply bind_Exit.
Qed.

Lemma Oauth2mongo_Create_taken_code_exits_witness :
  ∃ e w', Oauth2mongo.Create Sample.tsA Sample.info_code Cases.with_code_A = Exit 1 w'
    ∧ db w' = db Cases.with_code_A ∧ logged w' = e :: logged Cases.with_code_A.
Proof.
  apply (Oauth2mongo_Create_taken_code_exits Sample.tsA Sample.info_code "{code}"
           [("_id", VString "c1"); ("Data", VString "{code}"); ("ExpiredAt", VTime 1540000620000)]).
  - reflexivity.
  - vm_compute; congruence.
  - vm_compute; reflexivity.
Defined.

(** X5: in package [oauth2mongo], [Create] without code on a quiet backend,
    with an access token whose record is already stored, ends the process
    after having written the basic record under the generated key: the
    duplicate-key error is logged, the stored access record stays, and the
    new basic record is left behind. *)
Theorem Oauth2mongo_Create_taken_access_leaves_basic (ts : Oauth2mongo.TokenStore)
    (info : TokenInfo) (jv : string) (d0 : doc) (w : World) :
  json_Marshal info = Ok jv →
  faults w = [] →
  GetCode info = "" →
  GetAccess info ≠ "" →
  coll w (Oauth2mongo.BasicCName (Oauth2mongo.tcfg ts)) !! VString (Hex (next_oid w))
  = None →
  coll w (Oauth2mongo.AccessCName (Oauth2mongo.tcfg ts)) !! VString (GetAccess info)
  = Some d0 →
  ∃ w', Oauth2mongo.Create ts info w = Exit 1 w'
    ∧ logged w'
      = ErrDuplicateKey (Oauth2mongo.AccessCName (Oauth2mongo.tcfg ts))
          (VString (GetAccess info)) :: logged w
    ∧ coll w' (Oauth2mongo.AccessCName (Oauth2mongo.tcfg ts)) !! VString (GetAccess info)
      = Some d0
    ∧ payload_at w' (Oauth2mongo.BasicCName (Oauth2mongo.tcfg ts))
        (VString (Hex (next_oid w))) = Some (VString jv).
Proof.
  intros Hjv Hf Hcode Hacc Hfree Htaken.
  unfold Oauth2mongo.Create. rewrite Hjv, Hcode. cbv zeta.
  destruct (decide ("" = "")) as [_|]; [|done].
  set (basic := Oauth2mongo.BasicCName (Oauth2mongo.tcfg ts)) in *.
  set (access := Oauth2mongo.AccessCName (Oauth2mongo.tcfg ts)) in *.
  set (w2 := mkWorld (db w) ((next_oid w + 1) mod 2 ^ 96)%N (faults w) (logged w)).
  assert (Hfree2 : coll w2 basic !! VString (Hex (next_oid w)) = None) by exact Hfree.
  assert (Hf2 : faults w2 = []) by exact Hf.
  destruct (decide (GetRefresh info = "")) as [Hr|Hr].
  all: rewrite (bind_after _ _ w w None eq_refl).
  all: rewrite (bind_after objectid_New _ w w2 (next_oid w) eq_refl).
  all: match goal with
       | |- context [Oauth2mongo.InsertOne _ _ ?d] =>
           set (bdoc := d);
           rewrite (bind_after _ _ w2 _ _
                      (Oauth2mongo_InsertOne_quiet_new ts basic bdoc _ w2 Hf2
                         eq_refl Hfree2))
       end.
  all: destruct (decide (GetAccess info = "")) as [|_]; [done|].
  all: set (w3 := put basic (VString (Hex (next_oid w))) bdoc w2).
  all: assert (Hstill : coll w3 access !! VString (GetAccess info) = Some d0)
         by (unfold w3; rewrite coll_put_other; [exact Htaken|];
             intros [= Hc Hi]; rewrite Hc, Hi in Hfree; congruence).
  all: eexists; split;
         [ apply bind_Exit;
           eapply Oauth2mongo_InsertOne_quiet_dup; [exact Hf | reflexivity | exact Hstill]
         | split; [reflexivity|]; split; [exact Hstill|];
           exact (payload_at_lookup _ _ _ _ (coll_put_same basic _ bdoc w2)) ].
Qed.

Lemma Oauth2mongo_Create_taken_access_leaves_basic_witness :
  ∃ w', Oauth2mongo.Create Sample.tsA Cases.info_a1 Cases.with_access_A = Exit 1 w'
    ∧ logged w' = [ErrDuplicateKey "oauth2_access" (VString "a1")]
    ∧ reference_of w' "oauth2_access" (VString "a1") = Some (VString (Hex 0%N))
    ∧ payload_at w' "oauth2_basic" (VString (Hex 1%N)) = Some (VString "{access}").
Proof.
  destruct (Oauth2mongo_Create_taken_access_leaves_basic Sample.tsA Cases.info_a1
              "{access}"
              [("_id", VString "a1"); ("BasicID", VString (Hex 0%N));
               ("ExpiredAt", VTime 1540003620000)]
              Cases.with_access_A)
    as (w' & Hrun & Hlog & Hacc & Hpay);
    try (vm_compute; congruence).
  exists w'. split; [exact Hrun|]. split; [exact Hlog|]. split; [|exact Hpay].
  exact (reference_of_lookup _ _ _ _ Hacc).
Defined.

Lemma Mongo_step_after (ts : Mongo.TokenStore) (c : string) (d : doc)
    (err r : option error) (w w1 : World) :
  Collection_InsertOne c d w = Done r w1 →
  Mongo.cHandler ts c (λ c',
    verr ← Collection_InsertOne c' d; mret (Mongo.assign verr err)) w
  = Done (Mongo.assign r err) w1.
Proof. intros Hrun. unfold Mongo.cHandler. by rewrite (bind_after _ _ w w1 r Hrun). Qed.

(** X6: in package [mongo], [Create] goes on after a write that failed.
    With a code whose record is already stored, no refresh token, a free
    generated key and a free access token, on a quiet backend, it returns
    the duplicate-key error of the code record, the stored code record is
    as it was, and the basic and the access record have been written. *)
Theorem Mongo_Create_goes_on_after_taken_code (ts : Mongo.TokenStore)
    (info : TokenInfo) (jv : string) (d0 : doc) (w : World) :
  json_Marshal info = Ok jv →
  faults w = [] →
  GetCode info ≠ "" →
  GetRefresh info = "" →
  coll w (Mongo.BasicCName (Mongo.tcfg ts)) !! VString (GetCode info) = Some d0 →
  coll w (Mongo.BasicCName (Mongo.tcfg ts)) !! VObjectID (next_oid w) = None →
  coll w (Mongo.AccessCName (Mongo.tcfg ts)) !! VString (GetAccess info) = None →
  ∃ w', Mongo.Create ts info w
        = Done (Some (ErrDuplicateKey (Mongo.BasicCName (Mongo.tcfg ts))
                        (VString (GetCode info)))) w'
    ∧ coll w' (Mongo.BasicCName (Mongo.tcfg ts)) !! VString (GetCode info) = Some d0
    ∧ payload_at w' (Mongo.BasicCName (Mongo.tcfg ts)) (VObjectID (next_oid w))
      = Some (VString jv)
    ∧ reference_of w' (Mongo.AccessCName (Mongo.tcfg ts)) (VString (GetAccess info))
      = Some (VObjectID (next_oid w)).
Proof.
  intros Hjv Hf Hcode Href Htaken Hfree Hacc.
  unfold Mongo.Create. rewrite Hjv, Href. cbv zeta.
  destruct (decide ("" = "")) as [_|]; [|done].
  destruct (decide (GetCode info = "")) as [|_]; [done|].
  set (basic := Mongo.BasicCName (Mongo.tcfg ts)) in *.
  set (access := Mongo.AccessCName (Mongo.tcfg ts)) in *.
  set (o := next_oid w) in *.
  set (w2 := mkWorld (db w) ((o + 1) mod 2 ^ 96)%N (faults w) (logged w)).
  set (cdoc := [("_id", VString (GetCode info)); ("Data", VString jv);
                Mongo.ExpiredAt (Add (GetCodeCreateAt info) (GetCodeExpiresIn info))]).
  rewrite (bind_after _ _ w w _
             (Mongo_step_after ts basic cdoc None _ w w
                (Collection_InsertOne_quiet_dup basic cdoc d0 _ w Hf eq_refl Htaken))).
  rewrite (bind_after objectid_New _ w w2 o eq_refl).
  set (bdoc := [("_id", VObjectID o); ("Data", VString jv);
                Mongo.ExpiredAt (Add (GetAccessCreateAt info) (GetAccessExpiresIn info))]).
  set (w3 := put basic (VObjectID o) bdoc w2).
  rewrite (bind_after _ _ w2 w3 _
             (Mongo_step_after ts basic bdoc _ _ w2 w3
                (Collection_InsertOne_quiet_new basic bdoc _ w2 Hf eq_refl Hfree))).
  set (adoc := [("_id", VString (GetAccess info)); ("BasicID", VObjectID o);
                Mongo.ExpiredAt (Add (GetAccessCreateAt info) (GetAccessExpiresIn info))]).
  assert (Hacc3 : coll w3 access !! VString (GetAccess info) = None).
  { unfold w3. rewrite coll_put_other; [exact Hacc | by intros [= _ ?]]. }
  set (w4 := put access (VString (GetAccess info)) adoc w3).
  rewrite (bind_after _ _ w3 w4 _
             (Mongo_step_after ts access adoc _ _ w3 w4
                (Collection_InsertOne_quiet_new access adoc _ w3 Hf eq_refl Hacc3))).
  exists w4. split; [reflexivity|].
  assert (Hb4 : coll w4 basic !! VObjectID o = Some bdoc).
  { unfold w4. rewrite coll_put_other by (by intros [= _ ?]).
    unfold w3. apply coll_put_same. }
  split; [|split].
  - unfold w4. rewrite coll_put.
    destruct (decide _) as [[Hc [= Hi]]|_].
    + rewrite Hc, Hi in Hacc. congruence.
    + unfold w3. rewrite coll_put_other; [exact Htaken | by intros [= _ ?]].
  - exact (payload_at_lookup _ _ _ _ Hb4).
  - exact (reference_of_lookup _ _ _ _ (coll_put_same access _ adoc w3)).
Qed.

Lemma Mongo_Create_goes_on_after_taken_code_witness :
  ∃ w', Mongo.Create Sample.tsB Cases.info_c1_a1 Cases.with_code_B
        = Done (Some (ErrDuplicateKey "oauth2_basic" (VString "c1"))) w'
    ∧ payload_at w' "oauth2_basic" (VString "c1") = Some (VString "{code}")
    ∧ payload_at w' "oauth2_basic" (VObjectID 1%N) = Some (VString "{both}")
    ∧ reference_of w' "oauth2_access" (VString "a1") = Some (VObjectID 1%N).
Proof.
  destruct (Mongo_Create_goes_on_after_taken_code Sample.tsB Cases.info_c1_a1 "{both}"
              [("_id", VString "c1"); ("Data", VString "{code}");
               ("ExpiredAt", VDateTime 1540000620000)]
              Cases.with_code_B)
    as (w' & Hrun & Hcode & Hpay & Href);
    try (vm_compute; congruence).
  exists w'. split; [exact Hrun|]. split; [|split; [exact Hpay | exact Href]].
  exact (payload_at_lookup _ _ _ _ Hcode).
Defined.

(** X7: in package [mongo], [Create] returns the error of the last write
    that failed and drops the earlier ones.  With a code and an access
    token whose records are both stored, no refresh token and a free
    generated key, on a quiet backend, it returns the duplicate-key error of
    the access record; the basic record under the generated key has been
    written all the same. *)
Theorem Mongo_Create_returns_last_failure (ts : Mongo.TokenStore)
    (info : TokenInfo) (jv : string) (d0 d1 : doc) (w : World) :
  json_Marshal info = Ok jv →
  faults w = [] →
  GetCode info ≠ "" →
  GetRefresh info = "" →
  coll w (Mongo.BasicCName (Mongo.tcfg ts)) !! VString (GetCode info) = Some d0 →
  coll w (Mongo.BasicCName (Mongo.tcfg ts)) !! VObjectID (next_oid w) = None →
  coll w (Mongo.AccessCName (Mongo.tcfg ts)) !! VString (GetAccess info) = Some d1 →
  ∃ w', Mongo.Create ts info w
        = Done (Some (ErrDuplicateKey (Mongo.AccessCName (Mongo.tcfg ts))
                        (VString (GetAccess info)))) w'
    ∧ payload_at w' (Mongo.BasicCName (Mongo.tcfg ts)) (VObjectID (next_oid w))
      = Some (VString jv).
Proof.
  intros Hjv Hf Hcode Href Htaken Hfree Hacc.
  unfold Mongo.Create. rewrite Hjv, Href. cbv zeta.
  destruct (decide ("" = "")) as [_|]; [|done].
  destruct (decide (GetCode info = "")) as [|_]; [done|].
  set (basic := Mongo.BasicCName (Mongo.tcfg ts)) in *.
  set (access := Mongo.AccessCName (Mongo.tcfg ts)) in *.
  set (o := next_oid w) in *.
  set (w2 := mkWorld (db w) ((o + 1) mod 2 ^ 96)%N (faults w) (logged w)).
  set (cdoc := [("_id", VString (GetCode info)); ("Data", VString jv);
                Mongo.ExpiredAt (Add (GetCodeCreateAt info) (GetCodeExpiresIn info))]).
  rewrite (bind_after _ _ w w _
             (Mongo_step_after ts basic cdoc None _ w w
                (Collection_InsertOne_quiet_dup basic cdoc d0 _ w Hf eq_refl Htaken))).
  rewrite (bind_after objectid_New _ w w2 o eq_refl).
  set (bdoc := [("_id", VObjectID o); ("Data", VString jv);
                Mongo.ExpiredAt (Add (GetAccessCreateAt info) (GetAccessExpiresIn info))]).
  set (w3 := put basic (VObjectID o) bdoc w2).
  rewrite (bind_after _ _ w2 w3 _
             (Mongo_step_after ts basic bdoc _ _ w2 w3
                (Collection_InsertOne_quiet_new basic bdoc _ w2 Hf eq_refl Hfree))).
  assert (Hacc3 : coll w3 access !! VString (GetAccess info) = Some d1).
  { unfold w3. rewrite coll_put_other; [exact Hacc | by intros [= _ ?]]. }
  set (adoc := [("_id", VString (GetAccess info)); ("BasicID", VObjectID o);
                Mongo.ExpiredAt (Add (GetAccessCreateAt info) (GetAccessExpiresIn info))]).
  rewrite (bind_after _ _ w3 w3 _
             (Mongo_step_after ts access adoc _ _ w3 w3
                (Collection_InsertOne_quiet_dup access adoc d1 _ w3 Hf eq_refl Hacc3))).
  exists w3. split; [reflexivity|].
  exact (payload_at_lookup _ _ _ _ (coll_put_same basic _ bdoc w2)).
Qed.

Lemma Mongo_Create_returns_last_failure_witness :
  ∃ w', Mongo.Create Sample.tsB Cases.info_c1_a1 Cases.with_code_access_B
        = Done (Some (ErrDuplicateKey "oauth2_access" (VString "a1"))) w'
    ∧ payload_at w' "oauth2_basic" (VObjectID 1%N) = Some (VString "{both}").
Proof.
  apply (Mongo_Create_returns_last_failure Sample.tsB Cases.info_c1_a1 "{both}"
           [("_id", VString "c1"); ("Data", VString "{both}");
            ("ExpiredAt", VDateTime 1540000620000)]
           [("_id", VString "a1"); ("BasicID", VObjectID 0%N);
            ("ExpiredAt", VDateTime 1540003620000)]
           Cases.with_code_access_B);
    vm_compute; congruence.
Defined.

End Taken.

(** ** Removals *)

Section Removals.

Lemma same_docs_expire_absent (c : string) (id : value) (w : World) :
  coll w c !! id = None → same_docs w (expire c id w).
Proof.
  intros Hnone c'. unfold expire. rewrite coll_set_db_insert.
  destruct (decide (c = c')) as [<-|]; [|done]. by apply delete_id.
Qed.

Lemma Mongo_Remove_run (ts : Mongo.TokenStore) (c k : string) (w : World) :
  Mongo.cHandler ts c (λ c',
    verr ← Collection_DeleteMany c' (VString k); mret (Mongo.assign verr None)) w
  = Collection_DeleteOne c (VString k) w.
Proof.
  unfold Mongo.cHandler, Collection_DeleteMany, mbind, M_bind.
  destruct (Collection_DeleteOne c (VString k) w) as [[e|] w1|st w1]; reflexivity.
Qed.

Lemma Collection_DeleteOne_failing (c : string) (id : value) (w : World)
    (msg : string) (fs : list (option string)) :
  faults w = Some msg :: fs →
  Collection_DeleteOne c id w = Done (Some (ErrBackend msg)) (set_faults fs w).
Proof.
  intros Hf. unfold Collection_DeleteOne, mbind, M_bind, roundtrip. by rewrite Hf.
Qed.

(** X9: removing a key that has no record is no error.  On a quiet backend
    each of the three removals, in both packages, returns nil when its
    collection holds no record of the key, and every collection holds the
    documents it held. *)
Theorem removal_of_a_missing_key (tsA : Oauth2mongo.TokenStore) (tsB : Mongo.TokenStore)
    (k : string) (w : World) :
  faults w = [] →
  (coll w (Oauth2mongo.BasicCName (Oauth2mongo.tcfg tsA)) !! VString k = None →
   ∃ w', Oauth2mongo.RemoveByCode tsA k w = Done None w' ∧ same_docs w w')
  ∧ (coll w (Oauth2mongo.AccessCName (Oauth2mongo.tcfg tsA)) !! VString k = None →
     ∃ w', Oauth2mongo.RemoveByAccess tsA k w = Done None w' ∧ same_docs w w')
  ∧ (coll w (Oauth2mongo.RefreshCName (Oauth2mongo.tcfg tsA)) !! VString k = None →
     ∃ w', Oauth2mongo.RemoveByRefresh tsA k w = Done None w' ∧ same_docs w w')
  ∧ (coll w (Mongo.BasicCName (Mongo.tcfg tsB)) !! VString k = None →
     ∃ w', Mongo.RemoveByCode tsB k w = Done None w' ∧ same_docs w w')
  ∧ (coll w (Mongo.AccessCName (Mongo.tcfg tsB)) !! VString k = None →
     ∃ w', Mongo.RemoveByAccess tsB k w = Done None w' ∧ same_docs w w')
  ∧ (coll w (Mongo.RefreshCName (Mongo.tcfg tsB)) !! VString k = None →
     ∃ w', Mongo.RemoveByRefresh tsB k w = Done None w' ∧ same_docs w w').
Proof.
  intros Hf.
  unfold Mongo.RemoveByCode, Mongo.RemoveByAccess, Mongo.RemoveByRefresh.
  rewrite !Mongo_Remove_run.
  unfold Oauth2mongo.RemoveByCode, Oauth2mongo.RemoveByAccess,
    Oauth2mongo.RemoveByRefresh, Oauth2mongo.DeleteByID.
  rewrite !(Collection_DeleteOne_quiet _ _ w Hf).
  repeat split; intros Hnone; eexists; (split; [reflexivity|]);
    by apply same_docs_expire_absent.
Qed.

Lemma removal_of_a_missing_key_witness :
  (∃ w', Oauth2mongo.RemoveByRefresh Sample.tsA "r0" Cases.with_all_A = Done None w'
         ∧ same_docs Cases.with_all_A w')
  ∧ (∃ w', Mongo.RemoveByCode Sample.tsB "c0" Cases.with_code_B = Done None w'
           ∧ same_docs Cases.with_code_B w').
Proof.
  split.
  - apply (removal_of_a_missing_key Sample.tsA Sample.tsB "r0" Cases.with_all_A);
      vm_compute; reflexivity.
  - apply (removal_of_a_missing_key Sample.tsA Sample.tsB "c0" Cases.with_code_B);
      vm_compute; reflexivity.
Defined.

(** X10: a removal the backend fails returns the backend's error as it is,
    in both packages, and the database is as it was. *)
Theorem removal_failed_by_the_backend (tsA : Oauth2mongo.TokenStore)
    (tsB : Mongo.TokenStore) (k msg : string) (fs : list (option string)) (w : World) :
  faults w = Some msg :: fs →
  Oauth2mongo.RemoveByCode tsA k w = Done (Some (ErrBackend msg)) (set_faults fs w)
  ∧ Oauth2mongo.RemoveByAccess tsA k w = Done (Some (ErrBackend msg)) (set_faults fs w)
  ∧ Oauth2mongo.RemoveByRefresh tsA k w = Done (Some (ErrBackend msg)) (set_faults fs w)
  ∧ Mongo.RemoveByCode tsB k w = Done (Some (ErrBackend msg)) (set_faults fs w)
  ∧ Mongo.RemoveByAccess tsB k w = Done (Some (ErrBackend msg)) (set_faults fs w)
  ∧ Mongo.RemoveByRefresh tsB k w = Done (Some (ErrBackend msg)) (set_faults fs w)
  ∧ db (set_faults fs w) = db w.
Proof.
  intros Hf.
  unfold Mongo.RemoveByCode, Mongo.RemoveByAccess, Mongo.RemoveByRefresh.
  rewrite !Mongo_Remove_run.
  unfold Oauth2mongo.RemoveByCode, Oauth2mongo.RemoveByAccess,
    Oauth2mongo.RemoveByRefresh, Oauth2mongo.DeleteByID.
  rewrite !(Collection_DeleteOne_failing _ _ w msg fs Hf). by repeat split.
Qed.

Lemma removal_failed_by_the_backend_witness :
  Oauth2mongo.RemoveByAccess Sample.tsA "a1" (Cases.failing Cases.with_all_A)
  = Done (Some (ErrBackend "connection reset")) Cases.with_all_A
  ∧ Mongo.RemoveByAccess Sample.tsB "a1" (Cases.failing Cases.with_code_access_B)
    = Done (Some (ErrBackend "connection reset")) Cases.with_code_access_B.
Proof.
  split.
  - apply (removal_failed_by_the_backend Sample.tsA Sample.tsB "a1" "connection reset" []
             (Cases.failing Cases.with_all_A) eq_refl).
  - apply (removal_failed_by_the_backend Sample.tsA Sample.tsB "a1" "connection reset" []
             (Cases.failing Cases.with_code_access_B) eq_refl).
Defined.

Lemma expire_one (c : string) (id : value) (w : World) (c' : string) (id' : value) :
  coll (world_of (Done (@None error) (expire c id w))) c !! id = None
  ∧ ((c, id) ≠ (c', id') →
     coll (world_of (Done (@None error) (expire c id w))) c' !! id' = coll w c' !! id').
Proof.
  simpl. split.
  - rewrite coll_expire. by rewrite decide_True.
  - intros Hne. rewrite coll_expire. rewrite decide_False; [done|].
    intros [-> ->]. by apply Hne.
Qed.

(** X11: a removal takes away the record of the given key in its own
    collection and nothing else.  For each of the three removals of both
    packages, on a quiet backend: afterwards the collection has no record
    of the key, and every other place of the database holds what it held. *)
Theorem removals_touch_one_record (tsA : Oauth2mongo.TokenStore) (tsB : Mongo.TokenStore)
    (k : string) (w : World) (c' : string) (id' : value) :
  faults w = [] →
  (coll (world_of (Oauth2mongo.RemoveByCode tsA k w))
     (Oauth2mongo.BasicCName (Oauth2mongo.tcfg tsA)) !! VString k = None
   ∧ ((Oauth2mongo.BasicCName (Oauth2mongo.tcfg tsA), VString k) ≠ (c', id') →
      coll (world_of (Oauth2mongo.RemoveByCode tsA k w)) c' !! id' = coll w c' !! id'))
  ∧ (coll (world_of (Oauth2mongo.RemoveByAccess tsA k w))
       (Oauth2mongo.AccessCName (Oauth2mongo.tcfg tsA)) !! VString k = None
     ∧ ((Oauth2mongo.AccessCName (Oauth2mongo.tcfg tsA), VString k) ≠ (c', id') →
        coll (world_of (Oauth2mongo.RemoveByAccess tsA k w)) c' !! id' = coll w c' !! id'))
  ∧ (coll (world_of (Oauth2mongo.RemoveByRefresh tsA k w))
       (Oauth2mongo.RefreshCName (Oauth2mongo.tcfg tsA)) !! VString k = None
     ∧ ((Oauth2mongo.RefreshCName (Oauth2mongo.tcfg tsA), VString k) ≠ (c', id') →
        coll (world_of (Oauth2mongo.RemoveByRefresh tsA k w)) c' !! id' = coll w c' !! id'))
  ∧ (coll (world_of (Mongo.RemoveByCode tsB k w))
       (Mongo.BasicCName (Mongo.tcfg tsB)) !! VString k = None
     ∧ ((Mongo.BasicCName (Mongo.tcfg tsB), VString k) ≠ (c', id') →
        coll (world_of (Mongo.RemoveByCode tsB k w)) c' !! id' = coll w c' !! id'))
  ∧ (coll (world_of (Mongo.RemoveByAccess tsB k w))
       (Mongo.AccessCName (Mongo.tcfg tsB)) !! VString k = None
     ∧ ((Mongo.AccessCName (Mongo.tcfg tsB), VString k) ≠ (c', id') →
        coll (world_of (Mongo.RemoveByAccess tsB k w)) c' !! id' = coll w c' !! id'))
  ∧ (coll (world_of (Mongo.RemoveByRefresh tsB k w))
       (Mongo.RefreshCName (Mongo.tcfg tsB)) !! VString k = None
     ∧ ((Mongo.RefreshCName (Mongo.tcfg tsB), VString k) ≠ (c', id') →
        coll (world_of (Mongo.RemoveByRefresh tsB k w)) c' !! id' = coll w c' !! id')).
Proof.
  intros Hf.
  unfold Mongo.RemoveByCode, Mongo.RemoveByAccess, Mongo.RemoveByRefresh.
  rewrite !Mongo_Remove_run.
  unfold Oauth2mongo.RemoveByCode, Oauth2mongo.RemoveByAccess,
    Oauth2mongo.RemoveByRefresh, Oauth2mongo.DeleteByID.
  rewrite !(Collection_DeleteOne_quiet _ _ w Hf).
  do 5 (split; [apply expire_one|]). apply expire_one.
Qed.

Lemma removals_touch_one_record_witness :
  coll (world_of (Oauth2mongo.RemoveByAccess Sample.tsA "a1" Cases.with_all_A))
    "oauth2_access" !! VString "a1" = None
  ∧ coll (world_of (Oauth2mongo.RemoveByAccess Sample.tsA "a1" Cases.with_all_A))
      "oauth2_refresh" !! VString "r1"
    = coll Cases.with_all_A "oauth2_refresh" !! VString "r1".
Proof.
  destruct (removals_touch_one_record Sample.tsA Sample.tsB "a1" Cases.with_all_A
              "oauth2_refresh" (VString "r1") eq_refl)
    as (_ & (Hgone & Hother) & _).
  split; [exact Hgone|]. apply Hother. vm_compute; congruence.
Defined.

End Removals.

(** ** Lookups that meet an error *)

Section LookupErrors.
Context `{CA : Oauth2mongo.Codec} `{CB : Mongo.Codec}.

Lemma Collection_FindOne_failing (c : string) (id : value) (w : World)
    (msg : string) (fs : list (option string)) :
  faults w = Some msg :: fs →
  Collection_FindOne c id w = Done (Err (ErrBackend msg)) (set_faults fs w).
Proof.
  intros Hf. unfold Collection_FindOne, mbind, M_bind, roundtrip. by rewrite Hf.
Qed.

Lemma Collection_FindOne_served (c : string) (id : value) (w : World)
    (fs : list (option string)) :
  faults w = None :: fs →
  Collection_FindOne c id w
  = Done (match coll w c !! id with Some d => Ok d | None => Err ErrNoDocuments end)
      (set_faults fs w).
Proof.
  intros Hf. unfold Collection_FindOne, mbind, M_bind, roundtrip, read_id.
  rewrite Hf. simpl. change (coll (set_faults fs w) c) with (coll w c).
  by destruct (coll w c !! id).
Qed.

(** X13: in package [oauth2mongo] two failures of a lookup are returned to
    the caller and do not end the process: the backend failing the read of
    the reference record ([GetByAccess], [GetByRefresh]), with no further
    round-trip made, and [json.Unmarshal] refusing the payload of a record
    found ([GetByCode]). *)
Theorem Oauth2mongo_lookup_failures_returned (ts : Oauth2mongo.TokenStore)
    (k kq msg : string) (fs : list (option string)) (w wq : World)
    (d : doc) (bd : Oauth2mongo.basicData) (e : error) :
  faults w = Some msg :: fs →
  faults wq = [] →
  coll wq (Oauth2mongo.BasicCName (Oauth2mongo.tcfg ts)) !! VString kq = Some d →
  Oauth2mongo.Decode_basicData d = Ok bd →
  Oauth2mongo.json_Unmarshal (Oauth2mongo.bd_Data bd) = Err e →
  Oauth2mongo.GetByAccess ts k w = Done (None, Some (ErrBackend msg)) (set_faults fs w)
  ∧ Oauth2mongo.GetByRefresh ts k w = Done (None, Some (ErrBackend msg)) (set_faults fs w)
  ∧ Oauth2mongo.GetByCode ts kq wq = Done (None, Some e) wq.
Proof.
  intros Hf Hq Hd Hbd He.
  unfold Oauth2mongo.GetByAccess, Oauth2mongo.GetByRefresh, Oauth2mongo.getBasicID,
    Oauth2mongo.FindByID.
  split; [|split].
  - unfold mbind at 1, M_bind at 1.
    rewrite (bind_after _ _ w _ _ (Collection_FindOne_failing _ _ w msg fs Hf)). simpl.
    first [done | by rewrite decide_True].
  - unfold mbind at 1, M_bind at 1.
    rewrite (bind_after _ _ w _ _ (Collection_FindOne_failing _ _ w msg fs Hf)). simpl.
    first [done | by rewrite decide_True].
  - unfold Oauth2mongo.GetByCode.
    rewrite (Oauth2mongo_getData_found ts kq d bd wq Hq Hd Hbd).
    unfold unmarshalled. by rewrite He.
Qed.

(** X14: in package [mongo] every failure of a lookup is returned to the
    caller: the backend failing the first round-trip of any of the three
    lookups, the driver failing to decode the basic record found
    ([GetByCode]), and the driver failing to decode the reference record
    found ([GetByAccess]); no further round-trip is made after any of them. *)
Theorem Mongo_lookup_failures_returned (ts : Mongo.TokenStore)
    (k kb kr msg : string) (fs : list (option string)) (w wq : World)
    (d d' : doc) (e e' : error) :
  faults w = Some msg :: fs →
  faults wq = [] →
  coll wq (Mongo.BasicCName (Mongo.tcfg ts)) !! VString kb = Some d →
  Mongo.Decode_basicData d = Err e → e ≠ ErrNoDocuments →
  coll wq (Mongo.AccessCName (Mongo.tcfg ts)) !! VString kr = Some d' →
  Mongo.Decode_tokenData d' = Err e' → e' ≠ ErrNoDocuments →
  Mongo.GetByCode ts k w = Done (None, Some (ErrBackend msg)) (set_faults fs w)
  ∧ Mongo.GetByAccess ts k w = Done (None, Some (ErrBackend msg)) (set_faults fs w)
  ∧ Mongo.GetByRefresh ts k w = Done (None, Some (ErrBackend msg)) (set_faults fs w)
  ∧ Mongo.GetByCode ts kb wq = Done (None, Some e) wq
  ∧ Mongo.GetByAccess ts kr wq = Done (None, Some e') wq.
Proof.
  intros Hf Hq Hd He Hne Hd' He' Hne'.
  unfold Mongo.GetByCode, Mongo.GetByAccess, Mongo.GetByRefresh, Mongo.getBasicID,
    Mongo.getData, Mongo.cHandler.
  split; [|split; [|split; [|split]]].
  - by rewrite (bind_after _ _ w _ _ (Collection_FindOne_failing _ _ w msg fs Hf)).
  - unfold mbind at 1, M_bind at 1.
    rewrite (bind_after _ _ w _ _ (Collection_FindOne_failing _ _ w msg fs Hf)). simpl.
    first [done | by rewrite decide_True].
  - unfold mbind at 1, M_bind at 1.
    rewrite (bind_after _ _ w _ _ (Collection_FindOne_failing _ _ w msg fs Hf)). simpl.
    first [done | by rewrite decide_True].
  - rewrite (bind_after _ _ wq _ _ (Collection_FindOne_quiet _ _ wq Hq)).
    rewrite Hd. simpl. rewrite He. by destruct e.
  - unfold mbind at 1, M_bind at 1.
    rewrite (bind_after _ _ wq _ _ (Collection_FindOne_quiet _ _ wq Hq)).
    rewrite Hd'. simpl. rewrite He'.
    destruct e'; try done; simpl; first [done | by rewrite decide_True].
Qed.

(** X15: a lookup by a token that has no reference record still reads the
    basic collection, for the empty key.  When the backend serves the
    first round-trip and fails the second, [GetByAccess] of an unknown token
    returns the backend's error in package [mongo], and ends the process in
    package [oauth2mongo]. *)
Theorem lookup_of_unknown_token_reads_basic
    (tsA : Oauth2mongo.TokenStore) (tsB : Mongo.TokenStore)
    (k msg : string) (fs : list (option string)) (w : World) :
  faults w = None :: Some msg :: fs →
  coll w (Oauth2mongo.AccessCName (Oauth2mongo.tcfg tsA)) !! VString k = None →
  coll w (Mongo.AccessCName (Mongo.tcfg tsB)) !! VString k = None →
  Oauth2mongo.GetByAccess tsA k w = Exit 1 (log_entry (ErrBackend msg) (set_faults fs w))
  ∧ Mongo.GetByAccess tsB k w = Done (None, Some (ErrBackend msg)) (set_faults fs w).
Proof.
  intros Hf HA HB.
  assert (Hf2 : faults (set_faults (Some msg :: fs) w) = Some msg :: fs) by done.
  split.
  - unfold Oauth2mongo.GetByAccess, Oauth2mongo.getBasicID, Oauth2mongo.FindByID.
    unfold mbind at 1, M_bind at 1.
    rewrite (bind_after _ _ w _ _ (Collection_FindOne_served _ _ w _ Hf)).
    rewrite HA. simpl. try rewrite decide_False by (by intros [? _]).
    unfold Oauth2mongo.getData, Oauth2mongo.FindByID.
    by rewrite (bind_after _ _ _ _ _ (Collection_FindOne_failing _ _ _ msg fs Hf2)).
  - unfold Mongo.GetByAccess, Mongo.getBasicID, Mongo.cHandler.
    unfold mbind at 1, M_bind at 1.
    rewrite (bind_after _ _ w _ _ (Collection_FindOne_served _ _ w _ Hf)).
    rewrite HB. simpl. try rewrite decide_False by (by intros [? _]).
    unfold Mongo.getData, Mongo.cHandler.
    by rewrite (bind_after _ _ _ _ _ (Collection_FindOne_failing _ _ _ msg fs Hf2)).
Qed.

End LookupErrors.

Lemma Oauth2mongo_lookup_failures_returned_witness :
  @Oauth2mongo.GetByAccess Cases.codecA_rejecting Sample.tsA "a1"
    (Cases.failing Cases.with_all_A)
  = Done (None, Some (ErrBackend "connection reset")) Cases.with_all_A
  ∧ @Oauth2mongo.GetByCode Cases.codecA_rejecting Sample.tsA "c1" Cases.with_all_A
    = Done (None, Some (ErrCodec "invalid character")) Cases.with_all_A.
Proof.
  destruct (@Oauth2mongo_lookup_failures_returned Cases.codecA_rejecting Sample.tsA
              "a1" "c1" "connection reset" [] (Cases.failing Cases.with_all_A)
              Cases.with_all_A
              [("_id", VString "c1"); ("Data", VString "{token}");
               ("ExpiredAt", VTime 1540000620000)]
              (Oauth2mongo.mkBasicData "c1" "{token}" 1540000620000)
              (ErrCodec "invalid character"))
    as (Ha & _ & Hc); try (vm_compute; reflexivity).
  split; [exact Ha | exact Hc].
Defined.

Lemma Mongo_lookup_failures_returned_witness :
  @Mongo.GetByRefresh Cases.codecB_bytes Sample.tsB "r1"
    (Cases.failing Cases.with_code_access_B)
  = Done (None, Some (ErrBackend "connection reset")) Cases.with_code_access_B
  ∧ @Mongo.GetByCode Cases.codecB_bytes Sample.tsB "c1" Cases.with_code_access_B
    = Done (None, Some (ErrCodec "Data")) Cases.with_code_access_B
  ∧ @Mongo.GetByAccess Cases.codecB_bytes Sample.tsB "a1" Cases.with_code_access_B
    = Done (None, Some (ErrCodec "BasicID")) Cases.with_code_access_B.
Proof.
  destruct (@Mongo_lookup_failures_returned Cases.codecB_bytes Sample.tsB
              "r1" "c1" "a1" "connection reset" [] (Cases.failing Cases.with_code_access_B)
              Cases.with_code_access_B
              [("_id", VString "c1"); ("Data", VString "{both}");
               ("ExpiredAt", VDateTime 1540000620000)]
              [("_id", VString "a1"); ("BasicID", VObjectID 0%N);
               ("ExpiredAt", VDateTime 1540003620000)]
              (ErrCodec "Data") (ErrCodec "BasicID"))
    as (_ & _ & Hr & Hc & Ha); try (vm_compute; congruence).
  split; [exact Hr | split; [exact Hc | exact Ha]].
Defined.

Lemma lookup_of_unknown_token_reads_basic_witness :
  @Oauth2mongo.GetByAccess Sample.codecA Sample.tsA "a0"
    (Cases.failing_second Cases.with_all_A)
  = Exit 1 (log_entry (ErrBackend "connection reset") Cases.with_all_A)
  ∧ @Mongo.GetByAccess Sample.codecB Sample.tsB "a0"
      (Cases.failing_second Cases.with_all_A)
    = Done (None, Some (ErrBackend "connection reset")) Cases.with_all_A.
Proof.
  apply (@lookup_of_unknown_token_reads_basic Sample.codecA Sample.codecB
           Sample.tsA Sample.tsB "a0" "connection reset" []
           (Cases.failing_second Cases.with_all_A));
    vm_compute; reflexivity.
Defined.

(** ** Package [oauth2mongo]: Create, then lookups and removals *)

Section CreateLookupRemove.
Context `{CA : Oauth2mongo.Codec}.

(** X1: in package [oauth2mongo], what [Create] stored is what the lookups
    return.  After a [Create] that returned, on a quiet backend and with
    decoders that accept the store's two record shapes and hand the [Data]
    and [BasicID] strings back as stored (whatever they make of the
    instants), [GetByCode] of the code, [GetByAccess] of the access token
    and [GetByRefresh] of the refresh token (each when it is not empty)
    all return what [json.Unmarshal] makes of the serialized token-info. *)
Theorem Oauth2mongo_lookups_after_Create (ts : Oauth2mongo.TokenStore)
    (info : TokenInfo) (jv : string) (w w' : World) (e : option error) :
  conforms CA →
  json_Marshal info = Ok jv →
  Oauth2mongo.Create ts info w = Done e w' →
  faults w' = [] →
  (GetCode info ≠ "" →
   Oauth2mongo.GetByCode ts (GetCode info) w' = Done (unmarshalled jv) w')
  ∧ (GetAccess info ≠ "" →
     Oauth2mongo.GetByAccess ts (GetAccess info) w' = Done (unmarshalled jv) w')
  ∧ (GetRefresh info ≠ "" →
     Oauth2mongo.GetByRefresh ts (GetRefresh info) w' = Done (unmarshalled jv) w').
Proof. apply Oauth2mongo_Create_then_lookups. Qed.

(** The generated key is not the code. *)
Lemma Oauth2mongo_Create_Done_code_fresh (ts : Oauth2mongo.TokenStore)
    (info : TokenInfo) (jv : string) (w w' : World) (e : option error) :
  json_Marshal info = Ok jv →
  Oauth2mongo.Create ts info w = Done e w' →
  GetCode info ≠ "" →
  GetCode info ≠ Hex (next_oid w).
Proof.
  intros Hjv Hrun Hcode Heq. unfold Oauth2mongo.Create in Hrun. rewrite Hjv in Hrun.
  cbv zeta in Hrun.
  destruct (decide (GetRefresh info = "")) as [Hr|Hr].
  all: apply bind_Done in Hrun as (r1 & w1 & H1 & Hrun).
  all: apply bind_Done in Hrun as (o & w2 & H2 & Hrun).
  all: apply bind_Done in Hrun as (r3 & w3 & H3 & _).
  all: pose proof (Oauth2mongo_guarded_insert _ _ _ _ _ _ _ _ H1 eq_refl)
         as (Ho1 & _ & C1).
  all: apply objectid_New_inv in H2 as (-> & K2).
  all: pose proof (Oauth2mongo_InsertOne_Done _ _ _ _ _ _ _ H3 eq_refl)
         as (_ & Hfree & _).
  all: specialize (C1 Hcode); apply K2 in C1.
  all: rewrite Ho1, <- Heq in Hfree; congruence.
Qed.

Lemma quiet_after_expire (c : string) (id : value) (w : World) :
  faults w = [] → faults (expire c id w) = [].
Proof. done. Qed.

(** X2: removals do not cascade, in package [oauth2mongo].  After a
    [Create] with code, access token and refresh token that returned, with
    three collections of different names, a quiet backend, no record under
    the empty key in the basic collection, and decoders that accept the
    store's two record shapes and hand the [Data] and [BasicID] strings
    back as stored: removing by code, by access token or by refresh token
    makes the lookup by that key return nil and nil, and the lookups by
    the other two keys return the payload as before. *)
Theorem Oauth2mongo_removal_does_not_cascade (ts : Oauth2mongo.TokenStore)
    (info : TokenInfo) (jv : string) (w w1 : World) (e : option error) :
  conforms CA →
  distinct_names (Oauth2mongo.tcfg ts) →
  json_Marshal info = Ok jv →
  GetCode info ≠ "" → GetAccess info ≠ "" → GetRefresh info ≠ "" →
  Oauth2mongo.Create ts info w = Done e w1 →
  faults w1 = [] →
  no_blank_id (Oauth2mongo.BasicCName (Oauth2mongo.tcfg ts)) w1 →
  let wc := world_of (Oauth2mongo.RemoveByCode ts (GetCode info) w1) in
  let wa := world_of (Oauth2mongo.RemoveByAccess ts (GetAccess info) w1) in
  let wr := world_of (Oauth2mongo.RemoveByRefresh ts (GetRefresh info) w1) in
  (Oauth2mongo.GetByCode ts (GetCode info) wc = Done (None, None) wc
   ∧ Oauth2mongo.GetByAccess ts (GetAccess info) wc = Done (unmarshalled jv) wc
   ∧ Oauth2mongo.GetByRefresh ts (GetRefresh info) wc = Done (unmarshalled jv) wc)
  ∧ (Oauth2mongo.GetByCode ts (GetCode info) wa = Done (unmarshalled jv) wa
     ∧ Oauth2mongo.GetByAccess ts (GetAccess info) wa = Done (None, None) wa
     ∧ Oauth2mongo.GetByRefresh ts (GetRefresh info) wa = Done (unmarshalled jv) wa)
  ∧ (Oauth2mongo.GetByCode ts (GetCode info) wr = Done (unmarshalled jv) wr
     ∧ Oauth2mongo.GetByAccess ts (GetAccess info) wr = Done (unmarshalled jv) wr
     ∧ Oauth2mongo.GetByRefresh ts (GetRefresh info) wr = Done (None, None) wr).
Proof.
  intros Hconf (Hba & Hbr & Har) Hjv Hcode Hacc Href Hrun Hf Hblank.
  unfold no_blank_id in Hblank.
  pose proof (Oauth2mongo_Create_Done_code_fresh ts info jv w w1 e Hjv Hrun Hcode)
    as Hfresh.
  destruct (Oauth2mongo_Create_Done ts info jv w w1 e Hjv Hrun)
    as (_ & _ & Hc & Hb & Ha & Hr).
  specialize (Hc Hcode). specialize (Ha Hacc). specialize (Hr Href).
  unfold Oauth2mongo.RemoveByCode, Oauth2mongo.RemoveByAccess,
    Oauth2mongo.RemoveByRefresh, Oauth2mongo.DeleteByID.
  rewrite !(Collection_DeleteOne_quiet _ _ w1 Hf). simpl world_of. cbv zeta.
  set (basic := Oauth2mongo.BasicCName (Oauth2mongo.tcfg ts)) in *.
  set (access := Oauth2mongo.AccessCName (Oauth2mongo.tcfg ts)) in *.
  set (refresh := Oauth2mongo.RefreshCName (Oauth2mongo.tcfg ts)) in *.
  assert (Hlookups : ∀ c0 k0,
    let w2 := expire c0 (VString k0) w1 in
    ((c0, k0) ≠ (basic, GetCode info) →
     Oauth2mongo.GetByCode ts (GetCode info) w2 = Done (unmarshalled jv) w2)
    ∧ ((c0, k0) = (basic, GetCode info) →
       Oauth2mongo.GetByCode ts (GetCode info) w2 = Done (None, None) w2)
    ∧ ((c0, k0) ≠ (basic, Hex (next_oid w)) → (c0, k0) ≠ (access, GetAccess info) →
       Oauth2mongo.GetByAccess ts (GetAccess info) w2 = Done (unmarshalled jv) w2)
    ∧ ((c0, k0) = (access, GetAccess info) →
       Oauth2mongo.GetByAccess ts (GetAccess info) w2 = Done (None, None) w2)
    ∧ ((c0, k0) ≠ (basic, Hex (next_oid w)) → (c0, k0) ≠ (refresh, GetRefresh info) →
       Oauth2mongo.GetByRefresh ts (GetRefresh info) w2 = Done (unmarshalled jv) w2)
    ∧ ((c0, k0) = (refresh, GetRefresh info) →
       Oauth2mongo.GetByRefresh ts (GetRefresh info) w2 = Done (None, None) w2)).
  { intros c0 k0 w2.
    assert (Hf2 : faults w2 = []) by done.
    assert (Hblank2 : coll w2 basic !! VString "" = None).
    { unfold w2. rewrite coll_expire.
      destruct (decide (c0 = basic ∧ VString k0 = VString "")); [done | exact Hblank]. }
    assert (Hkeep : ∀ c' k', (c0, k0) ≠ (c', k') →
              coll w2 c' !! VString k' = coll w1 c' !! VString k').
    { intros c' k' Hne. unfold w2. apply coll_expire_other.
      destruct (decide (c0 = c')) as [->|]; [right|by left].
      intros [= ->]. by apply Hne. }
    assert (Hgone : coll w2 c0 !! VString k0 = None).
    { unfold w2. rewrite coll_expire. by rewrite decide_True. }
    split; [|split; [|split; [|split; [|split]]]].
    - intros Hne. unfold Oauth2mongo.GetByCode.
      pose proof (eq_trans (Hkeep _ _ Hne) Hc) as Hc2.
      exact (Oauth2mongo_getData_conforms ts _ _ _ _ w2 Hconf Hf2 Hc2).
    - intros [= -> ->]. unfold Oauth2mongo.GetByCode.
      by apply Oauth2mongo_getData_absent.
    - intros Hne1 Hne2. unfold Oauth2mongo.GetByAccess.
      pose proof (eq_trans (Hkeep _ _ Hne1) Hb) as Hb2.
      pose proof (eq_trans (Hkeep _ _ Hne2) Ha) as Ha2.
      exact (Oauth2mongo_lookup_through_conforms ts _ _ _ _ _ _ _ _ w2 Hconf Hf2
               Ha2 Hb2).
    - intros [= -> ->]. unfold Oauth2mongo.GetByAccess.
      apply (Oauth2mongo_resolved_then_absent ts _ _ ""); [done| |done].
      by apply Oauth2mongo_getBasicID_absent.
    - intros Hne1 Hne2. unfold Oauth2mongo.GetByRefresh.
      pose proof (eq_trans (Hkeep _ _ Hne1) Hb) as Hb2.
      pose proof (eq_trans (Hkeep _ _ Hne2) Hr) as Hr2.
      exact (Oauth2mongo_lookup_through_conforms ts _ _ _ _ _ _ _ _ w2 Hconf Hf2
               Hr2 Hb2).
    - intros [= -> ->]. unfold Oauth2mongo.GetByRefresh.
      apply (Oauth2mongo_resolved_then_absent ts _ _ ""); [done| |done].
      by apply Oauth2mongo_getBasicID_absent. }
  split; [|split].
  - destruct (Hlookups basic (GetCode info)) as (_ & H1 & H2 & _ & H3 & _).
    split; [by apply H1|]. split; [apply H2 | apply H3]; congruence.
  - destruct (Hlookups access (GetAccess info)) as (H1 & _ & _ & H2 & H3 & _).
    split; [apply H1; congruence|]. split; [by apply H2|]. apply H3; congruence.
  - destruct (Hlookups refresh (GetRefresh info)) as (H1 & _ & H2 & _ & _ & H3).
    split; [apply H1; congruence|]. split; [apply H2; congruence | by apply H3].
Qed.

End CreateLookupRemove.

Lemma Cases_codecA_millis_conforms : conforms Cases.codecA_millis.
Proof. split; intros; eexists; split; reflexivity. Qed.

Lemma Oauth2mongo_lookups_after_Create_witness :
  @Oauth2mongo.GetByCode Cases.codecA_millis Sample.tsA "c1" Cases.with_all_A
  = Done (Some "{token}", None) Cases.with_all_A
  ∧ @Oauth2mongo.GetByAccess Cases.codecA_millis Sample.tsA "a1" Cases.with_all_A
    = Done (Some "{token}", None) Cases.with_all_A
  ∧ @Oauth2mongo.GetByRefresh Cases.codecA_millis Sample.tsA "r1" Cases.with_all_A
    = Done (Some "{token}", None) Cases.with_all_A.
Proof.
  destruct (@Oauth2mongo_lookups_after_Create Cases.codecA_millis Sample.tsA
              Sample.info_1h_24h "{token}" Sample.empty Cases.with_all_A None
              Cases_codecA_millis_conforms eq_refl)
    as (Hc & Ha & Hr); try (vm_compute; reflexivity).
  split; [|split]; [apply Hc | apply Ha | apply Hr]; vm_compute; congruence.
Defined.

Lemma Oauth2mongo_removal_does_not_cascade_witness :
  let wc := world_of (Oauth2mongo.RemoveByCode Sample.tsA "c1" Cases.with_all_A) in
  let wr := world_of (Oauth2mongo.RemoveByRefresh Sample.tsA "r1" Cases.with_all_A) in
  @Oauth2mongo.GetByCode Cases.codecA_millis Sample.tsA "c1" wc = Done (None, None) wc
  ∧ @Oauth2mongo.GetByAccess Cases.codecA_millis Sample.tsA "a1" wc
    = Done (Some "{token}", None) wc
  ∧ @Oauth2mongo.GetByRefresh Cases.codecA_millis Sample.tsA "r1" wr = Done (None, None) wr
  ∧ @Oauth2mongo.GetByCode Cases.codecA_millis Sample.tsA "c1" wr
    = Done (Some "{token}", None) wr.
Proof.
  intros wc wr.
  assert (Hnames : distinct_names (Oauth2mongo.tcfg Sample.tsA))
    by (repeat split; vm_compute; congruence).
  assert (Hrun : Oauth2mongo.Create Sample.tsA Sample.info_1h_24h Sample.empty
                 = Done None Cases.with_all_A) by (vm_compute; reflexivity).
  assert (Hblank : no_blank_id "oauth2_basic" Cases.with_all_A)
    by (vm_compute; reflexivity).
  assert (Hc : GetCode Sample.info_1h_24h ≠ "") by (vm_compute; congruence).
  assert (Ha : GetAccess Sample.info_1h_24h ≠ "") by (vm_compute; congruence).
  assert (Hr : GetRefresh Sample.info_1h_24h ≠ "") by (vm_compute; congruence).
  assert (Hf : faults Cases.with_all_A = []) by (vm_compute; reflexivity).
  destruct (@Oauth2mongo_removal_does_not_cascade Cases.codecA_millis Sample.tsA
              Sample.info_1h_24h "{token}" Sample.empty Cases.with_all_A None
              Cases_codecA_millis_conforms Hnames eq_refl Hc Ha Hr Hrun Hf Hblank)
    as ((H1 & H2 & _) & _ & (H3 & _ & H4)).
  split; [exact H1|]. split; [exact H2|]. split; [exact H4 | exact H3].
Defined.

(** ** What every stored document looks like *)

Section Shapes.
Context `{CA : Oauth2mongo.Codec} `{CB : Mongo.Codec}.

Lemma every_doc_of_db (cname : string) (Q : doc → Prop) : of_db (every_doc cname Q).
Proof. intros w w' Hdb Hw id d. unfold coll. rewrite <- Hdb. apply Hw. Qed.

Lemma every_doc_empty (cname : string) (Q : doc → Prop) (o : ObjectID) :
  every_doc cname Q (mkWorld ∅ o [] []).
Proof. intros id d. unfold coll. simpl. by rewrite lookup_empty. Qed.

Lemma every_doc_expire (cname c : string) (Q : doc → Prop) (id : value) (w : World) :
  every_doc cname Q w → every_doc cname Q (expire c id w).
Proof.
  intros Hw id' d. rewrite coll_expire. destruct (decide _); [done | apply Hw].
Qed.

Lemma Collection_InsertOne_every_doc (cname c : string) (Q : doc → Prop) (d : doc)
    (id : value) :
  Lookup "_id" d = Some id → (c = cname → Q d) →
  preserves (every_doc cname Q) (Collection_InsertOne c d).
Proof.
  intros Hid HQ w Hw.
  destruct (Collection_InsertOne_id c d id w Hid) as (r & w1 & -> & _ & _ & _ & Hdb).
  simpl. destruct r as [e|].
  - by apply (every_doc_of_db cname Q w).
  - destruct Hdb as [_ Hdb]. intros id' d'.
    assert (Hc : coll w1 cname !! id' = coll (put c id d w) cname !! id').
    { unfold coll, put, set_db. simpl. by rewrite Hdb. }
    rewrite Hc, coll_put. destruct (decide _) as [[-> ->]|_].
    + intros [= <-]. by apply HQ.
    + apply Hw.
Qed.

Lemma Oauth2mongo_InsertOne_every_doc (ts : Oauth2mongo.TokenStore) (cname c : string)
    (Q : doc → Prop) (d : doc) (id : value) :
  Lookup "_id" d = Some id → (c = cname → Q d) →
  preserves (every_doc cname Q) (Oauth2mongo.InsertOne ts c d).
Proof.
  intros Hid HQ. unfold Oauth2mongo.InsertOne.
  apply preserves_bind; [by apply (Collection_InsertOne_every_doc cname c Q d id)|].
  intros [e|]; [apply preserves_log_Fatal, every_doc_of_db | apply preserves_ret].
Qed.

Lemma Collection_DeleteOne_every_doc (cname c : string) (Q : doc → Prop) (id : value) :
  preserves (every_doc cname Q) (Collection_DeleteOne c id).
Proof.
  intros w Hw.
  destruct (Collection_DeleteOne_cases c id w) as (r & w1 & -> & [Hdb|Hdb]); simpl.
  - by apply (every_doc_of_db cname Q w).
  - apply (every_doc_of_db cname Q (expire c id w)); [done|]. by apply every_doc_expire.
Qed.

Lemma basic_record_intro (id data : string) (t : Time) :
  basic_record [("_id", VString id); ("Data", VString data); Oauth2mongo.ExpiredAt t].
Proof.
  destruct (Oauth2mongo_ExpiredAt_near_epoch t) as (x & -> & Hx).
  by exists id, data, x.
Qed.

Lemma reference_record_intro (id b : string) (t : Time) :
  reference_record [("_id", VString id); ("BasicID", VString b); Oauth2mongo.ExpiredAt t].
Proof.
  destruct (Oauth2mongo_ExpiredAt_near_epoch t) as (x & -> & Hx).
  by exists id, b, x.
Qed.

(** The shape a collection's documents have in package [oauth2mongo]. *)
Ltac shaping :=
  repeat first
    [ apply preserves_ret
    | apply preserves_objectid_New, every_doc_of_db
    | match goal with
      | |- ∀ _, _ => intro
      | |- preserves _ (if decide ?Q then _ else _) => destruct (decide Q)
      | |- preserves _ (Oauth2mongo.InsertOne _ _ _) =>
          eapply Oauth2mongo_InsertOne_every_doc;
          [ reflexivity
          | intros ?;
            first [ apply basic_record_intro
                  | apply reference_record_intro
                  | left; apply basic_record_intro
                  | right; apply reference_record_intro
                  | congruence ] ]
      | |- preserves _ (Collection_InsertOne _ _) =>
          eapply Collection_InsertOne_every_doc; [reflexivity | intros ?; congruence]
      | |- preserves _ (_ ≫= _) => apply preserves_bind
      end ].

Lemma Oauth2mongo_Create_every_doc_basic (ts : Oauth2mongo.TokenStore)
    (info : TokenInfo) :
  distinct_names (Oauth2mongo.tcfg ts) →
  preserves (every_doc (Oauth2mongo.BasicCName (Oauth2mongo.tcfg ts)) basic_record)
    (Oauth2mongo.Create ts info).
Proof.
  intros (Hba & Hbr & Har). unfold Oauth2mongo.Create.
  destruct (json_Marshal info) as [jv|e]; [|apply preserves_ret].
  cbv zeta. destruct (decide (GetRefresh info = "")); shaping.
Qed.

Lemma Oauth2mongo_Create_every_doc_reference (ts : Oauth2mongo.TokenStore)
    (info : TokenInfo) (cname : string) :
  cname ≠ Oauth2mongo.BasicCName (Oauth2mongo.tcfg ts) →
  preserves (every_doc cname reference_record) (Oauth2mongo.Create ts info).
Proof.
  intros Hne. unfold Oauth2mongo.Create.
  destruct (json_Marshal info) as [jv|e]; [|apply preserves_ret].
  cbv zeta. destruct (decide (GetRefresh info = "")); shaping.
Qed.

Lemma Oauth2mongo_Create_every_doc_either (ts : Oauth2mongo.TokenStore)
    (info : TokenInfo) (cname : string) :
  preserves (every_doc cname (λ d, basic_record d ∨ reference_record d))
    (Oauth2mongo.Create ts info).
Proof.
  unfold Oauth2mongo.Create.
  destruct (json_Marshal info) as [jv|e]; [|apply preserves_ret].
  cbv zeta. destruct (decide (GetRefresh info = "")); shaping.
Qed.

(** An invariant of the calls of package [oauth2mongo] that [Create] keeps. *)
Lemma Oauth2mongo_reachable_every_doc (ts : Oauth2mongo.TokenStore) (cname : string)
    (Q : doc → Prop) (w : World) :
  (∀ info, preserves (every_doc cname Q) (Oauth2mongo.Create ts info)) →
  reachable (Oauth2mongo_effect ts) w → every_doc cname Q w.
Proof.
  intros HCreate.
  induction 1 as [o | c w Hr IH | c id w Hr IH | fs w Hr IH].
  - apply every_doc_empty.
  - destruct (Oauth2mongo_lookups_preserve (every_doc cname Q) ts
                match c with
                | CallGetByCode k | CallGetByAccess k | CallGetByRefresh k => k
                | _ => ""
                end (every_doc_of_db cname Q)) as (Hc & Ha & Hf).
    destruct c; simpl.
    + by apply HCreate.
    + by apply Collection_DeleteOne_every_doc.
    + by apply Collection_DeleteOne_every_doc.
    + by apply Collection_DeleteOne_every_doc.
    + by apply Hc.
    + by apply Ha.
    + by apply Hf.
  - by apply every_doc_expire.
  - by apply (every_doc_of_db cname Q w).
Qed.

End Shapes.

(** ** Invariants of the reachable worlds *)

Section Reachable.
Context `{CA : Oauth2mongo.Codec} `{CB : Mongo.Codec}.

(** X16: in package [oauth2mongo] a lookup cannot meet a document it fails
    to decode.  In every world reachable from an empty database through the
    store, with three collections of different names, decoders that accept
    the store's two record shapes (and hand the [Data] and [BasicID]
    strings back as stored) and a quiet backend, each of the three lookups
    returns to its caller, for every key, and leaves the world as it is:
    [log.Fatal] is not reached. *)
Theorem Oauth2mongo_lookups_return_when_reachable (ts : Oauth2mongo.TokenStore)
    (w : World) (k : string) :
  reachable (Oauth2mongo_effect ts) w →
  distinct_names (Oauth2mongo.tcfg ts) →
  conforms CA →
  faults w = [] →
  (∃ r, Oauth2mongo.GetByCode ts k w = Done r w)
  ∧ (∃ r, Oauth2mongo.GetByAccess ts k w = Done r w)
  ∧ (∃ r, Oauth2mongo.GetByRefresh ts k w = Done r w).
Proof.
  intros Hreach Hnames Hconf Hf.
  pose proof Hconf as [_ Htd].
  pose proof Hnames as (Hba & Hbr & Har).
  pose proof (Oauth2mongo_reachable_every_doc ts _ basic_record w
                (λ info, Oauth2mongo_Create_every_doc_basic ts info Hnames) Hreach)
    as Hbasic.
  assert (Href : ∀ cname, cname ≠ Oauth2mongo.BasicCName (Oauth2mongo.tcfg ts) →
                 every_doc cname reference_record w).
  { intros cname Hne.
    apply (Oauth2mongo_reachable_every_doc ts cname reference_record w); [|done].
    intros info. by apply Oauth2mongo_Create_every_doc_reference. }
  assert (Hdata : ∀ b, ∃ r, Oauth2mongo.getData ts b w = Done r w).
  { intros b.
    destruct (coll w (Oauth2mongo.BasicCName (Oauth2mongo.tcfg ts)) !! VString b)
      as [d|] eqn:Ed.
    - destruct (Hbasic _ _ Ed) as (id & data & t & -> & _).
      eexists. exact (Oauth2mongo_getData_conforms ts b id data t w Hconf Hf Ed).
    - eexists. by apply Oauth2mongo_getData_absent. }
  assert (Hthrough : ∀ cname,
            cname ≠ Oauth2mongo.BasicCName (Oauth2mongo.tcfg ts) →
            ∃ r, ('(basicID, err) ← Oauth2mongo.getBasicID ts cname k;
                  if decide (err ≠ None ∧ basicID = "") then mret (None, err)
                  else Oauth2mongo.getData ts basicID) w = Done r w).
  { intros cname Hne.
    destruct (coll w cname !! VString k) as [d|] eqn:Ed.
    - destruct (Href cname Hne _ _ Ed) as (id & b & t & -> & _).
      destruct (Htd id b t) as (td & Hdec & _).
      rewrite (bind_after _ _ w w _
                 (Oauth2mongo_getBasicID_present ts cname k _ td w Hf Ed Hdec)).
      rewrite decide_False by (by intros [? _]). apply Hdata.
    - rewrite (bind_after _ _ w w _ (Oauth2mongo_getBasicID_absent ts cname k w Hf Ed)).
      rewrite decide_False by (by intros [? _]). apply Hdata. }
  split; [apply Hdata|]. split; apply Hthrough; congruence.
Qed.

(** X17: in package [oauth2mongo] no stored document expires later than
    2 h 33 min 44 s after the Unix epoch.  In every world reachable from an
    empty database through the store, every document of every collection
    has as [ExpiredAt] an instant within 9223372036854 ns of the epoch,
    whatever the creation times and lifetimes of the tokens were. *)
Theorem Oauth2mongo_stored_expiry_near_epoch (ts : Oauth2mongo.TokenStore)
    (w : World) (cname : string) (id : value) (d : doc) :
  reachable (Oauth2mongo_effect ts) w →
  coll w cname !! id = Some d →
  ∃ t, Lookup "ExpiredAt" d = Some (VTime t) ∧ near_epoch t.
Proof.
  intros Hreach Hd.
  pose proof (Oauth2mongo_reachable_every_doc ts cname _ w
                (λ info, Oauth2mongo_Create_every_doc_either ts info cname) Hreach
                id d Hd) as [(i & x & t & -> & Ht)|(i & x & t & -> & Ht)];
    by exists t.
Qed.

Lemma Mongo_Create_no_refresh_record (ts : Mongo.TokenStore) (info : TokenInfo)
    (cname : string) :
  cname ≠ Mongo.BasicCName (Mongo.tcfg ts) →
  cname ≠ Mongo.AccessCName (Mongo.tcfg ts) →
  preserves (every_doc cname (λ _, False)) (Mongo.Create ts info).
Proof.
  intros Hb Ha. unfold Mongo.Create, Mongo.cHandler.
  destruct (json_Marshal info) as [jv|e]; [|apply preserves_ret].
  cbv zeta. destruct (decide (GetRefresh info = ""));
    repeat first
      [ apply preserves_ret
      | apply preserves_objectid_New, every_doc_of_db
      | match goal with
        | |- ∀ _, _ => intro
        | |- preserves _ (if decide ?Q then _ else _) => destruct (decide Q)
        | |- preserves _ (Collection_InsertOne _ _) =>
            eapply Collection_InsertOne_every_doc; [reflexivity | intros ?; congruence]
        | |- preserves _ (_ ≫= _) => apply preserves_bind
        end ].
Qed.

Lemma Mongo_reachable_no_refresh_record (ts : Mongo.TokenStore) (cname : string)
    (w : World) :
  cname ≠ Mongo.BasicCName (Mongo.tcfg ts) →
  cname ≠ Mongo.AccessCName (Mongo.tcfg ts) →
  reachable (Mongo_effect ts) w → every_doc cname (λ _, False) w.
Proof.
  intros Hb Ha.
  induction 1 as [o | c w Hr IH | c id w Hr IH | fs w Hr IH].
  - apply every_doc_empty.
  - destruct (Mongo_lookups_preserve (every_doc cname (λ _, False)) ts
                match c with
                | CallGetByCode k | CallGetByAccess k | CallGetByRefresh k => k
                | _ => ""
                end (every_doc_of_db cname _)) as (Hc & Hacc & Hf).
    destruct c; simpl.
    + by apply Mongo_Create_no_refresh_record.
    + unfold Mongo.RemoveByCode. rewrite Mongo_Remove_world.
      by apply Collection_DeleteOne_every_doc.
    + unfold Mongo.RemoveByAccess. rewrite Mongo_Remove_world.
      by apply Collection_DeleteOne_every_doc.
    + unfold Mongo.RemoveByRefresh. rewrite Mongo_Remove_world.
      by apply Collection_DeleteOne_every_doc.
    + by apply Hc.
    + by apply Hacc.
    + by apply Hf.
  - by apply every_doc_expire.
  - by apply (every_doc_of_db cname _ w).
Qed.

(** X18: in package [mongo] a lookup by refresh token never finds anything.
    In every world reachable from an empty database through the store, with
    three collections of different names and a quiet backend, the refresh
    collection is empty and [GetByRefresh] returns nil and nil for every
    key. *)
Theorem Mongo_GetByRefresh_finds_nothing (ts : Mongo.TokenStore) (w : World)
    (k : string) :
  reachable (Mongo_effect ts) w →
  Mongo.BasicCName (Mongo.tcfg ts) ≠ Mongo.AccessCName (Mongo.tcfg ts) →
  Mongo.RefreshCName (Mongo.tcfg ts) ≠ Mongo.BasicCName (Mongo.tcfg ts) →
  Mongo.RefreshCName (Mongo.tcfg ts) ≠ Mongo.AccessCName (Mongo.tcfg ts) →
  faults w = [] →
  coll w (Mongo.RefreshCName (Mongo.tcfg ts)) = ∅
  ∧ Mongo.GetByRefresh ts k w = Done (None, None) w.
Proof.
  intros Hreach Hba Hrb Hra Hf.
  pose proof (Mongo_reachable_no_refresh_record ts _ w Hrb Hra Hreach) as Hnone.
  pose proof (Mongo_reachable_no_blank ts w Hba Hreach) as Hblank.
  assert (Hempty : ∀ id, coll w (Mongo.RefreshCName (Mongo.tcfg ts)) !! id = None).
  { intros id. destruct (coll w _ !! id) as [d|] eqn:Ed; [|done].
    destruct (Hnone id d Ed). }
  split.
  - apply map_eq. intros id. by rewrite Hempty, lookup_empty.
  - unfold Mongo.GetByRefresh.
    apply (Mongo_resolved_then_absent ts _ k ""); [done| |exact Hblank].
    by apply Mongo_getBasicID_absent.
Qed.

End Reachable.

Lemma Oauth2mongo_lookups_return_when_reachable_witness :
  (∃ r, @Oauth2mongo.GetByCode Cases.codecA_millis Sample.tsA "c1" Cases.with_all_A
        = Done r Cases.with_all_A)
  ∧ (∃ r, @Oauth2mongo.GetByAccess Cases.codecA_millis Sample.tsA "a1" Cases.with_all_A
          = Done r Cases.with_all_A)
  ∧ (∃ r, @Oauth2mongo.GetByRefresh Cases.codecA_millis Sample.tsA "r1" Cases.with_all_A
          = Done r Cases.with_all_A).
Proof.
  assert (Hreach : reachable (@Oauth2mongo_effect Cases.codecA_millis Sample.tsA)
                     Cases.with_all_A)
    by exact (reach_call _ (CallCreate Sample.info_1h_24h) Sample.empty
                (reach_empty _ 0%N)).
  assert (Hnames : distinct_names (Oauth2mongo.tcfg Sample.tsA))
    by (repeat split; vm_compute; congruence).
  assert (Hf : faults Cases.with_all_A = []) by (vm_compute; reflexivity).
  destruct (@Oauth2mongo_lookups_return_when_reachable Cases.codecA_millis Sample.tsA
              Cases.with_all_A "c1" Hreach Hnames Cases_codecA_millis_conforms Hf)
    as (Hc & _).
  destruct (@Oauth2mongo_lookups_return_when_reachable Cases.codecA_millis Sample.tsA
              Cases.with_all_A "a1" Hreach Hnames Cases_codecA_millis_conforms Hf)
    as (_ & Ha & _).
  destruct (@Oauth2mongo_lookups_return_when_reachable Cases.codecA_millis Sample.tsA
              Cases.with_all_A "r1" Hreach Hnames Cases_codecA_millis_conforms Hf)
    as (_ & _ & Hr).
  split; [exact Hc | split; [exact Ha | exact Hr]].
Defined.

Lemma Oauth2mongo_stored_expiry_near_epoch_witness :
  ∃ t, Lookup "ExpiredAt"
         [("_id", VString "r1"); ("BasicID", VString (Hex 0%N));
          ("ExpiredAt", VTime 1540086420000)] = Some (VTime t)
       ∧ near_epoch t.
Proof.
  apply (@Oauth2mongo_stored_expiry_near_epoch Sample.codecA Sample.tsA
           Cases.with_all_A "oauth2_refresh" (VString "r1")).
  - exact (reach_call _ (CallCreate Sample.info_1h_24h) Sample.empty (reach_empty _ 0%N)).
  - vm_compute; reflexivity.
Defined.

Lemma Mongo_GetByRefresh_finds_nothing_witness :
  coll (world_of (Mongo.Create Sample.tsB Sample.info_1h_24h Sample.empty))
    "oauth2_refresh" = ∅
  ∧ @Mongo.GetByRefresh Sample.codecB Sample.tsB "r1"
      (world_of (Mongo.Create Sample.tsB Sample.info_1h_24h Sample.empty))
    = Done (None, None) (world_of (Mongo.Create Sample.tsB Sample.info_1h_24h Sample.empty)).
Proof.
  apply (@Mongo_GetByRefresh_finds_nothing Sample.codecB Sample.tsB _ "r1").
  - exact (reach_call _ (CallCreate Sample.info_1h_24h) Sample.empty (reach_empty _ 0%N)).
  - vm_compute; congruence.
  - vm_compute; congruence.
  - vm_compute; congruence.
  - vm_compute; reflexivity.
Defined.

(** ** Expiry instants and places, once more *)

Section ExpiryAndPlaces.

(** X3: [Create] writes at its own places only.  In both packages, in any
    world and under any behaviour of the backend, returning or not, every
    place of the database other than those of the records it inserts (the
    code record when there is a code, the basic record of the generated key,
    the access record, the refresh record when there is a refresh token)
    holds after [Create] what it held before. *)
Theorem Create_touches_its_places_only
    (tsA : Oauth2mongo.TokenStore) (tsB : Mongo.TokenStore) (info : TokenInfo)
    (w : World) (cname : string) (id : value) :
  ((cname, id) ∉ Oauth2mongo_places tsA info (next_oid w) →
   coll (world_of (Oauth2mongo.Create tsA info w)) cname !! id = coll w cname !! id)
  ∧ ((cname, id) ∉ Mongo_places tsB info (next_oid w) →
     coll (world_of (Mongo.Create tsB info w)) cname !! id = coll w cname !! id).
Proof.
  split; [apply Oauth2mongo_Create_places | apply Mongo_Create_places].
Qed.

(** X19: package [mongo] stores an expiry as the instant cut to whole
    milliseconds.  After a [Create] that returned nil, the code record (when
    there is a code) and the basic record of the generated key carry as
    [ExpiredAt] a BSON datetime less than a millisecond before their
    instant: code-creation + code-ttl, and refresh-creation + refresh-ttl
    (access-creation + access-ttl without refresh token), for instants
    between the epoch and the end of the [int64] nanosecond range. *)
Theorem Mongo_Create_expiry_in_milliseconds (ts : Mongo.TokenStore) (info : TokenInfo)
    (jv : string) (w w' : World) :
  json_Marshal info = Ok jv →
  Mongo.Create ts info w = Done None w' →
  let cexp := Add (GetCodeCreateAt info) (GetCodeExpiresIn info) in
  let bexp :=
    if decide (GetRefresh info = "")
    then Add (GetAccessCreateAt info) (GetAccessExpiresIn info)
    else Add (GetRefreshCreateAt info) (GetRefreshExpiresIn info) in
  (GetCode info ≠ "" → (0 ≤ cexp < 2 ^ 63)%Z →
   ∃ ms, expiry_of w' (Mongo.BasicCName (Mongo.tcfg ts)) (VString (GetCode info))
         = Some (VDateTime ms)
     ∧ (ms * Millisecond ≤ cexp < ms * Millisecond + Millisecond)%Z)
  ∧ ((0 ≤ bexp < 2 ^ 63)%Z →
     ∃ ms, expiry_of w' (Mongo.BasicCName (Mongo.tcfg ts)) (VObjectID (next_oid w))
           = Some (VDateTime ms)
       ∧ (ms * Millisecond ≤ bexp < ms * Millisecond + Millisecond)%Z).
Proof.
  intros Hjv Hrun cexp bexp.
  destruct (Mongo_Create_Done_nil ts info jv w w' Hjv Hrun) as (_ & Hc & Hb & _).
  split.
  - intros Hcode Hrange. specialize (Hc Hcode).
    destruct (Mongo_ExpiredAt_millis cexp Hrange) as (ms & Hms & Hbound).
    exists ms. split; [|exact Hbound].
    unfold expiry_of. fold cexp in Hc. rewrite Hms in Hc.
    exact (eq_trans (f_equal (λ o, o ≫= Lookup "ExpiredAt") Hc) eq_refl).
  - intros Hrange.
    destruct (Mongo_ExpiredAt_millis bexp Hrange) as (ms & Hms & Hbound).
    exists ms. split; [|exact Hbound].
    unfold expiry_of. fold bexp in Hb. rewrite Hms in Hb.
    exact (eq_trans (f_equal (λ o, o ≫= Lookup "ExpiredAt") Hb) eq_refl).
Qed.

(** X20: with lifetimes of whole minutes the access expiry is never cut
    down to the refresh expiry.  When access and refresh token are created
    at the same instant and both lifetimes are whole numbers of minutes,
    the access record of a [Create] that returned (without error, in
    package [mongo]) carries the expiry built from access-creation +
    access-ttl, also when the refresh token expires first: the two instants
    have the same second of the minute. *)
Theorem access_expiry_with_whole_minute_lifetimes
    (tsA : Oauth2mongo.TokenStore) (tsB : Mongo.TokenStore) (info : TokenInfo)
    (jv : string) (w wA wB : World) (eA : option error) (t : Time) (ma mr : Z) :
  json_Marshal info = Ok jv →
  GetAccess info ≠ "" →
  GetAccessCreateAt info = t → GetRefreshCreateAt info = t →
  GetAccessExpiresIn info = (ma * Minute)%Z →
  GetRefreshExpiresIn info = (mr * Minute)%Z →
  (Oauth2mongo.Create tsA info w = Done eA wA →
   expiry_of wA (Oauth2mongo.AccessCName (Oauth2mongo.tcfg tsA)) (VString (GetAccess info))
   = Some (snd (Oauth2mongo.ExpiredAt (Add t (ma * Minute)))))
  ∧ (Mongo.Create tsB info w = Done None wB →
     expiry_of wB (Mongo.AccessCName (Mongo.tcfg tsB)) (VString (GetAccess info))
     = Some (snd (Mongo.ExpiredAt (Add t (ma * Minute))))).
Proof.
  intros Hjv Hacc Hta Htr Hma Hmr.
  assert (Hsame : ¬ (Second (Add t (ma * Minute)) > Second (Add t (mr * Minute)))%Z).
  { rewrite !Second_Add_minutes. lia. }
  split; intros Hrun.
  - destruct (Oauth2mongo_Create_Done tsA info jv w wA eA Hjv Hrun)
      as (_ & _ & _ & _ & Ha & _).
    specialize (Ha Hacc). rewrite Hta, Htr, Hma, Hmr in Ha.
    destruct (decide (GetRefresh info = "")).
    + exact (eq_trans (f_equal (λ o, o ≫= Lookup "ExpiredAt") Ha) eq_refl).
    + rewrite decide_False in Ha by exact Hsame.
      exact (eq_trans (f_equal (λ o, o ≫= Lookup "ExpiredAt") Ha) eq_refl).
  - destruct (Mongo_Create_Done_nil tsB info jv w wB Hjv Hrun) as (_ & _ & _ & Ha & _).
    rewrite Hta, Htr, Hma, Hmr in Ha.
    destruct (decide (GetRefresh info = "")).
    + exact (eq_trans (f_equal (λ o, o ≫= Lookup "ExpiredAt") Ha) eq_refl).
    + rewrite decide_False in Ha by exact Hsame.
      exact (eq_trans (f_equal (λ o, o ≫= Lookup "ExpiredAt") Ha) eq_refl).
Qed.

End ExpiryAndPlaces.

Lemma Mongo_Create_expiry_in_milliseconds_witness :
  let w' := world_of (Mongo.Create Sample.tsB Sample.info_1h_24h Sample.empty) in
  (∃ ms, expiry_of w' "oauth2_basic" (VString "c1") = Some (VDateTime ms)
         ∧ (ms * Millisecond ≤ Sample.now + 10 * Minute
            < ms * Millisecond + Millisecond)%Z)
  ∧ (∃ ms, expiry_of w' "oauth2_basic" (VObjectID 0%N) = Some (VDateTime ms)
           ∧ (ms * Millisecond ≤ Sample.now + 24 * Hour
              < ms * Millisecond + Millisecond)%Z).
Proof.
  intros w'.
  destruct (Mongo_Create_expiry_in_milliseconds Sample.tsB Sample.info_1h_24h
              "{token}" Sample.empty w' eq_refl) as [Hc Hb].
  - vm_compute; reflexivity.
  - split.
    + apply Hc; [vm_compute; congruence | split; vm_compute; congruence].
    + apply Hb. split; vm_compute; congruence.
Defined.

Lemma access_expiry_with_whole_minute_lifetimes_witness :
  let wA := world_of (Oauth2mongo.Create Sample.tsA Sample.info_2h_1h Sample.empty) in
  let wB := world_of (Mongo.Create Sample.tsB Sample.info_2h_1h Sample.empty) in
  expiry_of wA "oauth2_access" (VString "a1")
  = Some (snd (Oauth2mongo.ExpiredAt (Add Sample.now (120 * Minute))))
  ∧ expiry_of wB "oauth2_access" (VString "a1")
    = Some (snd (Mongo.ExpiredAt (Add Sample.now (120 * Minute)))).
Proof.
  intros wA wB.
  destruct (access_expiry_with_whole_minute_lifetimes Sample.tsA Sample.tsB
              Sample.info_2h_1h "{token}" Sample.empty wA wB None Sample.now 120 60)
    as [HA HB]; try reflexivity.
  - vm_compute; congruence.
  - split; [apply HA | apply HB]; vm_compute; reflexivity.
Defined.

(** ** Constructing the store *)

Section Construction.

Lemma Setup_bind_Started {A B} (m : Setup A) (f : A → Setup B) (s s' : Server) (b : B) :
  (m ≫= f) s = Started b s' → ∃ a s1, m s = Started a s1 ∧ f a s1 = Started b s'.
Proof.
  unfold mbind, Setup_bind. destruct (m s) as [a s1|st s1|e]; [eauto | done | done].
Qed.

(** What a successful [CreateOne] leaves. *)
Lemma IndexView_CreateOne_Started (cname : string) (m : IndexModel) (s s' : Server)
    (r : option error) :
  IndexView_CreateOne cname m s = Started r s' →
  db (world s') = db (world s)
  ∧ (∀ c' m', m' ∈ indexes_of s c' → m' ∈ indexes_of s' c')
  ∧ (r = None → m ∈ indexes_of s' cname)
  ∧ (r = None → m ∉ indexes_of s cname →
     List.existsb (clashes m) (indexes_of s cname) = false)
  ∧ (∀ c' m', m' ∈ indexes_of s' c' → m' ∈ indexes_of s c' ∨ (c' = cname ∧ m' = m)).
Proof.
  unfold IndexView_CreateOne.
  destruct (roundtrip (world s)) as [[e|] w1|st w1] eqn:Ert; [| |done].
  - intros [= <- <-]. apply roundtrip_inv in Ert as (Hdb & _).
    repeat split; try done. by left.
  - apply roundtrip_inv in Ert as (Hdb & _).
    destruct (decide (m ∈ indexes_of s cname)) as [Hin|Hout].
    + intros [= <- <-]. repeat split; try done. by left.
    + destruct (List.existsb (clashes m) (indexes_of s cname)) eqn:Ecl.
      * intros [= <- <-]. repeat split; try done. by left.
      * intros [= <- <-]. simpl. split; [done|].
        split; [|split; [|split; [done|]]].
        -- intros c' m' Hm'. unfold indexes_of in *. simpl.
           destruct (decide (cname = c')) as [<-|Hne].
           ++ rewrite lookup_insert_eq. simpl. apply elem_of_app. by left.
           ++ by rewrite lookup_insert_ne.
        -- intros _. unfold indexes_of. simpl. rewrite lookup_insert_eq. simpl.
           apply elem_of_app. right. by apply list_elem_of_singleton.
        -- intros c' m'. unfold indexes_of. simpl.
           destruct (decide (cname = c')) as [<-|Hne].
           ++ rewrite lookup_insert_eq. simpl. intros [Hold|Hnew]%elem_of_app.
              ** by left.
              ** right. split; [done|]. by apply list_elem_of_singleton in Hnew.
           ++ rewrite lookup_insert_ne by done. by left.
Qed.

Lemma Oauth2mongo_CreateIndex_Started (db0 cname : string) (m : IndexModel)
    (s s' : Server) (u : unit) :
  Oauth2mongo_setup.CreateIndex db0 cname m s = Started u s' →
  IndexView_CreateOne cname m s = Started None s'.
Proof.
  unfold Oauth2mongo_setup.CreateIndex. intros Hrun.
  apply Setup_bind_Started in Hrun as ([e|] & s1 & Hone & Hrest); [done|].
  injection Hrest as _ <-. exact Hone.
Qed.

(** The two packages construct the store by the same steps. *)
Lemma Mongo_setup_unfold (db0 : string) (tcfgs : list Mongo.TokenConfig) (s : Server) :
  let cfg := match tcfgs with cfg :: _ => cfg | [] => Mongo.NewDefaultTokenConfig end in
  Mongo_setup.NewTokenStoreWithSession db0 tcfgs s
  = ((err ← IndexView_CreateOne (Mongo.BasicCName cfg) (expiry_index "basicCNameIndex");
      match err with Some e => Setup_log_Fatal e | None => mret tt end) ≫= λ _,
     (err ← IndexView_CreateOne (Mongo.AccessCName cfg) (expiry_index "accessCNameIndex");
      match err with Some e => Setup_log_Fatal e | None => mret tt end) ≫= λ _,
     (err ← IndexView_CreateOne (Mongo.RefreshCName cfg) (expiry_index "refreshCNameIndex");
      match err with Some e => Setup_log_Fatal e | None => mret tt end) ≫= λ _,
     mret (Mongo.mkTokenStore cfg db0)) s.
Proof.
  unfold Mongo_setup.NewTokenStoreWithSession, mbind, Setup_bind.
  destruct tcfgs as [|cfg rest]; simpl;
    repeat match goal with
           | |- context [IndexView_CreateOne ?c ?m ?s0] =>
               destruct (IndexView_CreateOne c m s0) as [[?|] ?|? ?|?]; simpl; try done
           end.
Qed.

Lemma three_steps_Started {T} (db0 b a r : string) (ts ts' : T) (s s' : Server) :
  (Oauth2mongo_setup.CreateIndex db0 b (expiry_index "basicCNameIndex") ≫= λ _,
   Oauth2mongo_setup.CreateIndex db0 a (expiry_index "accessCNameIndex") ≫= λ _,
   Oauth2mongo_setup.CreateIndex db0 r (expiry_index "refreshCNameIndex") ≫= λ _,
   mret ts) s = Started ts' s' →
  ts' = ts
  ∧ ∃ s1 s2,
      IndexView_CreateOne b (expiry_index "basicCNameIndex") s = Started None s1
      ∧ IndexView_CreateOne a (expiry_index "accessCNameIndex") s1 = Started None s2
      ∧ IndexView_CreateOne r (expiry_index "refreshCNameIndex") s2 = Started None s'.
Proof.
  intros Hrun.
  apply Setup_bind_Started in Hrun as (u1 & s1 & H1 & Hrun).
  apply Setup_bind_Started in Hrun as (u2 & s2 & H2 & Hrun).
  apply Setup_bind_Started in Hrun as (u3 & s3 & H3 & Hrun).
  injection Hrun as <- <-.
  apply Oauth2mongo_CreateIndex_Started in H1, H2, H3. eauto 8.
Qed.

(** What the three steps give when they all succeed. *)
Lemma three_indexes (b a r : string) (s s1 s2 s' : Server) :
  IndexView_CreateOne b (expiry_index "basicCNameIndex") s = Started None s1 →
  IndexView_CreateOne a (expiry_index "accessCNameIndex") s1 = Started None s2 →
  IndexView_CreateOne r (expiry_index "refreshCNameIndex") s2 = Started None s' →
  db (world s') = db (world s)
  ∧ expiry_index "basicCNameIndex" ∈ indexes_of s' b
  ∧ expiry_index "accessCNameIndex" ∈ indexes_of s' a
  ∧ expiry_index "refreshCNameIndex" ∈ indexes_of s' r
  ∧ (∀ c m, m ∈ indexes_of s c → m ∈ indexes_of s' c).
Proof.
  intros H1 H2 H3.
  apply IndexView_CreateOne_Started in H1 as (D1 & K1 & I1 & _).
  apply IndexView_CreateOne_Started in H2 as (D2 & K2 & I2 & _).
  apply IndexView_CreateOne_Started in H3 as (D3 & K3 & I3 & _).
  split; [congruence|]. split; [by apply K3, K2, I1|].
  split; [by apply K3, I2|]. split; [by apply I3|].
  intros c m Hm. by apply K3, K2, K1.
Qed.

(** X21: a store is handed over only with its three expiry indexes in
    place.  When [NewTokenStoreWithSession] returns, in either package, the
    store has the first configuration given (the default one when none is
    given; further ones are ignored) and the database name given, each of
    its three collections has an ascending index on [ExpiredAt] that expires
    documents one second after that instant, the indexes that were there
    are still there, and no document was touched. *)
Theorem setup_returns_only_with_expiry_indexes
    (db0 : string) (tcfgsA : list Oauth2mongo.TokenConfig)
    (tcfgsB : list Mongo.TokenConfig) (s sA sB : Server)
    (tsA : Oauth2mongo.TokenStore) (tsB : Mongo.TokenStore) :
  Oauth2mongo_setup.NewTokenStoreWithSession db0 tcfgsA s = Started tsA sA →
  Mongo_setup.NewTokenStoreWithSession db0 tcfgsB s = Started tsB sB →
  (tsA = Oauth2mongo.mkTokenStore (hd Oauth2mongo.NewDefaultTokenConfig tcfgsA) db0
   ∧ db (world sA) = db (world s)
   ∧ mkIndexModel [("ExpiredAt", 1%Z)] 1 "basicCNameIndex"
     ∈ indexes_of sA (Oauth2mongo.BasicCName (Oauth2mongo.tcfg tsA))
   ∧ mkIndexModel [("ExpiredAt", 1%Z)] 1 "accessCNameIndex"
     ∈ indexes_of sA (Oauth2mongo.AccessCName (Oauth2mongo.tcfg tsA))
   ∧ mkIndexModel [("ExpiredAt", 1%Z)] 1 "refreshCNameIndex"
     ∈ indexes_of sA (Oauth2mongo.RefreshCName (Oauth2mongo.tcfg tsA))
   ∧ (∀ c m, m ∈ indexes_of s c → m ∈ indexes_of sA c))
  ∧ (tsB = Mongo.mkTokenStore (hd Mongo.NewDefaultTokenConfig tcfgsB) db0
     ∧ db (world sB) = db (world s)
     ∧ mkIndexModel [("ExpiredAt", 1%Z)] 1 "basicCNameIndex"
       ∈ indexes_of sB (Mongo.BasicCName (Mongo.tcfg tsB))
     ∧ mkIndexModel [("ExpiredAt", 1%Z)] 1 "accessCNameIndex"
       ∈ indexes_of sB (Mongo.AccessCName (Mongo.tcfg tsB))
     ∧ mkIndexModel [("ExpiredAt", 1%Z)] 1 "refreshCNameIndex"
       ∈ indexes_of sB (Mongo.RefreshCName (Mongo.tcfg tsB))
     ∧ (∀ c m, m ∈ indexes_of s c → m ∈ indexes_of sB c)).
Proof.
  intros HA HB. split.
  - assert (HA' : (Oauth2mongo_setup.CreateIndex db0
                     (Oauth2mongo.BasicCName (hd Oauth2mongo.NewDefaultTokenConfig tcfgsA))
                     (expiry_index "basicCNameIndex") ≫= λ _,
                   Oauth2mongo_setup.CreateIndex db0
                     (Oauth2mongo.AccessCName (hd Oauth2mongo.NewDefaultTokenConfig tcfgsA))
                     (expiry_index "accessCNameIndex") ≫= λ _,
                   Oauth2mongo_setup.CreateIndex db0
                     (Oauth2mongo.RefreshCName (hd Oauth2mongo.NewDefaultTokenConfig tcfgsA))
                     (expiry_index "refreshCNameIndex") ≫= λ _,
                   mret (Oauth2mongo.mkTokenStore
                           (hd Oauth2mongo.NewDefaultTokenConfig tcfgsA) db0)) s
                  = Started tsA sA)
      by (by destruct tcfgsA).
    apply three_steps_Started in HA' as (-> & s1 & s2 & H1 & H2 & H3).
    split; [done|]. exact (three_indexes _ _ _ s s1 s2 sA H1 H2 H3).
  - rewrite Mongo_setup_unfold in HB. cbv zeta in HB.
    assert (HB' : (Oauth2mongo_setup.CreateIndex db0
                     (Mongo.BasicCName (hd Mongo.NewDefaultTokenConfig tcfgsB))
                     (expiry_index "basicCNameIndex") ≫= λ _,
                   Oauth2mongo_setup.CreateIndex db0
                     (Mongo.AccessCName (hd Mongo.NewDefaultTokenConfig tcfgsB))
                     (expiry_index "accessCNameIndex") ≫= λ _,
                   Oauth2mongo_setup.CreateIndex db0
                     (Mongo.RefreshCName (hd Mongo.NewDefaultTokenConfig tcfgsB))
                     (expiry_index "refreshCNameIndex") ≫= λ _,
                   mret (Mongo.mkTokenStore (hd Mongo.NewDefaultTokenConfig tcfgsB) db0)) s
                  = Started tsB sB)
      by (by destruct tcfgsB).
    apply three_steps_Started in HB' as (-> & s1 & s2 & H1 & H2 & H3).
    split; [done|]. exact (three_indexes _ _ _ s s1 s2 sB H1 H2 H3).
Qed.

End Construction.

Section ConstructionRuns.

Lemma IndexView_CreateOne_failing (cname : string) (m : IndexModel) (s : Server)
    (msg : string) (fs : list (option string)) :
  faults (world s) = Some msg :: fs →
  IndexView_CreateOne cname m s
  = Started (Some (ErrBackend msg)) (mkServer (set_faults fs (world s)) (indexes s)).
Proof. unfold IndexView_CreateOne, roundtrip. by intros ->. Qed.

Lemma IndexView_CreateOne_present (cname : string) (m : IndexModel) (s : Server) :
  faults (world s) = [] → m ∈ indexes_of s cname →
  IndexView_CreateOne cname m s = Started None s.
Proof.
  intros Hq Hin. unfold IndexView_CreateOne. rewrite (roundtrip_quiet _ Hq).
  rewrite decide_True by done. by destruct s.
Qed.

Lemma Oauth2mongo_CreateIndex_present (db0 cname : string) (m : IndexModel) (s : Server) :
  faults (world s) = [] → m ∈ indexes_of s cname →
  Oauth2mongo_setup.CreateIndex db0 cname m s = Started tt s.
Proof.
  intros Hq Hin. unfold Oauth2mongo_setup.CreateIndex, mbind, Setup_bind.
  by rewrite (IndexView_CreateOne_present _ _ _ Hq Hin).
Qed.

Lemma Oauth2mongo_setup_unfold (db0 : string) (tcfgs : list Oauth2mongo.TokenConfig) :
  Oauth2mongo_setup.NewTokenStoreWithSession db0 tcfgs
  = (Oauth2mongo_setup.CreateIndex db0
       (Oauth2mongo.BasicCName (hd Oauth2mongo.NewDefaultTokenConfig tcfgs))
       (expiry_index "basicCNameIndex") ≫= λ _,
     Oauth2mongo_setup.CreateIndex db0
       (Oauth2mongo.AccessCName (hd Oauth2mongo.NewDefaultTokenConfig tcfgs))
       (expiry_index "accessCNameIndex") ≫= λ _,
     Oauth2mongo_setup.CreateIndex db0
       (Oauth2mongo.RefreshCName (hd Oauth2mongo.NewDefaultTokenConfig tcfgs))
       (expiry_index "refreshCNameIndex") ≫= λ _,
     mret (Oauth2mongo.mkTokenStore (hd Oauth2mongo.NewDefaultTokenConfig tcfgs) db0)).
Proof. by destruct tcfgs. Qed.

Lemma Mongo_setup_steps (db0 : string) (tcfgs : list Mongo.TokenConfig) (s : Server) :
  Mongo_setup.NewTokenStoreWithSession db0 tcfgs s
  = (Oauth2mongo_setup.CreateIndex db0
       (Mongo.BasicCName (hd Mongo.NewDefaultTokenConfig tcfgs))
       (expiry_index "basicCNameIndex") ≫= λ _,
     Oauth2mongo_setup.CreateIndex db0
       (Mongo.AccessCName (hd Mongo.NewDefaultTokenConfig tcfgs))
       (expiry_index "accessCNameIndex") ≫= λ _,
     Oauth2mongo_setup.CreateIndex db0
       (Mongo.RefreshCName (hd Mongo.NewDefaultTokenConfig tcfgs))
       (expiry_index "refreshCNameIndex") ≫= λ _,
     mret (Mongo.mkTokenStore (hd Mongo.NewDefaultTokenConfig tcfgs) db0)) s.
Proof. rewrite Mongo_setup_unfold. by destruct tcfgs. Qed.

(** The ending of the three steps does not depend on the store they hand
    over. *)
Lemma three_steps_ending {T U} (db0 b a r : string) (t : T) (u : U) (s : Server) :
  ending ((Oauth2mongo_setup.CreateIndex db0 b (expiry_index "basicCNameIndex") ≫= λ _,
           Oauth2mongo_setup.CreateIndex db0 a (expiry_index "accessCNameIndex") ≫= λ _,
           Oauth2mongo_setup.CreateIndex db0 r (expiry_index "refreshCNameIndex") ≫= λ _,
           mret t) s)
  = ending ((Oauth2mongo_setup.CreateIndex db0 b (expiry_index "basicCNameIndex") ≫= λ _,
             Oauth2mongo_setup.CreateIndex db0 a (expiry_index "accessCNameIndex") ≫= λ _,
             Oauth2mongo_setup.CreateIndex db0 r (expiry_index "refreshCNameIndex") ≫= λ _,
             mret u) s).
Proof.
  unfold mbind, Setup_bind.
  destruct (Oauth2mongo_setup.CreateIndex db0 b _ s) as [? s1| |]; try done.
  destruct (Oauth2mongo_setup.CreateIndex db0 a _ s1) as [? s2| |]; try done.
  by destruct (Oauth2mongo_setup.CreateIndex db0 r _ s2) as [? s3| |].
Qed.

(** X22: a backend failure while the indexes are set up ends the process.
    When the round-trip that creates the first index fails,
    [NewTokenStoreWithSession] of either package hands no store over: the
    process ends with status 1, the backend's error logged, after that one
    round-trip, with no index created and no document touched. *)
Theorem setup_ends_the_process_on_a_backend_failure
    (db0 : string) (tcfgsA : list Oauth2mongo.TokenConfig)
    (tcfgsB : list Mongo.TokenConfig) (s : Server)
    (msg : string) (fs : list (option string)) :
  faults (world s) = Some msg :: fs →
  Oauth2mongo_setup.NewTokenStoreWithSession db0 tcfgsA s
  = Aborted 1 (mkServer (log_entry (ErrBackend msg) (set_faults fs (world s)))
                        (indexes s))
  ∧ Mongo_setup.NewTokenStoreWithSession db0 tcfgsB s
    = Aborted 1 (mkServer (log_entry (ErrBackend msg) (set_faults fs (world s)))
                          (indexes s)).
Proof.
  intros Hf. split.
  - rewrite Oauth2mongo_setup_unfold.
    unfold Oauth2mongo_setup.CreateIndex, mbind, Setup_bind.
    by rewrite (IndexView_CreateOne_failing _ _ _ _ _ Hf).
  - rewrite Mongo_setup_steps.
    unfold Oauth2mongo_setup.CreateIndex, mbind, Setup_bind.
    by rewrite (IndexView_CreateOne_failing _ _ _ _ _ Hf).
Qed.

(** X23: the two packages construct a store alike.  Given the same client
    factory, the same URL and database name, and configurations whose
    first entries (or the defaults) name the collections alike,
    [NewTokenStore] of package [oauth2mongo], which sets each index up
    through [CreateIndex], and [NewTokenStore] of package [mongo], which
    has the three calls inline, end alike: both panic, or both end the
    process with the same status, or both return, and they leave the same
    server behind. *)
Theorem constructions_agree
    (mongo_NewClient : string → result Server)
    (cfgA : Oauth2mongo_setup.Config) (cfgB : Mongo_setup.Config)
    (tcfgsA : list Oauth2mongo.TokenConfig) (tcfgsB : list Mongo.TokenConfig) :
  Oauth2mongo_setup.URL cfgA = Mongo_setup.URL cfgB →
  Oauth2mongo_setup.DB cfgA = Mongo_setup.DB cfgB →
  same_names (hd Oauth2mongo.NewDefaultTokenConfig tcfgsA)
             (hd Mongo.NewDefaultTokenConfig tcfgsB) →
  ending (Oauth2mongo_setup.NewTokenStore mongo_NewClient cfgA tcfgsA)
  = ending (Mongo_setup.NewTokenStore mongo_NewClient cfgB tcfgsB).
Proof.
  intros Hurl Hdb (Hb & Ha & Hr).
  unfold Oauth2mongo_setup.NewTokenStore, Mongo_setup.NewTokenStore.
  rewrite Hurl, Hdb. destruct (mongo_NewClient _) as [client|e]; [|done].
  rewrite Oauth2mongo_setup_unfold, Mongo_setup_steps, Hb, Ha, Hr.
  apply three_steps_ending.
Qed.

(** X24: constructing a store again changes nothing.  Once
    [NewTokenStoreWithSession] has returned a store, a second construction
    with the same arguments on the server it left behind, the backend
    serving every round-trip, returns the same store and leaves the server
    as it is: no index is added twice. *)
Theorem setup_again_changes_nothing
    (db0 : string) (tcfgsA : list Oauth2mongo.TokenConfig)
    (tcfgsB : list Mongo.TokenConfig) (s sA sB : Server)
    (tsA : Oauth2mongo.TokenStore) (tsB : Mongo.TokenStore) :
  Oauth2mongo_setup.NewTokenStoreWithSession db0 tcfgsA s = Started tsA sA →
  Mongo_setup.NewTokenStoreWithSession db0 tcfgsB s = Started tsB sB →
  faults (world sA) = [] → faults (world sB) = [] →
  Oauth2mongo_setup.NewTokenStoreWithSession db0 tcfgsA sA = Started tsA sA
  ∧ Mongo_setup.NewTokenStoreWithSession db0 tcfgsB sB = Started tsB sB.
Proof.
  intros HA HB HqA HqB. split.
  - rewrite Oauth2mongo_setup_unfold in HA.
    apply three_steps_Started in HA as (-> & s1 & s2 & H1 & H2 & H3).
    destruct (three_indexes _ _ _ _ _ _ _ H1 H2 H3) as (_ & Ib & Ia & Ir & _).
    rewrite Oauth2mongo_setup_unfold. unfold mbind, Setup_bind.
    by rewrite !Oauth2mongo_CreateIndex_present.
  - rewrite Mongo_setup_steps in HB.
    apply three_steps_Started in HB as (-> & s1 & s2 & H1 & H2 & H3).
    destruct (three_indexes _ _ _ _ _ _ _ H1 H2 H3) as (_ & Ib & Ia & Ir & _).
    rewrite Mongo_setup_steps. unfold mbind, Setup_bind.
    by rewrite !Oauth2mongo_CreateIndex_present.
Qed.

(** A second expiry index under another name is refused. *)
Lemma expiry_index_refused (cname n n' : string) (s s' : Server) :
  n ≠ n' → expiry_index n' ∈ indexes_of s cname →
  expiry_index n ∉ indexes_of s cname →
  IndexView_CreateOne cname (expiry_index n) s ≠ Started None s'.
Proof.
  intros Hn Hin Hout H.
  apply IndexView_CreateOne_Started in H as (_ & _ & _ & C & _).
  specialize (C eq_refl Hout).
  assert (Hcl : List.existsb (clashes (expiry_index n)) (indexes_of s cname) = true).
  { apply existsb_exists. exists (expiry_index n'). split.
    - by apply list_elem_of_In.
    - unfold clashes. apply bool_decide_eq_true. split; [|by right].
      intros [= E]. done. }
  congruence.
Qed.

Lemma three_steps_distinct (b a r : string) (s s1 s2 s' : Server) :
  indexes s = ∅ →
  IndexView_CreateOne b (expiry_index "basicCNameIndex") s = Started None s1 →
  IndexView_CreateOne a (expiry_index "accessCNameIndex") s1 = Started None s2 →
  IndexView_CreateOne r (expiry_index "refreshCNameIndex") s2 = Started None s' →
  b ≠ a ∧ b ≠ r ∧ a ≠ r.
Proof.
  intros Hempty H1 H2 H3.
  assert (Hnone : ∀ c m, m ∉ indexes_of s c).
  { intros c m. unfold indexes_of. rewrite Hempty, lookup_empty. apply not_elem_of_nil. }
  destruct (IndexView_CreateOne_Started _ _ _ _ _ H1) as (_ & K1 & I1 & _ & O1).
  destruct (IndexView_CreateOne_Started _ _ _ _ _ H2) as (_ & K2 & I2 & _ & O2).
  specialize (I1 eq_refl). specialize (I2 eq_refl).
  split; [|split].
  - intros E.
    apply (expiry_index_refused a "accessCNameIndex" "basicCNameIndex" s1 s2);
      [done| by rewrite <- E | | exact H2].
    intros [Hin|[_ [=]]]%O1. by apply Hnone in Hin.
  - intros E.
    apply (expiry_index_refused r "refreshCNameIndex" "basicCNameIndex" s2 s');
      [done| rewrite <- E; by apply K2 | | exact H3].
    intros [[Hin|[_ [=]]]%O1|[_ [=]]]%O2. by apply Hnone in Hin.
  - intros E.
    apply (expiry_index_refused r "refreshCNameIndex" "accessCNameIndex" s2 s');
      [done| by rewrite <- E | | exact H3].
    intros [[Hin|[_ [=]]]%O1|[_ [=]]]%O2. by apply Hnone in Hin.
Qed.

(** X25: a store whose collections share a name is never handed over by a
    server without indexes.  The server refuses a second index on the same
    key under another name, so when [NewTokenStoreWithSession] returns on
    a server that had no index, the three collection names of the store's
    configuration are pairwise different. *)
Theorem setup_on_a_server_without_indexes_needs_distinct_names
    (db0 : string) (tcfgsA : list Oauth2mongo.TokenConfig)
    (tcfgsB : list Mongo.TokenConfig) (s sA sB : Server)
    (tsA : Oauth2mongo.TokenStore) (tsB : Mongo.TokenStore) :
  indexes s = ∅ →
  Oauth2mongo_setup.NewTokenStoreWithSession db0 tcfgsA s = Started tsA sA →
  Mongo_setup.NewTokenStoreWithSession db0 tcfgsB s = Started tsB sB →
  distinct_names (Oauth2mongo.tcfg tsA)
  ∧ (Mongo.BasicCName (Mongo.tcfg tsB) ≠ Mongo.AccessCName (Mongo.tcfg tsB)
     ∧ Mongo.BasicCName (Mongo.tcfg tsB) ≠ Mongo.RefreshCName (Mongo.tcfg tsB)
     ∧ Mongo.AccessCName (Mongo.tcfg tsB) ≠ Mongo.RefreshCName (Mongo.tcfg tsB)).
Proof.
  intros Hempty HA HB. split.
  - rewrite Oauth2mongo_setup_unfold in HA.
    apply three_steps_Started in HA as (-> & s1 & s2 & H1 & H2 & H3).
    exact (three_steps_distinct _ _ _ _ _ _ _ Hempty H1 H2 H3).
  - rewrite Mongo_setup_steps in HB.
    apply three_steps_Started in HB as (-> & s1 & s2 & H1 & H2 & H3).
    exact (three_steps_distinct _ _ _ _ _ _ _ Hempty H1 H2 H3).
Qed.

End ConstructionRuns.

Lemma setup_returns_only_with_expiry_indexes_witness :
  Oauth2mongo_setup.NewTokenStoreWithSession "oauth2" [] Cases.server
  = Started Sample.tsA Cases.server_set_up
  ∧ mkIndexModel [("ExpiredAt", 1%Z)] 1 "accessCNameIndex"
    ∈ indexes_of Cases.server_set_up "oauth2_access".
Proof.
  assert (HA : Oauth2mongo_setup.NewTokenStoreWithSession "oauth2" [] Cases.server
               = Started Sample.tsA Cases.server_set_up) by (vm_compute; reflexivity).
  assert (HB : Mongo_setup.NewTokenStoreWithSession "oauth2" [] Cases.server
               = Started Sample.tsB Cases.server_set_up) by (vm_compute; reflexivity).
  split; [exact HA|].
  exact (proj1 (proj2 (proj2 (proj2 (proj1
    (setup_returns_only_with_expiry_indexes "oauth2" [] [] Cases.server _ _ _ _ HA HB)))))).
Defined.

Lemma setup_ends_the_process_on_a_backend_failure_witness :
  Oauth2mongo_setup.NewTokenStoreWithSession "oauth2" []
    (mkServer (Cases.failing Sample.empty) ∅)
  = Aborted 1 (mkServer (log_entry (ErrBackend "connection reset") Sample.empty) ∅).
Proof.
  exact (proj1 (setup_ends_the_process_on_a_backend_failure "oauth2" [] []
                  (mkServer (Cases.failing Sample.empty) ∅)
                  "connection reset" [] eq_refl)).
Defined.

Lemma constructions_agree_witness :
  ending (Oauth2mongo_setup.NewTokenStore (λ _, Ok Cases.server)
            (Oauth2mongo_setup.NewConfig "mongodb://127.0.0.1:27017" "oauth2") [])
  = ending (Mongo_setup.NewTokenStore (λ _, Ok Cases.server)
              (Mongo_setup.NewConfig "mongodb://127.0.0.1:27017" "oauth2") []).
Proof.
  apply (constructions_agree (λ _, Ok Cases.server)
           (Oauth2mongo_setup.NewConfig "mongodb://127.0.0.1:27017" "oauth2")
           (Mongo_setup.NewConfig "mongodb://127.0.0.1:27017" "oauth2") [] []);
    [reflexivity | reflexivity | repeat split].
Defined.

Lemma setup_again_changes_nothing_witness :
  Oauth2mongo_setup.NewTokenStoreWithSession "oauth2" [] Cases.server_set_up
  = Started Sample.tsA Cases.server_set_up
  ∧ Mongo_setup.NewTokenStoreWithSession "oauth2" [] Cases.server_set_up
    = Started Sample.tsB Cases.server_set_up.
Proof.
  apply (setup_again_changes_nothing "oauth2" [] [] Cases.server);
    [vm_compute; reflexivity | vm_compute; reflexivity | reflexivity | reflexivity].
Defined.

Lemma setup_on_a_server_without_indexes_needs_distinct_names_witness :
  distinct_names (Oauth2mongo.tcfg Sample.tsA)
  ∧ (Mongo.BasicCName (Mongo.tcfg Sample.tsB) ≠ Mongo.AccessCName (Mongo.tcfg Sample.tsB)
     ∧ Mongo.BasicCName (Mongo.tcfg Sample.tsB) ≠ Mongo.RefreshCName (Mongo.tcfg Sample.tsB)
     ∧ Mongo.AccessCName (Mongo.tcfg Sample.tsB) ≠ Mongo.RefreshCName (Mongo.tcfg Sample.tsB)).
Proof.
  apply (setup_on_a_server_without_indexes_needs_distinct_names "oauth2" [] []
           Cases.server Cases.server_set_up Cases.server_set_up);
    [reflexivity | vm_compute; reflexivity | vm_compute; reflexivity].
Defined.
